(** * EPANET 3 pressure-management extension: valves and the DPRV controller

    A shallow embedding of [src/Elements/valve.cpp], of
    [Project::pressureManagement], [Project::lasting] and
    [Project::runSolver] of [src/Core/project.cpp], and the properties of
    the specification that concern them.

    Numbers.  A C++ [double] is modelled by an exact rational of [Q]: every
    literal of the source is a decimal, hence a rational, and comparisons
    and arithmetic are those of the rationals.  Rounding, infinities and
    NaN are outside the model.  A C++ [int] is an integer of [Z]. *)

From Stdlib Require Import QArith Qabs Qround Qminmax ZArith List String Bool Lqa Lia.
Import ListNotations.

Local Open Scope Q_scope.

(** ** Doubles and their comparisons *)

Definition double := Q.

Definition dlt (x y : double) : bool := negb (Qle_bool y x).
Definition dle (x y : double) : bool := Qle_bool x y.
Definition deq (x y : double) : bool := Qeq_bool x y.

Infix "<?" := dlt (at level 70, no associativity) : Q_scope.
Infix "<=?" := dle (at level 70, no associativity) : Q_scope.
Infix "=?" := deq (at level 70, no associativity) : Q_scope.
Notation "x >? y" := (dlt y x) (at level 70, no associativity, only parsing) : Q_scope.
Notation "x >=? y" := (dle y x) (at level 70, no associativity, only parsing) : Q_scope.
Notation "x !=? y" := (negb (deq x y)) (at level 70, no associativity) : Q_scope.

(** [(int)x]: conversion of a double to an integer truncates toward zero. *)
Definition trunc (x : double) : Z :=
  if 0 <=? x then Qfloor x else Qceiling x.

(** [std::max] on doubles: [(a < b) ? b : a]. *)
Definition dmax (a b : double) : double := if a <? b then b else a.

(** ** Constants of [Core/constants.h]

    The header is not among the sources read here; its constants are the
    fields of a class, so that the code below reads as the C++ does. *)

Class Constants := {
  MIN_GRADIENT : double;      (* smallest head loss gradient *)
  ZERO_FLOW : double;         (* flow assigned to a closed link *)
  HIGH_RESISTANCE : double;   (* resistance of a closed link *)
  PI : double
}.

(** ** Enumerations *)

(** [Link::LinkStatus] *)
Inductive LinkStatus := LINK_CLOSED | LINK_OPEN | VALVE_ACTIVE | TEMP_CLOSED.

(** [Valve::ValveType] *)
Inductive ValveType := PRV | PSV | FCV | TCV | PBV | GPV | CCV | DPRV.

(** [Valve::PresManagType] *)
Inductive PresManagType := FO | TM | FM | RNM.

Definition LinkStatus_eqb (a b : LinkStatus) : bool :=
  match a, b with
  | LINK_CLOSED, LINK_CLOSED | LINK_OPEN, LINK_OPEN
  | VALVE_ACTIVE, VALVE_ACTIVE | TEMP_CLOSED, TEMP_CLOSED => true
  | _, _ => false
  end.

Definition ValveType_eqb (a b : ValveType) : bool :=
  match a, b with
  | PRV, PRV | PSV, PSV | FCV, FCV | TCV, TCV
  | PBV, PBV | GPV, GPV | CCV, CCV | DPRV, DPRV => true
  | _, _ => false
  end.

(** ** Nodes

    The fields of [Node] that the valve code and the controller read. *)

Module Node.
Record t := {
  head : double;       (* current hydraulic head *)
  pastHead : double;   (* head at the previous step *)
  elev : double        (* elevation *)
}.
End Node.

(** A [Node*] is the index of the node in the network's node table. *)
Definition NodePtr := nat.

(** ** Valves

    The record holds the members of [Valve] and those it inherits from
    [Link] that the modelled code reads or writes. *)

Record Valve := {
  (* inherited from Link *)
  fromNode : NodePtr;
  toNode : NodePtr;
  initStatus : LinkStatus;
  diameter : double;
  lossCoeff : double;
  initSetting : double;
  status : LinkStatus;
  flow : double;
  hLoss : double;
  hGrad : double;
  setting : double;
  inertialTerm : double;
  pastFlow : double;
  pastHloss : double;
  pastSetting : double;
  (* declared in Valve *)
  valveType : ValveType;
  lossFactor : double;
  settingPattern : option nat;
  presManagType : PresManagType;
  fixedOutletPressure : double;
  dayPressure : double;
  nightPressure : double;
  a_FM : double;
  b_FM : double;
  c_FM : double;
  rnmPressure : double;
  remoteNode : NodePtr;
  dprvOutletPressure : double;
  Xm : double;
  delta_Xm : double;
  Xm_Last : double;
  errorValve : double;
  errorSumValve : double;
  errorDifValve : double;
  errorPreValve : double;
  hasFixedStatus : bool;
  elev : double
}.

(** Assignment to a member.  The setter of a field is read off the
    eta-expansion of the record. *)

Definition etaValve (v : Valve) : Valve :=
  Build_Valve (fromNode v) (toNode v) (initStatus v) (diameter v) (lossCoeff v)
    (initSetting v) (status v) (flow v) (hLoss v) (hGrad v) (setting v)
    (inertialTerm v) (pastFlow v) (pastHloss v) (pastSetting v)
    (valveType v) (lossFactor v) (settingPattern v) (presManagType v)
    (fixedOutletPressure v) (dayPressure v) (nightPressure v)
    (a_FM v) (b_FM v) (c_FM v) (rnmPressure v) (remoteNode v)
    (dprvOutletPressure v) (Xm v) (delta_Xm v) (Xm_Last v)
    (errorValve v) (errorSumValve v) (errorDifValve v) (errorPreValve v)
    (hasFixedStatus v) (elev v).

Ltac mkSetter proj :=
  let e := eval cbv delta [etaValve] in etaValve in
  lazymatch eval pattern proj in e with
  | ?s _ =>
      let r := eval cbv beta in (fun x v => s (fun _ => x) v) in
      exact r
  end.

Class Setter {T : Type} (proj : Valve -> T) := set : T -> Valve -> Valve.
Arguments set {T} proj {Setter} _ _.

#[global] Instance set_initStatus : Setter initStatus := ltac:(mkSetter initStatus).
#[global] Instance set_diameter : Setter diameter := ltac:(mkSetter diameter).
#[global] Instance set_initSetting : Setter initSetting := ltac:(mkSetter initSetting).
#[global] Instance set_status : Setter status := ltac:(mkSetter status).
#[global] Instance set_flow : Setter flow := ltac:(mkSetter flow).
#[global] Instance set_hLoss : Setter hLoss := ltac:(mkSetter hLoss).
#[global] Instance set_hGrad : Setter hGrad := ltac:(mkSetter hGrad).
#[global] Instance set_setting : Setter setting := ltac:(mkSetter setting).
#[global] Instance set_inertialTerm : Setter inertialTerm := ltac:(mkSetter inertialTerm).
#[global] Instance set_pastFlow : Setter pastFlow := ltac:(mkSetter pastFlow).
#[global] Instance set_pastHloss : Setter pastHloss := ltac:(mkSetter pastHloss).
#[global] Instance set_pastSetting : Setter pastSetting := ltac:(mkSetter pastSetting).
#[global] Instance set_lossFactor : Setter lossFactor := ltac:(mkSetter lossFactor).
#[global] Instance set_dprvOutletPressure : Setter dprvOutletPressure :=
  ltac:(mkSetter dprvOutletPressure).
#[global] Instance set_Xm : Setter Xm := ltac:(mkSetter Xm).
#[global] Instance set_delta_Xm : Setter delta_Xm := ltac:(mkSetter delta_Xm).
#[global] Instance set_Xm_Last : Setter Xm_Last := ltac:(mkSetter Xm_Last).
#[global] Instance set_errorValve : Setter errorValve := ltac:(mkSetter errorValve).
#[global] Instance set_errorSumValve : Setter errorSumValve := ltac:(mkSetter errorSumValve).
#[global] Instance set_errorDifValve : Setter errorDifValve := ltac:(mkSetter errorDifValve).
#[global] Instance set_errorPreValve : Setter errorPreValve := ltac:(mkSetter errorPreValve).
#[global] Instance set_hasFixedStatus : Setter hasFixedStatus := ltac:(mkSetter hasFixedStatus).
#[global] Instance set_elev : Setter elev := ltac:(mkSetter elev).
#[global] Instance set_valveType : Setter valveType := ltac:(mkSetter valveType).
#[global] Instance set_presManagType : Setter presManagType :=
  ltac:(mkSetter presManagType).

(** [v <| f := x |>] is the valve [v] after the assignment [f = x]. *)
Notation "v <| f := x |>" := (set f x v)
  (at level 1, left associativity, f at level 0, format "v  <| f  :=  x |>").

(** ** Links and the network *)

(** A link of the network: [Link::type()] tells a valve from a pipe or a
    pump; only valves carry state that the controller touches. *)
Inductive Link := PIPE | PUMP | VALVE (valve : Valve).

(** A line [getTime(t) << " " << Xm] of the valve-opening trace file. *)
Definition TraceLine := (Z * double)%type.

(** [Network], as far as the modelled code consults it: the node table, the
    links, the unit conversion factors [ucf(Units::...)], the options read
    through [option(Options::...)], the curves through
    [curve(i)->findSegment(x, r, h0)], the patterns through [currentFactor()]
    and the message log. *)
Record Network := {
  node : NodePtr -> Node.t;
  links : list Link;
  ucf_PRESSURE : double;
  ucf_FLOW : double;
  ucf_LENGTH : double;
  ucf_DIAMETER : double;
  option_HYD_STEP : Z;
  option_REPORT_STEP : Z;
  option_VALVE_REP_TYPE : string;
  findSegment : Z -> double -> double * double;
  currentFactor : nat -> double;
  msgLog : string
}.

Definition with_links (ls : list Link) (nw : Network) : Network :=
  {| node := node nw; links := ls;
     ucf_PRESSURE := ucf_PRESSURE nw; ucf_FLOW := ucf_FLOW nw;
     ucf_LENGTH := ucf_LENGTH nw; ucf_DIAMETER := ucf_DIAMETER nw;
     option_HYD_STEP := option_HYD_STEP nw;
     option_REPORT_STEP := option_REPORT_STEP nw;
     option_VALVE_REP_TYPE := option_VALVE_REP_TYPE nw;
     findSegment := findSegment nw; currentFactor := currentFactor nw;
     msgLog := msgLog nw |}.

Definition with_msgLog (log : string) (nw : Network) : Network :=
  {| node := node nw; links := links nw;
     ucf_PRESSURE := ucf_PRESSURE nw; ucf_FLOW := ucf_FLOW nw;
     ucf_LENGTH := ucf_LENGTH nw; ucf_DIAMETER := ucf_DIAMETER nw;
     option_HYD_STEP := option_HYD_STEP nw;
     option_REPORT_STEP := option_REPORT_STEP nw;
     option_VALVE_REP_TYPE := option_VALVE_REP_TYPE nw;
     findSegment := findSegment nw; currentFactor := currentFactor nw;
     msgLog := log |}.

(** ** Head loss ([Valve::findHeadLoss] and its helpers) *)

Section HeadLoss.

Context {K : Constants}.

(** Modelled from the spec: [HeadLossModel::findClosedHeadLoss] of
    [Models/headlossmodel.cpp], which is not among the sources.  The closed
    formula is [hLoss = q * R_closed], [hGrad = R_closed], with the large
    resistance [R_closed] the constant [HIGH_RESISTANCE]. *)
Definition findClosedHeadLoss (q : double) (v : Valve) : Valve :=
  v <| hGrad := HIGH_RESISTANCE |> <| hLoss := q * HIGH_RESISTANCE |>.

(** [Valve::findOpenHeadLoss] *)
Definition findOpenHeadLoss (q : double) (v : Valve) : Valve :=
  let v := v <| hGrad := 2 * lossFactor v * Qabs q |> in
  if hGrad v <? MIN_GRADIENT then
    let v := v <| hGrad := MIN_GRADIENT |> in
    v <| hLoss := hGrad v * q |>
  else v <| hLoss := hGrad v * q / 2 |>.

(** [Valve::findPbvHeadLoss] *)
Definition findPbvHeadLoss (q : double) (v : Valve) : Valve :=
  let mloss := lossFactor v * q * q in
  if mloss >=? Qabs (setting v) then findOpenHeadLoss q v
  else v <| hGrad := MIN_GRADIENT |> <| hLoss := setting v |>.

(** [Valve::findTcvHeadLoss] *)
Definition findTcvHeadLoss (q : double) (v : Valve) : Valve :=
  let f := lossFactor v in
  let d2 := diameter v * diameter v in
  let v := v <| lossFactor := 0.025173 * setting v / d2 / d2 |> in
  let v := v <| lossFactor := dmax (lossFactor v) f |> in
  let v := findOpenHeadLoss q v in
  v <| lossFactor := f |>.

(** [Valve::findCcvHeadLoss].  The open-valve loss factor is not restored:
    the restoring assignment is commented out in the source. *)
Definition findCcvHeadLoss (nw : Network) (q : double) (v : Valve) : Valve :=
  let v :=
    if String.eqb (option_VALVE_REP_TYPE nw) "Toe" then
      let valve_conductance := 16.96 in
      let vc_square := valve_conductance * valve_conductance in
      let Toe := setting v in
      let Toe_Square := Toe * Toe in
      v <| lossFactor := 1 / (vc_square * Toe_Square) |>
    else if String.eqb (option_VALVE_REP_TYPE nw) "Cd" then
      let d2 := diameter v * diameter v in
      let FullArea := (d2 * PI) / 4 in
      let FullArea2 := FullArea * FullArea in
      let s := setting v in
      let Cd := - 1.1293 * s ^ 6 + 3.3823 * s ^ 5 - 3.443 * s ^ 4
                + 0.5671 * s ^ 3 + 1.0371 * s ^ 2 - 0.0037 * s in
      let Cd2 := Cd * Cd in
      let g := 32.174 in
      v <| lossFactor := (1 / Cd2 - 1) * (1 / (2 * g * FullArea2)) |>
    else v in
  findOpenHeadLoss q v.

(** The flow coefficient of a DPRV at opening [x].  The local [Cv] of
    [findDprvHeadLoss] is declared without an initial value and is assigned
    in two branches only; [Cv0] is the value it holds when neither branch
    is taken. *)
Definition dprvCv (Cv0 x : double) : double :=
  let Xm2 := x * x in
  let Xm3 := Xm2 * x in
  let k1 := 0.09 in
  let k2 := - 1.21 in
  let k3 := 2.33 in
  let k4 := - 0.21 in
  let Cvmax := 1.442760731 in
  let Cvtr := 0.07550186203 in
  if (0 <=? x) && (x <? 0.12) then Cvtr * x / 0.12
  else if (0.12 <=? x) && (x <=? 1.0) then
    (k1 * Xm3 + k2 * Xm2 + k3 * x + k4) * Cvmax
  else Cv0.

(** [Valve::findDprvHeadLoss] *)
Definition findDprvHeadLoss (Cv0 : double) (q : double) (v : Valve) : Valve :=
  let f := lossFactor v in
  let Cv := dprvCv Cv0 (Xm v) in
  let Cv_square := Cv * Cv in
  let v := v <| lossFactor := 1 / Cv_square |> in
  let v := findOpenHeadLoss q v in
  v <| lossFactor := f |>.

(** [Valve::findGpvHeadLoss] *)
Definition findGpvHeadLoss (nw : Network) (q : double) (v : Valve) : Valve :=
  let curveIndex := trunc (setting v) in
  let ucfFlow := ucf_FLOW nw in
  let ucfHead := ucf_LENGTH nw in
  let qRaw := Qabs q * ucfFlow in
  let '(r, h0) := findSegment nw curveIndex qRaw in
  let r := r * (ucfFlow / ucfHead) in
  let h0 := h0 / ucfHead in
  let v := v <| hGrad := r |> in
  let v := v <| hLoss := h0 + r * Qabs q |> in
  if q <? 0.0 then v <| hLoss := - hLoss v |> else v.

(** [Valve::findFcvHeadLoss] *)
Definition findFcvHeadLoss (q : double) (v : Valve) : Valve :=
  let xflow := q - setting v in
  if xflow >? 0.0 then
    v <| hLoss := lossFactor v * setting v * setting v + HIGH_RESISTANCE * xflow |>
      <| hGrad := HIGH_RESISTANCE |>
  else if q <? 0.0 then findClosedHeadLoss q v
  else findOpenHeadLoss q v.

(** [Valve::findHeadLoss] *)
Definition findHeadLoss (nw : Network) (Cv0 : double) (q : double) (v : Valve)
  : Valve :=
  let v := v <| hLoss := 0.0 |> <| hGrad := 0.0 |> in
  if LinkStatus_eqb (status v) TEMP_CLOSED then
    (findClosedHeadLoss q v) <| inertialTerm := MIN_GRADIENT |>
  else if hasFixedStatus v then
    if LinkStatus_eqb (status v) LINK_CLOSED then
      (findClosedHeadLoss q v) <| inertialTerm := MIN_GRADIENT |>
    else if LinkStatus_eqb (status v) LINK_OPEN then
      (findOpenHeadLoss q v) <| inertialTerm := MIN_GRADIENT |>
    else v
  else
    match valveType v with
    | PBV => (findPbvHeadLoss q v) <| inertialTerm := MIN_GRADIENT |>
    | TCV => (findTcvHeadLoss q v) <| inertialTerm := MIN_GRADIENT |>
    | CCV =>
        if setting v =? 0 then
          let v := v <| status := LINK_CLOSED |> in
          (findClosedHeadLoss q v) <| inertialTerm := MIN_GRADIENT |>
        else if setting v !=? 0 then
          let v := v <| status := LINK_OPEN |> in
          let v := findCcvHeadLoss nw q v in
          v <| inertialTerm := 10.765 / (32.174 * PI * diameter v * diameter v) |>
        else v
    | DPRV =>
        if LinkStatus_eqb (status v) LINK_CLOSED || (Xm v =? 0) then
          (findClosedHeadLoss q v) <| inertialTerm := MIN_GRADIENT |>
        else if LinkStatus_eqb (status v) LINK_OPEN then
          (findOpenHeadLoss q v) <| inertialTerm := 0 |>
        else
          (findDprvHeadLoss Cv0 q v) <| inertialTerm := 0 |>
    | GPV => (findGpvHeadLoss nw q v) <| inertialTerm := MIN_GRADIENT |>
    | FCV => (findFcvHeadLoss q v) <| inertialTerm := MIN_GRADIENT |>
    | PRV | PSV =>
        let v :=
          if LinkStatus_eqb (status v) LINK_CLOSED then
            (findClosedHeadLoss q v) <| inertialTerm := MIN_GRADIENT |>
          else if LinkStatus_eqb (status v) LINK_OPEN then findOpenHeadLoss q v
          else v in
        v <| inertialTerm := MIN_GRADIENT |>
    end.

End HeadLoss.

(** ** Status changes ([Valve::updateStatus], [changeSetting], [changeStatus]) *)

(** The text [msgLog << "\n    " << reason] appends to the message log. *)
Definition logLine (msgLog reason : string) : string :=
  (msgLog ++ String (Ascii.ascii_of_nat 10) "    " ++ reason)%string.

Section Status.

Context {K : Constants}.

(** [Valve::updatePrvStatus] *)
Definition updatePrvStatus (q h1 h2 : double) (v : Valve) : LinkStatus :=
  let s := status v in
  let hset := setting v + elev v in
  match status v with
  | VALVE_ACTIVE =>
      if q <? - ZERO_FLOW then LINK_CLOSED
      else if h1 <? hset then LINK_OPEN
      else s
  | LINK_OPEN =>
      if q <? - ZERO_FLOW then LINK_CLOSED
      else if h2 >? hset then VALVE_ACTIVE
      else s
  | LINK_CLOSED =>
      if (h1 >? hset) && (h2 <? hset) then VALVE_ACTIVE
      else if (h1 <? hset) && (h1 >? h2) then LINK_OPEN
      else s
  | TEMP_CLOSED => s
  end.

(** [Valve::updateDprvStatus].  The member [dprvOutletPressure] is assigned on
    the way, so the valve is returned with the new status.  The head setting
    [hset] is the sum the source writes, [dprvOutletPressure + elev]; it is
    exact here, while in binary64 the difference [head - elev] and the sum
    are each rounded, so that [(head - elev) + elev] need not be [head] to
    the last bit there. *)
Definition updateDprvStatus (nw : Network) (q h1 h2 : double) (v : Valve)
  : LinkStatus * Valve :=
  let s := status v in
  let v :=
    match presManagType v with
    | FO => v <| dprvOutletPressure := fixedOutletPressure v / 0.3048 |>
    | _ => v <| dprvOutletPressure :=
                  Node.head (node nw (toNode v)) - Node.elev (node nw (toNode v)) |>
    end in
  let hset := dprvOutletPressure v + elev v in
  let s :=
    match status v with
    | VALVE_ACTIVE =>
        if q <? - ZERO_FLOW then LINK_CLOSED
        else if h1 <? hset then LINK_OPEN
        else s
    | LINK_OPEN =>
        if q <? - ZERO_FLOW then LINK_CLOSED
        else if h2 >? hset then VALVE_ACTIVE
        else s
    | LINK_CLOSED =>
        if (h1 >? hset) && (h2 <? hset) then VALVE_ACTIVE
        else if (h1 <? hset) && (h1 >? h2) then LINK_OPEN
        else s
    | TEMP_CLOSED => s
    end in
  (s, v).

(** [Valve::updatePsvStatus] *)
Definition updatePsvStatus (q h1 h2 : double) (v : Valve) : LinkStatus :=
  let s := status v in
  let hset := setting v + elev v in
  match status v with
  | VALVE_ACTIVE =>
      if q <? - ZERO_FLOW then LINK_CLOSED
      else if h2 >? hset then LINK_OPEN
      else s
  | LINK_OPEN =>
      if q <? - ZERO_FLOW then LINK_CLOSED
      else if h1 <? hset then VALVE_ACTIVE
      else s
  | LINK_CLOSED =>
      if (h2 <? hset) && (h1 >? hset) then VALVE_ACTIVE
      else if (h2 >? hset) && (h1 >? h2) then LINK_OPEN
      else s
  | TEMP_CLOSED => s
  end.

(** [Valve::updateStatus] *)
Definition updateStatus (nw : Network) (q h1 h2 : double) (v : Valve) : Valve :=
  if hasFixedStatus v then v
  else
    let '(newStatus, v) :=
      match valveType v with
      | PRV => (updatePrvStatus q h1 h2 v, v)
      | DPRV => updateDprvStatus nw q h1 h2 v
      | PSV => (updatePsvStatus q h1 h2 v, v)
      | _ => (status v, v)
      end in
    if negb (LinkStatus_eqb newStatus (status v)) then
      let v := if LinkStatus_eqb newStatus LINK_CLOSED
               then v <| flow := ZERO_FLOW |> else v in
      v <| status := newStatus |>
    else v.

(** [Valve::changeSetting]: the value returned, the valve and the message log
    after the call. *)
Definition changeSetting (newSetting : double) (makeChange : bool)
  (reason msgLog : string) (v : Valve) : bool * Valve * string :=
  if ValveType_eqb (valveType v) CCV then
    if setting v !=? newSetting then
      if LinkStatus_eqb (status v) LINK_CLOSED && (newSetting =? 0.0) then
        (false, v <| setting := newSetting |>, msgLog)
      else if makeChange then
        let v := if newSetting =? 0.0
                 then v <| status := LINK_CLOSED |> <| flow := ZERO_FLOW |>
                 else v <| status := LINK_OPEN |> in
        let msgLog := logLine msgLog reason in
        (true, v <| setting := newSetting |>, msgLog)
      else (true, v, msgLog)
    else (false, v, msgLog)
  else
    if setting v !=? newSetting then
      if LinkStatus_eqb (status v) LINK_CLOSED then
        (false, v <| setting := newSetting |>, msgLog)
      else if makeChange then
        let v := if newSetting =? 0.0
                 then v <| status := LINK_CLOSED |> <| flow := ZERO_FLOW |>
                 else v <| status := LINK_OPEN |> in
        let msgLog := logLine msgLog reason in
        (true, v <| setting := newSetting |>, msgLog)
      else (true, v, msgLog)
    else (false, v, msgLog).

(** [Valve::changeStatus] *)
Definition changeStatus (newStatus : LinkStatus) (makeChange : bool)
  (reason msgLog : string) (v : Valve) : bool * Valve * string :=
  if negb (hasFixedStatus v) || negb (LinkStatus_eqb (status v) newStatus) then
    if makeChange then
      let msgLog := logLine msgLog reason in
      let v := v <| status := newStatus |> <| hasFixedStatus := true |> in
      let v := if LinkStatus_eqb (status v) LINK_CLOSED
               then v <| flow := ZERO_FLOW |> else v in
      (true, v, msgLog)
    else (true, v, msgLog)
  else (false, v, msgLog).

(** ** Set-up ([convertUnits], [initialize] and the like) *)

Definition MIN_LOSS_COEFF : double := 0.1.

(** [Valve::convertSetting]: the converted setting; the member [elev] is
    assigned on the way. *)
Definition convertSetting (nw : Network) (s : double) (v : Valve)
  : double * Valve :=
  let s :=
    match valveType v with
    | PRV | PSV | PBV => s / ucf_PRESSURE nw
    | FCV => s / ucf_FLOW nw
    | _ => s
    end in
  let v := if ValveType_eqb (valveType v) PRV
           then v <| elev := Node.elev (node nw (toNode v)) |> else v in
  let v := if ValveType_eqb (valveType v) DPRV
           then v <| elev := Node.elev (node nw (toNode v)) |> else v in
  let v := if ValveType_eqb (valveType v) PSV
           then v <| elev := Node.elev (node nw (fromNode v)) |> else v in
  (s, v).

(** [Valve::convertUnits] *)
Definition convertUnits (nw : Network) (v : Valve) : Valve :=
  let v := v <| diameter := diameter v / ucf_DIAMETER nw |> in
  let c := lossCoeff v in
  let c := if c <? MIN_LOSS_COEFF then MIN_LOSS_COEFF else c in
  let v := v <| lossFactor := 0.02517 * c / diameter v ^ 4 |> in
  let '(s, v) := convertSetting nw (initSetting v) v in
  v <| initSetting := s |>.

(** [Valve::setInitStatus] *)
Definition setInitStatus (s : LinkStatus) (v : Valve) : Valve :=
  v <| initStatus := s |> <| hasFixedStatus := true |>.

(** [Valve::setInitSetting] *)
Definition setInitSetting (s : double) (v : Valve) : Valve :=
  v <| initSetting := s |> <| initStatus := VALVE_ACTIVE |>
    <| hasFixedStatus := false |>.

(** [Valve::setLossFactor] *)
Definition setLossFactor (v : Valve) : Valve :=
  v <| lossFactor := 0.02517 * lossCoeff v / diameter v ^ 4 |>.

(** [Valve::setInitFlow] *)
Definition setInitFlow (v : Valve) : Valve :=
  let v := v <| flow := PI * diameter v * diameter v / 4.0 |> in
  let v :=
    if ValveType_eqb (valveType v) FCV then v <| flow := setting v |>
    else if ValveType_eqb (valveType v) CCV then
      if setting v =? 0 then v <| flow := ZERO_FLOW |>
      else v <| flow := PI * diameter v * diameter v / 4.0 |>
    else if ValveType_eqb (valveType v) DPRV then
      if setting v =? 0 then v <| flow := ZERO_FLOW |>
      else v <| flow := PI * diameter v * diameter v / 4.0 |>
    else v in
  v <| pastFlow := 0 |> <| pastHloss := 0 |> <| pastSetting := 0 |>.

(** [Valve::initialize] *)
Definition initialize (reInitFlow : bool) (v : Valve) : Valve :=
  let v := v <| status := initStatus v |> in
  let v := v <| setting := initSetting v |> in
  let v := if reInitFlow then setInitFlow v else v in
  v <| hasFixedStatus := negb (LinkStatus_eqb (initStatus v) VALVE_ACTIVE) |>.

(** [Valve::applyControlPattern] *)
Definition applyControlPattern (nw : Network) (v : Valve) : Valve :=
  let fs := 1.0 in
  let fs := match settingPattern v with
            | Some pat => currentFactor nw pat
            | None => fs
            end in
  v <| setting := setting v * fs |>.

End Status.

(** ** The pressure-management controller ([Project::pressureManagement]) *)

(** The day or night pressure that the hard-coded schedule of the TM mode
    selects at time [t], [None] when no branch of the chain is taken. *)
Inductive DayNight := Day | Night.

Definition tmSchedule (t : Z) : option DayNight :=
  if ((0 <=? t) && (t <=? 3600))%Z then Some Day
  else if ((3600 <=? t) && (t <=? 18000))%Z then Some Night
  else if ((18000 <=? t) && (t <=? 90000))%Z then Some Day
  else if ((90000 <=? t) && (t <=? 104400))%Z then Some Night
  else if ((104400 <=? t) && (t <=? 176400))%Z then Some Day
  else if ((176400 <=? t) && (t <=? 190800))%Z then Some Night
  else if ((190800 <=? t) && (t <=? 262800))%Z then Some Day
  else if ((262800 <=? t) && (t <=? 277200))%Z then Some Night
  else if ((277200 <=? t) && (t <=? 349200))%Z then Some Day
  else if ((349200 <=? t) && (t <=? 363600))%Z then Some Night
  else if ((363600 <=? t) && (t <=? 435600))%Z then Some Day
  else if ((435600 <=? t) && (t <=? 450000))%Z then Some Night
  else if ((450000 <=? t) && (t <=? 522000))%Z then Some Day
  else if ((522000 <=? t) && (t <=? 536400))%Z then Some Night
  else if ((536400 <=? t) && (t <=? 604800))%Z then Some Day
  else None.

(** The reference pressure of the TM mode: the local [ref] keeps its value
    when the chain assigns nothing. *)
Definition tmRef (nw : Network) (t : Z) (ref : double) (v : Valve) : double :=
  match tmSchedule t with
  | Some Day => dayPressure v / ucf_PRESSURE nw
  | Some Night => nightPressure v / ucf_PRESSURE nw
  | None => ref
  end.

(** The pressure [head - elev] at a node. *)
Definition pressureAt (nw : Network) (n : NodePtr) : double :=
  Node.head (node nw n) - Node.elev (node nw n).

(** The body of the loop for one DPRV, block by block. *)

(** [if (t == 0) { ... }]: the state of the controller at the first call. *)
Definition pmInitialise (t : Z) (v : Valve) : Valve :=
  if (t =? 0)%Z then
    v <| Xm := 0.2 |> <| Xm_Last := 0.2 |> <| delta_Xm := 0 |>
      <| errorValve := 0 |> <| errorSumValve := 0 |>
      <| errorDifValve := 0 |> <| errorPreValve := 0.5 |>
  else v.

(** [if (valve->presManagType == Valve::FO) { ... }]: a closed FO valve is
    made active again.  [ref] is declared before the loop without an initial
    value, so it enters with the value the previous valves left in it. *)
Definition pmReopen (nw : Network) (ref : double) (v : Valve) : double * Valve :=
  let pToNode := pressureAt nw (toNode v) in
  let pFromNode := pressureAt nw (fromNode v) in
  match presManagType v with
  | FO =>
      let ref := fixedOutletPressure v / ucf_PRESSURE nw in
      if LinkStatus_eqb (status v) LINK_CLOSED then
        if (pFromNode >? ref) && (pToNode <? ref)
        then (ref, v <| status := VALVE_ACTIVE |>)
        else (ref, v)
      else (ref, v)
  | _ => (ref, v)
  end.

(** The set point [ref] and the error [errorValve] of each modulation. *)
Definition pmError (nw : Network) (t : Z) (ref : double) (v : Valve)
  : double * Valve :=
  let pToNode := pressureAt nw (toNode v) in
  match presManagType v with
  | FO =>
      let ref := fixedOutletPressure v / ucf_PRESSURE nw in
      (ref, v <| errorValve := ref - pToNode |>)
  | TM =>
      let ref := tmRef nw t ref v in
      (ref, v <| errorValve := ref - pToNode |>)
  | FM =>
      let ref :=
        (a_FM v * (flow v * ucf_FLOW nw) * (flow v * ucf_FLOW nw)
         + b_FM v * (flow v * ucf_FLOW nw) + c_FM v) / ucf_LENGTH nw in
      (ref, v <| errorValve := ref - pToNode |>)
  | RNM =>
      let pRemoteNode := pressureAt nw (remoteNode v) in
      let ref := rnmPressure v / ucf_PRESSURE nw in
      (ref, v <| errorValve := ref - pRemoteNode |>)
  end.

(** The physical control law: the flow [q3] into the control space, the
    increment of the opening and the new opening.  (The PID law is commented
    out in the source.) *)
Definition pmControl (alfaopen alfaclose : double) (deltat : Z) (v : Valve)
  : Valve :=
  let Vcontrol := 0.0047 in
  let lift := 0.057 in
  let k5 := 1.30 in
  let k6 := 0.56 in
  let Acs := (k5 * Xm v * Xm v + k6) * Vcontrol / lift in
  let q3 := 0 in
  let q3 :=
    if errorValve v >=? 0 then alfaopen * errorValve v
    else if errorValve v <=? 0 then alfaclose * errorValve v
    else q3 in
  let v := v <| delta_Xm := (q3 / Acs) * inject_Z deltat |> in
  v <| Xm := delta_Xm v + Xm_Last v |>.

(** The two tests that close the body. *)
Definition pmClamp (v : Valve) : Valve :=
  let v := if Xm v <? 0 then v <| Xm := 0 |> else v in
  if Xm v >? 1 then v <| Xm := 1 |> else v <| Xm := Xm v |>.

(** The whole body: the value of [ref] and the valve it leaves. *)
Definition pressureManagementValve (nw : Network) (t : Z)
  (alfaopen alfaclose Kp Ki Kd : double) (ref : double) (v : Valve)
  : double * Valve :=
  let deltat := option_HYD_STEP nw in
  let v := pmInitialise t v in
  let '(ref, v) := pmReopen nw ref v in
  let '(ref, v) :=
    if LinkStatus_eqb (status v) VALVE_ACTIVE then
      let '(ref, v) := pmError nw t ref v in
      (ref, pmControl alfaopen alfaclose deltat v)
    else (ref, v) in
  (ref, pmClamp v).

(** The loop over the links: valves that are not DPRVs, pipes and pumps are
    skipped; each DPRV adds a line to the trace file. *)
Fixpoint pressureManagementLoop (nw : Network) (t : Z)
  (alfaopen alfaclose Kp Ki Kd : double) (ref : double)
  (outFile : list TraceLine) (links : list Link)
  : list TraceLine * list Link :=
  match links with
  | [] => (outFile, [])
  | VALVE v :: rest =>
      match valveType v with
      | DPRV =>
          let '(ref, v) :=
            pressureManagementValve nw t alfaopen alfaclose Kp Ki Kd ref v in
          let outFile := outFile ++ [(t, Xm v)] in
          let '(outFile, rest) :=
            pressureManagementLoop nw t alfaopen alfaclose Kp Ki Kd ref
              outFile rest in
          (outFile, VALVE v :: rest)
      | _ =>
          let '(outFile, rest) :=
            pressureManagementLoop nw t alfaopen alfaclose Kp Ki Kd ref
              outFile rest in
          (outFile, VALVE v :: rest)
      end
  | link :: rest =>
      let '(outFile, rest) :=
        pressureManagementLoop nw t alfaopen alfaclose Kp Ki Kd ref
          outFile rest in
      (outFile, link :: rest)
  end.

(** [Project::pressureManagement]: the trace file and the network after the
    call.  [ref0] is the value the uninitialised local [ref] starts with. *)
Definition pressureManagement (nw : Network) (t : Z)
  (outFile : list TraceLine) (alfaopen alfaclose Kp Ki Kd : double)
  (ref0 : double) : list TraceLine * Network :=
  let '(outFile, ls) :=
    pressureManagementLoop nw t alfaopen alfaclose Kp Ki Kd ref0 outFile
      (links nw) in
  (outFile, with_links ls nw).

(** [Project::lasting] *)
Definition lastingValve (v : Valve) : Valve :=
  let v := v <| Xm_Last := Xm v |> in
  v <| errorPreValve := errorValve v |>.

Definition lasting (nw : Network) : Network :=
  with_links
    (map (fun link =>
            match link with
            | VALVE v =>
                match valveType v with
                | DPRV => VALVE (lastingValve v)
                | _ => link
                end
            | _ => link
            end) (links nw)) nw.

(** ** The project layer ([Project::runSolver]) *)

(** [ENerror] of [Core/error.h]: an integer code and a message. *)
Record ENerror := { code : Z; msg : string }.

(** The kind of [SystemError] that [runSolver] raises. *)
Inductive SystemErrorType := SOLVER_NOT_INITIALIZED.

(** How a call ends: it returns, it leaves by an exception, or its behaviour
    is undefined (an integer division by zero). *)
Inductive outcome (A : Type) : Type :=
| Returns (a : A)
| Throws (e : ENerror)
| Undefined.
Arguments Returns {A} a.
Arguments Throws {A} e.
Arguments Undefined {A}.

(** [a % b] on [int]: undefined for [b = 0] and for [INT_MIN % -1]. *)
Definition int_rem (a b : Z) : option Z :=
  if ((b =? 0) || ((a =? - 2 ^ 31) && (b =? - 1)))%Z then None
  else Some (Z.rem a b).

Section ProjectLayer.

(** The hydraulic engine and the binary output file are objects of classes
    that are not modelled; their states are of arbitrary types. *)
Variables HydEngine OutputFile : Type.

Record Project := {
  network : Network;
  hydEngine : HydEngine;
  outputFile : OutputFile;
  solverInitialized : bool;
  outputFileOpened : bool
}.

(** The store of a call [runSolver(&t)]: the project and the caller's
    variable that [t] points to. *)
Definition Store := (Project * Z)%type.

(** Code that reads and writes the store and may throw. *)
Definition Exec (A : Type) := Store -> outcome A * Store.

Definition ret {A} (a : A) : Exec A := fun s => (Returns a, s).
Definition throw {A} (e : ENerror) : Exec A := fun s => (Throws e, s).
Definition undefined {A} : Exec A := fun s => (Undefined, s).
Definition bind {A B} (c : Exec A) (k : A -> Exec B) : Exec B :=
  fun s =>
    match c s with
    | (Returns a, s') => k a s'
    | (Throws e, s') => (Throws e, s')
    | (Undefined, s') => (Undefined, s')
    end.

(** [try { body } catch (ENerror const& e) { handler }] *)
Definition try_catch {A} (body : Exec A) (handler : ENerror -> Exec A) : Exec A :=
  fun s =>
    match body s with
    | (Throws e, s') => handler e s'
    | r => r
    end.

Definition getProject : Exec Project := fun s => (Returns (fst s), s).
Definition getT : Exec Z := fun s => (Returns (snd s), s).

Notation "x <- c ;; k" := (bind c (fun x => k))
  (at level 61, c at next level, right associativity).
Notation "c ;; k" := (bind c (fun _ => k))
  (at level 61, right associativity).

(** [Project::writeMsg] *)
Definition writeMsg (m : string) : Exec unit :=
  fun s =>
    let p := fst s in
    (Returns tt,
     ({| network := with_msgLog (msgLog (network p) ++ m)%string (network p);
         hydEngine := hydEngine p; outputFile := outputFile p;
         solverInitialized := solverInitialized p;
         outputFileOpened := outputFileOpened p |}, snd s)).

(** What [runSolver] calls and the sources do not define: the constructor of
    [SystemError], [HydEngine::solve] and
    [OutputFile::writeNetworkResults()]. *)
Class Collaborators := {
  SystemError : SystemErrorType -> ENerror;
  solve : Exec unit;
  writeNetworkResults : Exec unit
}.

Context {C : Collaborators}.

(** [Project::runSolver]: the value returned is the error code. *)
Definition runSolver : Exec Z :=
  try_catch
    (p <- getProject ;;
     (if negb (solverInitialized p)
      then throw (SystemError SOLVER_NOT_INITIALIZED) else ret tt) ;;
     solve ;;
     p <- getProject ;;
     t <- getT ;;
     (if outputFileOpened p then
        match int_rem t (option_REPORT_STEP (network p)) with
        | None => undefined
        | Some r => if (r =? 0)%Z then writeNetworkResults else ret tt
        end
      else ret tt) ;;
     ret 0%Z)
    (fun e => writeMsg (msg e) ;; ret (code e)).

End ProjectLayer.

Arguments network {HydEngine OutputFile} p.
Arguments hydEngine {HydEngine OutputFile} p.
Arguments outputFile {HydEngine OutputFile} p.
Arguments solverInitialized {HydEngine OutputFile} p.
Arguments outputFileOpened {HydEngine OutputFile} p.
Arguments ret {HydEngine OutputFile A} a _.
Arguments throw {HydEngine OutputFile A} e _.
Arguments undefined {HydEngine OutputFile A} _.
Arguments bind {HydEngine OutputFile A B} c k _.
Arguments try_catch {HydEngine OutputFile A} body handler _.
Arguments getProject {HydEngine OutputFile} _.
Arguments getT {HydEngine OutputFile} _.
Arguments writeMsg {HydEngine OutputFile} m _.
Arguments SystemError {HydEngine OutputFile Collaborators} _.
Arguments solve {HydEngine OutputFile Collaborators} _.
Arguments writeNetworkResults {HydEngine OutputFile Collaborators} _.
Arguments runSolver {HydEngine OutputFile C} _.

(** ** Concrete data for the runs below *)

(** The constants as EPANET 3 defines them. *)
Definition epanet_constants : Constants :=
  {| MIN_GRADIENT := 1e-6;
     ZERO_FLOW := 1e-6;
     HIGH_RESISTANCE := 1e8;
     PI := 3.141592653589793 |}.

(** Node 0 lies upstream (head 100, elevation 0), every other node lies
    downstream (head 50, elevation 10). *)
Definition demo_node (n : NodePtr) : Node.t :=
  match n with
  | O => {| Node.head := 100; Node.pastHead := 100; Node.elev := 0 |}
  | _ => {| Node.head := 50; Node.pastHead := 50; Node.elev := 10 |}
  end.

(** A DPRV in FO mode between node 0 and node 1, active, half open. *)
Definition demo_valve : Valve :=
  {| fromNode := 0%nat; toNode := 1%nat; initStatus := VALVE_ACTIVE;
     diameter := 1; lossCoeff := 0; initSetting := 0;
     status := VALVE_ACTIVE; flow := 0; hLoss := 0; hGrad := 0;
     setting := 0; inertialTerm := 7; pastFlow := 0; pastHloss := 0;
     pastSetting := 0;
     valveType := DPRV; lossFactor := 0.02517; settingPattern := None;
     presManagType := FO; fixedOutletPressure := 30;
     dayPressure := 40; nightPressure := 25;
     a_FM := 0; b_FM := 0; c_FM := 0; rnmPressure := 35;
     remoteNode := 2%nat; dprvOutletPressure := 0;
     Xm := 0.5; delta_Xm := 0; Xm_Last := 0.5;
     errorValve := 0; errorSumValve := 0; errorDifValve := 0;
     errorPreValve := 0; hasFixedStatus := false; elev := 10 |}.

(** A network in SI-like units (every conversion factor is 1) with a
    hydraulic step of one second. *)
Definition demo_network : Network :=
  {| node := demo_node;
     links := [PIPE; VALVE demo_valve; PUMP;
               VALVE (demo_valve <| valveType := PRV |>)];
     ucf_PRESSURE := 1; ucf_FLOW := 1; ucf_LENGTH := 1; ucf_DIAMETER := 1;
     option_HYD_STEP := 1; option_REPORT_STEP := 3600;
     option_VALVE_REP_TYPE := "Toe";
     findSegment := fun _ _ => (0, 0);
     currentFactor := fun _ => 1;
     msgLog := "" |}.

(** The same network with pressures in psi: 0.4333 psi per foot of head. *)
Definition demo_network_psi : Network :=
  {| node := demo_node;
     links := links demo_network;
     ucf_PRESSURE := 0.4333; ucf_FLOW := 1; ucf_LENGTH := 1; ucf_DIAMETER := 1;
     option_HYD_STEP := 1; option_REPORT_STEP := 3600;
     option_VALVE_REP_TYPE := "Toe";
     findSegment := fun _ _ => (0, 0);
     currentFactor := fun _ => 1;
     msgLog := "" |}.

(** ** The TM schedule as data

    The fifteen intervals in the order in which the chain of
    [pressureManagement] tests them: lower bound, upper bound, pressure. *)
Definition tmIntervals : list (Z * Z * DayNight) :=
  [ (0, 3600, Day); (3600, 18000, Night); (18000, 90000, Day);
    (90000, 104400, Night); (104400, 176400, Day); (176400, 190800, Night);
    (190800, 262800, Day); (262800, 277200, Night); (277200, 349200, Day);
    (349200, 363600, Night); (363600, 435600, Day); (435600, 450000, Night);
    (450000, 522000, Day); (522000, 536400, Night);
    (536400, 604800, Day) ]%Z.

(** The first interval of a list whose two tests [lo <= t && t <= hi] hold. *)
Fixpoint firstMatch (l : list (Z * Z * DayNight)) (t : Z) : option DayNight :=
  match l with
  | [] => None
  | (lo, hi, m) :: rest =>
      if ((lo <=? t) && (t <=? hi))%Z then Some m else firstMatch rest t
  end.

(** The pressure a valve holds for day or night, in internal units. *)
Definition tmPressure (nw : Network) (v : Valve) (m : DayNight) : double :=
  match m with
  | Day => dayPressure v / ucf_PRESSURE nw
  | Night => nightPressure v / ucf_PRESSURE nw
  end.

(** ** The rules as the specification words them *)

(** The flow coefficient of a DPRV, section 4.1: [Cv_tr * Xm / 0.12] below
    0.12, the cubic times [Cv_max] from 0.12 on. *)
Definition Cv_spec (x : double) : double :=
  if x <? 0.12 then 0.07550186203 * x / 0.12
  else (0.09 * x ^ 3 - 1.21 * x ^ 2 + 2.33 * x - 0.21) * 1.442760731.

(** The head setting of a DPRV, section 4.4, as the specification has it. *)
Definition dprv_hset_spec (nw : Network) (v : Valve) : double :=
  match presManagType v with
  | FO => fixedOutletPressure v + Node.elev (node nw (toNode v))
  | _ => Node.head (node nw (toNode v))
  end.

(** The opening clamped to the unit interval. *)
Definition clamp01 (x : double) : double :=
  if x <? 0 then 0 else if x >? 1 then 1 else x.

(** The set point of section 4.5, step 4, for a valve whose local [ref]
    enters with the value [ref]. *)
Definition setpoint (nw : Network) (t : Z) (ref : double) (v : Valve) : double :=
  match presManagType v with
  | FO => fixedOutletPressure v / ucf_PRESSURE nw
  | TM => tmRef nw t ref v
  | FM =>
      (a_FM v * (flow v * ucf_FLOW nw) * (flow v * ucf_FLOW nw)
       + b_FM v * (flow v * ucf_FLOW nw) + c_FM v) / ucf_LENGTH nw
  | RNM => rnmPressure v / ucf_PRESSURE nw
  end.

(** The pressure the error is taken on, step 5: the downstream pressure,
    except for RNM, where it is the pressure at the remote node. *)
Definition pTarget (nw : Network) (v : Valve) : double :=
  match presManagType v with
  | RNM => pressureAt nw (remoteNode v)
  | _ => pressureAt nw (toNode v)
  end.

(** What a call of [pressureManagement] does to one link: a DPRV goes through
    the body of the loop, with some value of [ref]; any other link is left
    as it is. *)
Definition pmLink (nw : Network) (t : Z) (alfaopen alfaclose Kp Ki Kd : double)
  (l l' : Link) : Prop :=
  match l with
  | VALVE v =>
      match valveType v with
      | DPRV =>
          exists ref,
            l' = VALVE (snd (pressureManagementValve nw t alfaopen alfaclose
                               Kp Ki Kd ref v))
      | _ => l' = l
      end
  | _ => l' = l
  end.

(** A link keeps its opening, if it is a valve, and its kind. *)
Definition sameXm (l l' : Link) : Prop :=
  match l, l' with
  | VALVE v, VALVE v' => Xm v' = Xm v
  | PIPE, PIPE | PUMP, PUMP => True
  | _, _ => False
  end.

(** A PRV with pressure setting 30, active. *)
Definition demo_prv : Valve :=
  demo_valve <| valveType := PRV |> <| setting := 30 |>.

(** A closure control valve, closed, with setting 0. *)
Definition demo_ccv : Valve :=
  demo_valve <| valveType := CCV |> <| status := LINK_CLOSED |>.

(** A sample error table and collaborators that succeed: the engine moves
    the clock to the next hour, the writer does nothing. *)
Definition demo_collaborators : Collaborators unit unit :=
  {| SystemError := fun _ => {| code := 1; msg := "solver not initialized" |};
     solve := fun s => (Returns tt, (fst s, 3600%Z));
     writeNetworkResults := fun s => (Returns tt, s) |}.

Definition demo_project (initialized : bool) : Project unit unit :=
  {| network := demo_network; hydEngine := tt; outputFile := tt;
     solverInitialized := initialized; outputFileOpened := true |}.

(** ** Further members of [Valve] and [Project] *)

Section ValveQueries.

Context {K : Constants}.

(** [Valve::getVelocity] *)
Definition getVelocity (v : Valve) : double :=
  let area := PI * diameter v * diameter v / 4.0 in
  flow v / area.

(** [Valve::getSetting] *)
Definition getSetting (nw : Network) (v : Valve) : double :=
  match valveType v with
  | PRV | PSV | PBV => setting v * ucf_PRESSURE nw
  | FCV => setting v * ucf_FLOW nw
  | _ => setting v
  end.

End ValveQueries.

(** [Project::writeMsgLog(ostream&)]: the stream and the network after the
    call. *)
Definition writeMsgLog (out : string) (nw : Network) : string * Network :=
  ((out ++ msgLog nw)%string, with_msgLog "" nw).

Section SaveOutput.

Variables HydEngine OutputFile : Type.
Context {C : Collaborators HydEngine OutputFile}.

(** [Project::saveOutput] *)
Definition saveOutput : Exec HydEngine OutputFile Z :=
  fun s =>
    if negb (outputFileOpened (fst s)) then (Returns 0%Z, s)
    else
      try_catch
        (bind writeNetworkResults (fun _ => ret 0%Z))
        (fun e => bind (writeMsg (msg e)) (fun _ => ret (code e))) s.

End SaveOutput.

Arguments saveOutput {HydEngine OutputFile C} _.

(** ** Notions used to state the further properties *)

(** The cubic of the flow coefficient of a DPRV. *)
Definition cvCubic (x : Q) : Q :=
  0.09 * x ^ 3 - 1.21 * x ^ 2 + 2.33 * x - 0.21.

(** The lines that the DPRVs of a list of links give in the trace file. *)
Definition dprvTrace (t : Z) (ls : list Link) : list TraceLine :=
  flat_map (fun l =>
              match l with
              | VALVE v =>
                  match valveType v with
                  | DPRV => [(t, Xm v)]
                  | _ => []
                  end
              | _ => []
              end) ls.

(** The test under which [pressureManagement] makes a closed valve active. *)
Definition reopens (nw : Network) (v : Valve) : bool :=
  match presManagType v with
  | FO =>
      LinkStatus_eqb (status v) LINK_CLOSED
      && ((pressureAt nw (fromNode v) >? fixedOutletPressure v / ucf_PRESSURE nw)
          && (pressureAt nw (toNode v) <? fixedOutletPressure v / ucf_PRESSURE nw))
  | _ => false
  end.

(** What [lasting] does to one link. *)
Definition lastingLink (link : Link) : Link :=
  match link with
  | VALVE v =>
      match valveType v with
      | DPRV => VALVE (lastingValve v)
      | _ => link
      end
  | _ => link
  end.

(** The fixed outlet pressure is input data, which the code never assigns;
    the runs below vary it. *)
#[global] Instance set_fixedOutletPressure : Setter fixedOutletPressure :=
  ltac:(mkSetter fixedOutletPressure).

(** A pressure sustaining valve with pressure setting 30, active, that keeps
    the elevation of its upstream node. *)
Definition demo_psv : Valve :=
  demo_valve <| valveType := PSV |> <| setting := 30 |> <| elev := 0 |>.

(** A flow control valve with flow setting 2. *)
Definition demo_fcv : Valve :=
  demo_valve <| valveType := FCV |> <| setting := 2 |>.

(** Collaborators whose hydraulic engine fails with error 7. *)
Definition failing_collaborators : Collaborators unit unit :=
  {| SystemError := fun _ => {| code := 1; msg := "solver not initialized" |};
     solve := fun s => (Throws {| code := 7; msg := "no convergence" |},
                        (fst s, 60%Z));
     writeNetworkResults :=
       fun s => (Throws {| code := 9; msg := "cannot write" |}, s) |}.

(** Collaborators whose engine moves the clock to the next hour and whose
    writer fails with error 9. *)
Definition write_failing_collaborators : Collaborators unit unit :=
  {| SystemError := fun _ => {| code := 1; msg := "solver not initialized" |};
     solve := fun s => (Returns tt, (fst s, 3600%Z));
     writeNetworkResults :=
       fun s => (Throws {| code := 9; msg := "cannot write" |}, s) |}.

(** * Properties *)

(** ** Comparisons of doubles *)

Lemma dlt_true (x y : double) : (x <? y) = true <-> x < y.
Proof.
  unfold dlt. rewrite negb_true_iff. split.
  - intros H. apply Qnot_le_lt. intro L. apply Qle_bool_iff in L. congruence.
  - intros H. destruct (Qle_bool y x) eqn:E; trivial.
    apply Qle_bool_iff in E. exfalso. apply (Qlt_not_le _ _ H E).
Qed.

Lemma dlt_false (x y : double) : (x <? y) = false <-> y <= x.
Proof.
  unfold dlt. rewrite negb_false_iff. apply Qle_bool_iff.
Qed.

Lemma dle_true (x y : double) : (x <=? y) = true <-> x <= y.
Proof. apply Qle_bool_iff. Qed.

Lemma dle_false (x y : double) : (x <=? y) = false <-> y < x.
Proof.
  unfold dle. split.
  - intros H. apply Qnot_le_lt. intro L. apply Qle_bool_iff in L. congruence.
  - intros H. destruct (Qle_bool x y) eqn:E; trivial.
    apply Qle_bool_iff in E. exfalso. apply (Qlt_not_le _ _ H E).
Qed.

Lemma deq_true (x y : double) : (x =? y) = true <-> x == y.
Proof. apply Qeq_bool_iff. Qed.

Lemma deq_false (x y : double) : (x =? y) = false <-> ~ x == y.
Proof.
  unfold deq. split.
  - intros H E. apply Qeq_bool_iff in E. congruence.
  - intros H. destruct (Qeq_bool x y) eqn:E; trivial.
    apply Qeq_bool_iff in E. contradiction.
Qed.

#[global] Instance dlt_proper : Proper (Qeq ==> Qeq ==> eq) dlt.
Proof.
  intros a b E c d F. unfold dlt. now rewrite E, F.
Qed.

#[global] Instance dle_proper : Proper (Qeq ==> Qeq ==> eq) dle.
Proof.
  intros a b E c d F. unfold dle. now rewrite E, F.
Qed.

(** Turn the boolean tests among the hypotheses into order facts. *)
Ltac order_facts :=
  repeat match goal with
    | H : (_ <? _) = true |- _ => apply dlt_true in H
    | H : (_ <? _) = false |- _ => apply dlt_false in H
    | H : (_ <=? _) = true |- _ => apply dle_true in H
    | H : (_ <=? _) = false |- _ => apply dle_false in H
    | H : (_ =? _) = true |- _ => apply deq_true in H
    | H : (_ =? _) = false |- _ => apply deq_false in H
    end.

Lemma LinkStatus_eqb_eq (a b : LinkStatus) : LinkStatus_eqb a b = true <-> a = b.
Proof. destruct a, b; simpl; split; congruence. Qed.

Lemma LinkStatus_eqb_refl (a : LinkStatus) : LinkStatus_eqb a a = true.
Proof. now destruct a. Qed.

(** Case analysis on every comparison of doubles in the goal. *)
Ltac split_tests :=
  repeat match goal with
    | |- context [dlt ?a ?b] => destruct (dlt a b) eqn:?
    | |- context [dle ?a ?b] => destruct (dle a b) eqn:?
    | |- context [deq ?a ?b] => destruct (deq a b) eqn:?
    end.

(** ** The valve state machines *)

Section StatusProperties.

Context {K : Constants}.

Lemma updateDprvStatus_snd (nw : Network) (q h1 h2 : double) (v : Valve) :
  snd (updateDprvStatus nw q h1 h2 v) =
  v <| dprvOutletPressure :=
         match presManagType v with
         | FO => fixedOutletPressure v / 0.3048
         | _ => Node.head (node nw (toNode v)) - Node.elev (node nw (toNode v))
         end |>.
Proof. unfold updateDprvStatus. destruct (presManagType v); reflexivity. Qed.

(** The last block of [updateStatus]: a valve that it closes gets the flow
    [ZERO_FLOW]. *)
Lemma commit_closed_flow (ns : LinkStatus) (v1 : Valve) :
  let r := if negb (LinkStatus_eqb ns (status v1)) then
             (if LinkStatus_eqb ns LINK_CLOSED
              then v1 <| flow := ZERO_FLOW |> else v1) <| status := ns |>
           else v1 in
  status v1 <> LINK_CLOSED -> status r = LINK_CLOSED -> flow r = ZERO_FLOW.
Proof.
  intros r Hs. subst r.
  destruct (LinkStatus_eqb ns (status v1)) eqn:E; simpl.
  - congruence.
  - intros ->. reflexivity.
Qed.

(** [convertSetting] stores the elevation of the downstream node in a PRV
    and in a DPRV, whatever setting it converts. *)
Lemma convertSetting_elev_to (nw : Network) (s : double) (v : Valve) :
  valveType v = PRV \/ valveType v = DPRV ->
  elev (snd (convertSetting nw s v)) = Node.elev (node nw (toNode v)).
Proof.
  unfold convertSetting. intros [E | E]; repeat (rewrite E; cbn); reflexivity.
Qed.

(** C5.  A PRV without fixed status, with head setting
    [hset = setting + elev_to]: from ACTIVE it closes when
    [q < -ZERO_FLOW], else opens when [h1 < hset]; from OPEN it closes when
    [q < -ZERO_FLOW], else becomes active when [h2 > hset]; from CLOSED it
    becomes active when [h1 > hset] and [h2 < hset], else opens when
    [h1 < hset] and [h1 > h2]; in every other case the status stays as it
    is.  The valve keeps the elevation of its downstream node in [elev]
    (see [convertSetting_elev_to]). *)
Theorem C5_prv_status_transitions (nw : Network) (q h1 h2 : double) (v : Valve) :
  valveType v = PRV -> hasFixedStatus v = false ->
  elev v = Node.elev (node nw (toNode v)) ->
  let hset := setting v + Node.elev (node nw (toNode v)) in
  let s' := status (updateStatus nw q h1 h2 v) in
  match status v with
  | VALVE_ACTIVE =>
      (q < - ZERO_FLOW -> s' = LINK_CLOSED) /\
      (~ q < - ZERO_FLOW -> h1 < hset -> s' = LINK_OPEN) /\
      (~ q < - ZERO_FLOW -> ~ h1 < hset -> s' = VALVE_ACTIVE)
  | LINK_OPEN =>
      (q < - ZERO_FLOW -> s' = LINK_CLOSED) /\
      (~ q < - ZERO_FLOW -> h2 > hset -> s' = VALVE_ACTIVE) /\
      (~ q < - ZERO_FLOW -> ~ h2 > hset -> s' = LINK_OPEN)
  | LINK_CLOSED =>
      (h1 > hset /\ h2 < hset -> s' = VALVE_ACTIVE) /\
      (~ (h1 > hset /\ h2 < hset) -> h1 < hset /\ h1 > h2 -> s' = LINK_OPEN) /\
      (~ (h1 > hset /\ h2 < hset) -> ~ (h1 < hset /\ h1 > h2) ->
       s' = LINK_CLOSED)
  | TEMP_CLOSED => s' = TEMP_CLOSED
  end.
Proof.
  intros Ht Hf He hset s'. subst s'.
  unfold updateStatus. rewrite Hf, Ht. unfold updatePrvStatus.
  rewrite He. fold hset.
  destruct (status v) eqn:Es; split_tests; simpl; rewrite ?Es; simpl;
    order_facts; repeat split; intros; try reflexivity; try tauto; try lra.
Qed.

(** C8, as amended.  Whenever [updateStatus] moves a valve (a PRV, a PSV or
    a DPRV: no other valve is moved) into LINK_CLOSED, the flow of the valve
    is set to the constant [ZERO_FLOW]. *)
Theorem C8_closing_sets_zero_flow (nw : Network) (q h1 h2 : double) (v : Valve) :
  status v <> LINK_CLOSED ->
  status (updateStatus nw q h1 h2 v) = LINK_CLOSED ->
  flow (updateStatus nw q h1 h2 v) = ZERO_FLOW /\
  (valveType v = PRV \/ valveType v = PSV \/ valveType v = DPRV).
Proof.
  intros Hs. unfold updateStatus.
  destruct (hasFixedStatus v); [congruence|].
  destruct (valveType v) eqn:Et;
    try (intros Hc; split; [revert Hc; apply commit_closed_flow; exact Hs|tauto]);
    try (cbn -[LinkStatus_eqb]; rewrite LinkStatus_eqb_refl; simpl; congruence).
  pose proof (updateDprvStatus_snd nw q h1 h2 v) as E.
  destruct (updateDprvStatus nw q h1 h2 v) as [ns v1]. simpl in E. subst v1.
  intros Hc; split; [revert Hc; apply commit_closed_flow; exact Hs|tauto].
Qed.

(** C10.  On a closed valve, with a new setting different from the current
    one: a valve that is not a CCV gets the new setting and nothing else,
    and [changeSetting] returns false whatever [makeChange] is; a CCV does
    so only for a new setting of zero, and for a non-zero new setting with
    [makeChange] it is opened, the reason is logged and [changeSetting]
    returns true. *)
Theorem C10_changeSetting_closed (newSetting : double) (makeChange : bool)
  (reason log : string) (v : Valve) :
  status v = LINK_CLOSED -> ~ newSetting == setting v ->
  let r := changeSetting newSetting makeChange reason log v in
  (valveType v <> CCV ->
   r = (false, v <| setting := newSetting |>, log) /\
   status (snd (fst r)) = status v /\ flow (snd (fst r)) = flow v) /\
  (valveType v = CCV ->
   (newSetting == 0 -> r = (false, v <| setting := newSetting |>, log)) /\
   (~ newSetting == 0 -> makeChange = true ->
    r = (true, v <| status := LINK_OPEN |> <| setting := newSetting |>,
         logLine log reason) /\
    status (snd (fst r)) = LINK_OPEN) /\
   (~ newSetting == 0 -> makeChange = false -> r = (true, v, log))).
Proof.
  intros Hs Hne r. subst r. unfold changeSetting.
  assert (Hd : (setting v =? newSetting) = false).
  { apply deq_false. intro E. apply Hne. symmetry. exact E. }
  rewrite Hd, Hs. simpl. split.
  - intros Ht. destruct (valveType v); try congruence; simpl; auto.
  - intros ->. simpl. repeat split; intros.
    + assert (E : (newSetting =? 0.0) = true) by (apply deq_true; lra).
      rewrite E. reflexivity.
    + assert (E : (newSetting =? 0.0) = false) by (apply deq_false; lra).
      rewrite E. subst makeChange. reflexivity.
    + assert (E : (newSetting =? 0.0) = false) by (apply deq_false; lra).
      rewrite E. subst makeChange. reflexivity.
    + assert (E : (newSetting =? 0.0) = false) by (apply deq_false; lra).
      rewrite E. subst makeChange. reflexivity.
Qed.

(** C4.  The status rule of a DPRV has the structure of the rule of a PRV:
    it makes the move that the PRV rule makes on the same valve once the
    pressure [pOut] that [updateDprvStatus] stores in [dprvOutletPressure]
    is taken as its setting, that is with the head setting
    [hset = pOut + elev], where the member [elev] holds the elevation of the
    downstream node (see [convertSetting_elev_to]).  In the modes TM, FM and
    RNM [pOut] is
    [H_to - elev_to], so that [hset] is the sum [(H_to - elev_to) + elev] as
    the code evaluates it.  In FO mode [pOut] is
    [fixedOutletPressure / 0.3048], whereas the controller takes
    [fixedOutletPressure / ucf(PRESSURE)] for the pressure that the same
    valve is to hold: for a non-zero outlet pressure the two differ on every
    network whose pressure factor is not 0.3048. *)
Theorem C4_dprv_status_rule (nw : Network) (t : Z) (ref q h1 h2 : double)
  (v : Valve) :
  let pOut := dprvOutletPressure (snd (updateDprvStatus nw q h1 h2 v)) in
  fst (updateDprvStatus nw q h1 h2 v)
  = updatePrvStatus q h1 h2 (v <| setting := pOut |>) /\
  (presManagType v <> FO ->
   pOut = Node.head (node nw (toNode v)) - Node.elev (node nw (toNode v))) /\
  (presManagType v = FO ->
   pOut = fixedOutletPressure v / 0.3048 /\
   fst (pmError nw t ref v) = fixedOutletPressure v / ucf_PRESSURE nw /\
   (~ fixedOutletPressure v == 0 -> ~ ucf_PRESSURE nw == 0 ->
    ~ ucf_PRESSURE nw == 0.3048 -> ~ pOut == fst (pmError nw t ref v))).
Proof.
  cbv zeta. rewrite updateDprvStatus_snd.
  cbn [dprvOutletPressure set set_dprvOutletPressure].
  split; [|split].
  - unfold updateDprvStatus, updatePrvStatus.
    destruct (presManagType v);
      cbn [fst status elev setting dprvOutletPressure set
           set_dprvOutletPressure set_setting];
      reflexivity.
  - intros Hm. destruct (presManagType v); try reflexivity. congruence.
  - intros Hm. unfold pmError. rewrite Hm. cbn [fst].
    split; [reflexivity|]. split; [reflexivity|].
    intros Hf Hu Hn E. apply Hn.
    assert (E1 : fixedOutletPressure v / 0.3048 * (0.3048 * ucf_PRESSURE nw)
                 == fixedOutletPressure v * ucf_PRESSURE nw) by field.
    assert (E2 : fixedOutletPressure v / ucf_PRESSURE nw
                 * (0.3048 * ucf_PRESSURE nw)
                 == fixedOutletPressure v * 0.3048) by (field; exact Hu).
    rewrite E in E1. rewrite E1 in E2.
    assert (E3 : fixedOutletPressure v * (ucf_PRESSURE nw - 0.3048) == 0).
    { setoid_replace (fixedOutletPressure v * (ucf_PRESSURE nw - 0.3048))
        with (fixedOutletPressure v * ucf_PRESSURE nw
              - fixedOutletPressure v * 0.3048) using relation Qeq by ring.
      rewrite E2. ring. }
    apply Qmult_integral in E3. destruct E3 as [E3 | E3].
    + contradiction.
    + lra.
Qed.

End StatusProperties.

(** ** Head loss *)

Section HeadLossProperties.

Context {K : Constants}.

(** On the unit interval the code computes the flow coefficient of the
    specification. *)
Lemma dprvCv_spec (Cv0 x : double) :
  0 <= x <= 1 -> dprvCv Cv0 x == Cv_spec x.
Proof.
  intros [H0 H1]. unfold dprvCv, Cv_spec.
  destruct (x <? 0.12) eqn:A.
  - assert (B : (0 <=? x) = true) by (apply dle_true; exact H0).
    rewrite B. simpl. reflexivity.
  - rewrite andb_false_r.
    assert (B : (0.12 <=? x) = true)
      by (apply dle_true; apply dlt_false in A; exact A).
    assert (C : (x <=? 1.0) = true) by (apply dle_true; lra).
    rewrite B, C. simpl. ring.
Qed.

(** The flow coefficient is positive on (0, 1], so that [1 / Cv^2] is a
    genuine quotient there. *)
Lemma Cv_spec_pos (x : double) : 0 < x <= 1 -> 0 < Cv_spec x.
Proof.
  intros [H0 H1]. unfold Cv_spec.
  destruct (x <? 0.12) eqn:A; order_facts.
  - apply Qlt_shift_div_l; [reflexivity | lra].
  - assert (P : 0 < 0.09 * x ^ 3 - 1.21 * x ^ 2 + 2.33 * x - 0.21).
    { assert (F : 0.09 * x ^ 3 - 1.21 * x ^ 2 + 2.33 * x - 0.21 ==
                  (x - 0.12) * (0.09 * (x * x) + (1 - x) * 1.1992 + 0.986896)
                  + 0.05233152) by ring.
      rewrite F.
      assert (0 <= (x - 0.12)
                   * (0.09 * (x * x) + (1 - x) * 1.1992 + 0.986896)).
      { apply Qmult_le_0_compat; [lra|].
        assert (0 <= x * x) by (apply Qmult_le_0_compat; lra). lra. }
      lra. }
    lra.
Qed.

Lemma findOpenHeadLoss_hGrad (q : double) (v : Valve) :
  hGrad (findOpenHeadLoss q v) == Qmax (2 * lossFactor v * Qabs q) MIN_GRADIENT.
Proof.
  unfold findOpenHeadLoss. cbn [hGrad set set_hGrad].
  destruct (2 * lossFactor v * Qabs q <? MIN_GRADIENT) eqn:A; cbn; order_facts.
  - symmetry. apply Q.max_r. lra.
  - symmetry. apply Q.max_l. exact A.
Qed.

Lemma findOpenHeadLoss_hLoss (q : double) (v : Valve) :
  hLoss (findOpenHeadLoss q v) ==
  if 2 * lossFactor v * Qabs q <? MIN_GRADIENT then MIN_GRADIENT * q
  else lossFactor v * Qabs q * q.
Proof.
  unfold findOpenHeadLoss. cbn [hGrad set set_hGrad].
  destruct (2 * lossFactor v * Qabs q <? MIN_GRADIENT) eqn:A; cbn.
  - reflexivity.
  - field.
Qed.

Lemma findCcvHeadLoss_diameter (nw : Network) (q : double) (w : Valve) :
  diameter (findCcvHeadLoss nw q w) = diameter w.
Proof.
  unfold findCcvHeadLoss, findOpenHeadLoss.
  repeat match goal with
         | |- context [if ?b then _ else _] => destruct b
         end; reflexivity.
Qed.

(** Unfold [findHeadLoss] down to the tests on the valve it is given. *)
Ltac head_loss_tests :=
  unfold findHeadLoss;
  cbn [status hasFixedStatus valveType Xm setting set set_hLoss set_hGrad].

(** C2, as amended.  For a DPRV without fixed status whose status is
    VALVE_ACTIVE (neither LINK_CLOSED, LINK_OPEN nor TEMP_CLOSED) and whose
    opening [Xm] is in the unit interval and not 0, [findHeadLoss] takes the
    flow coefficient [Cv] of the specification, which is positive, and sets
    the gradient and the head loss by the open-valve formula with the loss
    factor [1 / Cv^2]: [hGrad = max (2 * (1/Cv^2) * |q|) MIN_GRADIENT]; the
    loss factor of the valve itself is restored.  A DPRV whose status is
    TEMP_CLOSED, with or without fixed status and whatever its opening, gets
    the closed formula instead: [hGrad = HIGH_RESISTANCE] and
    [hLoss = q * HIGH_RESISTANCE]. *)
Theorem C2_dprv_active_head_loss (nw : Network) (Cv0 q : double) (v : Valve) :
  valveType v = DPRV ->
  let v' := findHeadLoss nw Cv0 q v in
  let Cv := Cv_spec (Xm v) in
  let L := 1 / (Cv * Cv) in
  (hasFixedStatus v = false -> status v = VALVE_ACTIVE ->
   ~ Xm v == 0 -> 0 <= Xm v <= 1 ->
   dprvCv Cv0 (Xm v) == Cv /\ 0 < Cv /\
   hGrad v' == Qmax (2 * L * Qabs q) MIN_GRADIENT /\
   hLoss v' == (if 2 * L * Qabs q <? MIN_GRADIENT then MIN_GRADIENT * q
                else L * Qabs q * q) /\
   lossFactor v' = lossFactor v) /\
  (status v = TEMP_CLOSED ->
   hGrad v' = HIGH_RESISTANCE /\ hLoss v' = q * HIGH_RESISTANCE /\
   lossFactor v' = lossFactor v).
Proof.
  intros Ht v' Cv L. split.
  - intros Hf Hs Hx Hr.
    assert (Ev : v' =
                 (findOpenHeadLoss q
                    (v <| hLoss := 0.0 |> <| hGrad := 0.0 |>
                       <| lossFactor :=
                            1 / (dprvCv Cv0 (Xm v) * dprvCv Cv0 (Xm v)) |>))
                   <| lossFactor := lossFactor v |> <| inertialTerm := 0 |>).
    { subst v'. head_loss_tests.
      rewrite Hs, Hf, Ht. cbn [LinkStatus_eqb orb].
      assert (E : (Xm v =? 0) = false) by (apply deq_false; exact Hx).
      rewrite E. reflexivity. }
    pose proof (dprvCv_spec Cv0 (Xm v) Hr) as Ec. fold Cv in Ec.
    split; [exact Ec|].
    split; [apply Cv_spec_pos; split; [|tauto]; destruct Hr as [H0 _]; lra|].
    rewrite Ev. split; [|split].
    + cbn [hGrad set set_lossFactor set_inertialTerm].
      rewrite findOpenHeadLoss_hGrad. cbn [lossFactor set set_lossFactor].
      subst L. rewrite Ec. reflexivity.
    + cbn [hLoss set set_lossFactor set_inertialTerm].
      rewrite findOpenHeadLoss_hLoss. cbn [lossFactor set set_lossFactor].
      subst L. rewrite Ec.
      destruct (2 * (1 / (Cv * Cv)) * Qabs q <? MIN_GRADIENT);
        [reflexivity | rewrite Ec; reflexivity].
    + reflexivity.
  - intros Hs. subst v'. head_loss_tests. rewrite Hs.
    cbn [LinkStatus_eqb]. repeat split; reflexivity.
Qed.

(** C7, as amended.  For a valve that is temporarily closed, or whose status
    is fixed at LINK_OPEN or LINK_CLOSED, or that has no fixed status, the
    inertial term that [findHeadLoss] reports is [MIN_GRADIENT] for the
    purely resistive variants: a temporarily closed valve, a valve fixed
    open or closed and, without fixed status, a PRV, PSV, FCV, TCV, PBV or
    GPV, a CCV with setting 0 and a DPRV that is CLOSED or has [Xm = 0]; it
    is the value [10.765 / (32.174 * PI * diameter^2)], which depends on the
    geometry and is not zero, for a CCV without fixed status with a non-zero
    setting; and it is 0 for a DPRV without fixed status in its open and
    active branches. *)
Theorem C7_inertial_term (nw : Network) (Cv0 q : double) (v : Valve) :
  let v' := findHeadLoss nw Cv0 q v in
  (status v = TEMP_CLOSED -> inertialTerm v' = MIN_GRADIENT) /\
  (hasFixedStatus v = true -> status v = LINK_CLOSED \/ status v = LINK_OPEN ->
   inertialTerm v' = MIN_GRADIENT) /\
  (hasFixedStatus v = false -> status v <> TEMP_CLOSED ->
   match valveType v with
   | PRV | PSV | FCV | TCV | PBV | GPV => inertialTerm v' = MIN_GRADIENT
   | CCV =>
       (setting v == 0 -> inertialTerm v' = MIN_GRADIENT) /\
       (~ setting v == 0 ->
        inertialTerm v' = 10.765 / (32.174 * PI * diameter v * diameter v) /\
        (~ PI == 0 -> ~ diameter v == 0 -> ~ inertialTerm v' == 0))
   | DPRV =>
       (status v = LINK_CLOSED \/ Xm v == 0 ->
        inertialTerm v' = MIN_GRADIENT) /\
       (status v <> LINK_CLOSED -> ~ Xm v == 0 -> inertialTerm v' = 0)
   end).
Proof.
  intros v'; subst v'. repeat split.
  - intros Hs. head_loss_tests. rewrite Hs. reflexivity.
  - intros Hf [Hs | Hs]; head_loss_tests; rewrite Hs, Hf; reflexivity.
  - intros Hf Hs. head_loss_tests. rewrite Hf.
    assert (E : LinkStatus_eqb (status v) TEMP_CLOSED = false)
      by (destruct (status v); simpl; congruence).
    rewrite E.
    destruct (valveType v) eqn:Et.
    + destruct (status v); reflexivity.
    + destruct (status v); reflexivity.
    + reflexivity.
    + reflexivity.
    + reflexivity.
    + reflexivity.
    + split.
      * intros Z. apply deq_true in Z. rewrite Z. reflexivity.
      * intros Z. apply deq_false in Z. rewrite Z. cbn [negb].
        cbn [inertialTerm set set_inertialTerm].
        rewrite findCcvHeadLoss_diameter.
        cbn [diameter set set_status set_hLoss set_hGrad].
        split; [reflexivity|].
        intros Hp Hd Hz.
        assert (Q1 : 10.765 / (32.174 * PI * diameter v * diameter v)
                     * (32.174 * PI * diameter v * diameter v) == 10.765)
          by (field; split; assumption).
        rewrite Hz in Q1. ring_simplify in Q1. discriminate.
    + split.
      * intros [Hc | Hx].
        -- rewrite Hc. reflexivity.
        -- apply deq_true in Hx. rewrite Hx, orb_true_r. reflexivity.
      * intros Hc Hx. apply deq_false in Hx. rewrite Hx.
        destruct (status v); try congruence; reflexivity.
Qed.

End HeadLossProperties.

(** ** The pressure-management controller *)

Section ControllerProperties.

Context {K : Constants}.

(** *** The TM schedule *)

Lemma tmSchedule_firstMatch (t : Z) : tmSchedule t = firstMatch tmIntervals t.
Proof. reflexivity. Qed.

(** Decide the tests of the chain one after the other, dropping the cases
    that contradict what is known of [t]. *)
Ltac chain_tests :=
  repeat (match goal with
          | |- context [(?a <=? ?b)%Z] => destruct (Z.leb_spec a b)
          end; try lia; cbn [andb]).

Lemma tm_no_gap (t : Z) :
  (0 <= t <= 604800)%Z ->
  exists a b m,
    In (a, b, m) tmIntervals /\ (a <= t <= b)%Z /\ tmSchedule t = Some m.
Proof.
  intros H. unfold tmSchedule. chain_tests;
  match goal with
  | |- exists a b m, _ /\ _ /\ Some ?x = Some m =>
      match goal with
      | H1 : (?lo <= t)%Z, H2 : (t <= ?hi)%Z |- _ =>
          exists lo, hi, x; split; [simpl; tauto | split; [lia | reflexivity]]
      end
  end.
Qed.

Lemma tm_right_closed (a b : Z) (m : DayNight) (t : Z) :
  In (a, b, m) tmIntervals -> (a < t <= b)%Z -> tmSchedule t = Some m.
Proof.
  intros H Ht. simpl in H.
  repeat (destruct H as [H | H];
          [inversion H; subst; clear H; unfold tmSchedule; chain_tests;
           reflexivity|]).
  contradiction.
Qed.

Lemma tm_boundary (i : nat) (a b b' c : Z) (m1 m2 : DayNight) :
  nth_error tmIntervals i = Some (a, b, m1) ->
  nth_error tmIntervals (S i) = Some (b', c, m2) ->
  b' = b /\ (a < b)%Z /\ tmSchedule b = Some m1.
Proof.
  intros H1 H2.
  do 15 (destruct i as [|i];
         [cbn in H1, H2; inversion H1; inversion H2; subst;
          repeat split; reflexivity|]).
  destruct i; discriminate.
Qed.

(** *** The body of the loop, block by block *)

Lemma pressureManagementValve_eq nw t ao ac Kp Ki Kd ref v :
  pressureManagementValve nw t ao ac Kp Ki Kd ref v =
  let r1 := pmReopen nw ref (pmInitialise t v) in
  if LinkStatus_eqb (status (snd r1)) VALVE_ACTIVE then
    let r2 := pmError nw t (fst r1) (snd r1) in
    (fst r2, pmClamp (pmControl ao ac (option_HYD_STEP nw) (snd r2)))
  else (fst r1, pmClamp (snd r1)).
Proof.
  unfold pressureManagementValve.
  destruct (pmReopen nw ref (pmInitialise t v)) as [r w]. cbn [fst snd].
  destruct (LinkStatus_eqb (status w) VALVE_ACTIVE); [|reflexivity].
  destruct (pmError nw t r w) as [r' w']. reflexivity.
Qed.

Lemma pmInitialise_type t v : valveType (pmInitialise t v) = valveType v.
Proof. unfold pmInitialise. destruct (t =? 0)%Z; reflexivity. Qed.

Lemma pmInitialise_status t v : status (pmInitialise t v) = status v.
Proof. unfold pmInitialise. destruct (t =? 0)%Z; reflexivity. Qed.

Lemma pmInitialise_mode t v :
  presManagType (pmInitialise t v) = presManagType v.
Proof. unfold pmInitialise. destruct (t =? 0)%Z; reflexivity. Qed.

Lemma pmReopen_type nw ref v : valveType (snd (pmReopen nw ref v)) = valveType v.
Proof.
  unfold pmReopen. destruct (presManagType v); try reflexivity.
  destruct (LinkStatus_eqb (status v) LINK_CLOSED); try reflexivity.
  destruct (_ && _); reflexivity.
Qed.

(** An active valve goes through [pmReopen] untouched. *)
Lemma pmReopen_active nw ref v :
  status v = VALVE_ACTIVE -> snd (pmReopen nw ref v) = v.
Proof.
  intros Hs. unfold pmReopen. rewrite Hs.
  destruct (presManagType v); reflexivity.
Qed.

(** Only the FO mode writes [ref] before the error is formed. *)
Lemma pmReopen_ref nw ref v :
  presManagType v <> FO -> fst (pmReopen nw ref v) = ref.
Proof.
  intros Hm. unfold pmReopen.
  destruct (presManagType v) eqn:E; try reflexivity. congruence.
Qed.

Lemma pmError_type nw t ref v : valveType (snd (pmError nw t ref v)) = valveType v.
Proof. unfold pmError. destruct (presManagType v); reflexivity. Qed.

Lemma pmError_snd nw t ref v :
  snd (pmError nw t ref v) =
  v <| errorValve := setpoint nw t ref v - pTarget nw v |>.
Proof.
  unfold pmError, setpoint, pTarget. destruct (presManagType v); reflexivity.
Qed.

Lemma pmError_fst nw t ref v : fst (pmError nw t ref v) = setpoint nw t ref v.
Proof.
  unfold pmError, setpoint. destruct (presManagType v); reflexivity.
Qed.

Lemma pmControl_type ao ac dt v : valveType (pmControl ao ac dt v) = valveType v.
Proof. reflexivity. Qed.

Lemma pmClamp_type v : valveType (pmClamp v) = valveType v.
Proof.
  unfold pmClamp. destruct (Xm v <? 0); destruct (_ >? 1); reflexivity.
Qed.

Lemma pmClamp_delta_Xm v : delta_Xm (pmClamp v) = delta_Xm v.
Proof.
  unfold pmClamp. destruct (Xm v <? 0); destruct (_ >? 1); reflexivity.
Qed.

Lemma pmClamp_Xm_Last v : Xm_Last (pmClamp v) = Xm_Last v.
Proof.
  unfold pmClamp. destruct (Xm v <? 0); destruct (_ >? 1); reflexivity.
Qed.

Lemma pmClamp_Xm v : Xm (pmClamp v) == clamp01 (Xm v).
Proof.
  unfold pmClamp, clamp01.
  destruct (Xm v <? 0) eqn:A; cbn [Xm set set_Xm].
  - assert (B : (0 >? 1) = false) by reflexivity. rewrite B. reflexivity.
  - destruct (Xm v >? 1) eqn:B; reflexivity.
Qed.

Lemma pmClamp_range (v : Valve) : 0 <= Xm (pmClamp v) <= 1.
Proof.
  unfold pmClamp.
  destruct (Xm v <? 0) eqn:A; cbn [Xm set set_Xm].
  - assert (B : (0 >? 1) = false) by reflexivity. rewrite B. cbn. lra.
  - destruct (Xm v >? 1) eqn:B; cbn; order_facts; lra.
Qed.

Lemma pressureManagementValve_type nw t ao ac Kp Ki Kd ref v :
  valveType (snd (pressureManagementValve nw t ao ac Kp Ki Kd ref v))
  = valveType v.
Proof.
  rewrite pressureManagementValve_eq. cbv zeta.
  destruct (LinkStatus_eqb _ _); cbn [snd];
    rewrite pmClamp_type, ?pmControl_type, ?pmError_type, pmReopen_type;
    apply pmInitialise_type.
Qed.

Lemma pressureManagementValve_range nw t ao ac Kp Ki Kd ref v :
  0 <= Xm (snd (pressureManagementValve nw t ao ac Kp Ki Kd ref v)) <= 1.
Proof.
  rewrite pressureManagementValve_eq. cbv zeta.
  destruct (LinkStatus_eqb _ _); cbn [snd]; apply pmClamp_range.
Qed.

(** *** The loop *)

Lemma pressureManagementLoop_links nw t ao ac Kp Ki Kd ls :
  forall ref out,
    Forall2 (pmLink nw t ao ac Kp Ki Kd) ls
      (snd (pressureManagementLoop nw t ao ac Kp Ki Kd ref out ls)).
Proof.
  induction ls as [|l ls IH]; intros ref out; simpl.
  - constructor.
  - destruct l as [| |v].
    + specialize (IH ref out).
      destruct (pressureManagementLoop nw t ao ac Kp Ki Kd ref out ls) as [o r].
      simpl. constructor; [reflexivity | exact IH].
    + specialize (IH ref out).
      destruct (pressureManagementLoop nw t ao ac Kp Ki Kd ref out ls) as [o r].
      simpl. constructor; [reflexivity | exact IH].
    + destruct (valveType v) eqn:Et;
        try (specialize (IH ref out);
             destruct (pressureManagementLoop nw t ao ac Kp Ki Kd ref out ls)
               as [o r];
             simpl; constructor;
             [unfold pmLink; rewrite Et; reflexivity | exact IH]).
      destruct (pressureManagementValve nw t ao ac Kp Ki Kd ref v)
        as [ref' v'] eqn:Ev.
      specialize (IH ref' (out ++ [(t, Xm v')])).
      destruct (pressureManagementLoop nw t ao ac Kp Ki Kd ref'
                  (out ++ [(t, Xm v')]) ls) as [o r].
      simpl. constructor; [|exact IH].
      unfold pmLink. rewrite Et. exists ref. rewrite Ev. reflexivity.
Qed.

Lemma pressureManagement_links nw t out ao ac Kp Ki Kd ref0 :
  Forall2 (pmLink nw t ao ac Kp Ki Kd) (links nw)
    (links (snd (pressureManagement nw t out ao ac Kp Ki Kd ref0))).
Proof.
  unfold pressureManagement.
  pose proof (pressureManagementLoop_links nw t ao ac Kp Ki Kd (links nw)
                ref0 out) as H.
  destruct (pressureManagementLoop nw t ao ac Kp Ki Kd ref0 out (links nw))
    as [o ls]. exact H.
Qed.

Lemma Forall2_nth_error_l {A B} (R : A -> B -> Prop) (l : list A) (l' : list B) :
  Forall2 R l l' ->
  forall i x, nth_error l i = Some x ->
              exists y, nth_error l' i = Some y /\ R x y.
Proof.
  induction 1 as [|a b l l' Hab _ IH]; intros [|i] x Hx;
    simpl in Hx; try discriminate.
  - injection Hx as <-. exists b. split; [reflexivity | exact Hab].
  - apply IH. exact Hx.
Qed.

Lemma Forall2_In_r {A B} (R : A -> B -> Prop) (l : list A) (l' : list B) :
  Forall2 R l l' -> forall y, In y l' -> exists x, In x l /\ R x y.
Proof.
  induction 1 as [|a b l l' Hab _ IH]; intros y Hy; simpl in Hy.
  - contradiction.
  - destruct Hy as [<- | Hy].
    + exists a. split; [left; reflexivity | exact Hab].
    + destruct (IH y Hy) as [x [Hx Hr]]. exists x. split; [right|]; assumption.
Qed.

(** *** The claims on the controller *)

Lemma pmControl_law (ao ac : double) (dt : Z) (v : Valve) (e : double) :
  let w := pmControl ao ac dt (v <| errorValve := e |>) in
  let A_cs := (1.30 * Xm v ^ 2 + 0.56) * 0.0047 / 0.057 in
  let q3 := if e >=? 0 then ao * e else ac * e in
  errorValve w = e /\
  delta_Xm w == q3 / A_cs * inject_Z dt /\
  Xm w == Xm_Last v + delta_Xm w /\
  Xm_Last w = Xm_Last v.
Proof.
  intros w A_cs q3. subst w. unfold pmControl.
  cbn [errorValve delta_Xm Xm Xm_Last set set_delta_Xm set_Xm set_errorValve].
  assert (EA : (1.30 * Xm v * Xm v + 0.56) * 0.0047 / 0.057 == A_cs).
  { subst A_cs. unfold Qdiv. ring. }
  assert (Eq : (if e >=? 0 then ao * e
                else if e <=? 0 then ac * e else 0) = q3).
  { subst q3. destruct (e >=? 0) eqn:A; [reflexivity|].
    assert (B : (e <=? 0) = true) by (apply dle_true; order_facts; lra).
    rewrite B. reflexivity. }
  rewrite Eq, EA.
  repeat split; try reflexivity. ring.
Qed.

(** C1.  A DPRV that is VALVE_ACTIVE when [pressureManagement] runs: with
    [e = ref - p_target] the error on the set point of its mode,
    [A_cs = (k5 * Xm^2 + k6) * V_control / lift] for [k5 = 1.30],
    [k6 = 0.56], [V_control = 0.0047], [lift = 0.057], and
    [q3 = alfaopen * e] if [e >= 0], [alfaclose * e] otherwise, the controller
    sets [delta_Xm = (q3 / A_cs) * dt_hyd] and [Xm = Xm_Last + delta_Xm].
    [Xm] and [Xm_Last] are those of the valve after the initialisation of the
    first call; [w] is the valve at the assignment to [Xm], and the call
    leaves it clamped. *)
Theorem C1_physical_control_law (nw : Network) (t : Z) (out : list TraceLine)
  (alfaopen alfaclose Kp Ki Kd ref0 : double) (i : nat) (v : Valve) :
  nth_error (links nw) i = Some (VALVE v) ->
  valveType v = DPRV -> status v = VALVE_ACTIVE ->
  exists (ref : double) (w : Valve),
    nth_error
      (links (snd (pressureManagement nw t out alfaopen alfaclose Kp Ki Kd ref0)))
      i = Some (VALVE (pmClamp w)) /\
    let v0 := pmInitialise t v in
    let e := setpoint nw t ref v0 - pTarget nw v0 in
    let A_cs := (1.30 * Xm v0 ^ 2 + 0.56) * 0.0047 / 0.057 in
    let q3 := if e >=? 0 then alfaopen * e else alfaclose * e in
    errorValve w = e /\
    delta_Xm w == q3 / A_cs * inject_Z (option_HYD_STEP nw) /\
    Xm w == Xm_Last v0 + delta_Xm w /\
    delta_Xm (pmClamp w) = delta_Xm w /\
    Xm_Last (pmClamp w) = Xm_Last v0 /\
    Xm (pmClamp w) == clamp01 (Xm w).
Proof.
  intros Hi Ht Hs.
  destruct (Forall2_nth_error_l _ _ _
              (pressureManagement_links nw t out alfaopen alfaclose Kp Ki Kd ref0)
              i _ Hi) as [y [Hy Hl]].
  unfold pmLink in Hl. rewrite Ht in Hl. destruct Hl as [r ->].
  assert (Hs0 : status (pmInitialise t v) = VALVE_ACTIVE)
    by (rewrite pmInitialise_status; exact Hs).
  assert (EE : snd (pressureManagementValve nw t alfaopen alfaclose Kp Ki Kd r v)
               = pmClamp
                   (pmControl alfaopen alfaclose (option_HYD_STEP nw)
                      ((pmInitialise t v)
                         <| errorValve :=
                              setpoint nw t
                                (fst (pmReopen nw r (pmInitialise t v)))
                                (pmInitialise t v)
                              - pTarget nw (pmInitialise t v) |>))).
  { rewrite pressureManagementValve_eq. cbv zeta.
    rewrite (pmReopen_active nw r _ Hs0), Hs0.
    rewrite LinkStatus_eqb_refl. unfold snd at 1. rewrite pmError_snd.
    reflexivity. }
  rewrite EE in Hy.
  exists (fst (pmReopen nw r (pmInitialise t v))).
  eexists. split; [exact Hy|].
  cbv zeta.
  destruct (pmControl_law alfaopen alfaclose (option_HYD_STEP nw)
              (pmInitialise t v)
              (setpoint nw t (fst (pmReopen nw r (pmInitialise t v)))
                 (pmInitialise t v)
               - pTarget nw (pmInitialise t v))) as [L1 [L2 [L3 L4]]].
  split; [exact L1|]. split; [exact L2|]. split; [exact L3|].
  split; [apply pmClamp_delta_Xm|].
  split; [rewrite pmClamp_Xm_Last; exact L4|].
  apply pmClamp_Xm.
Qed.

(** Assigning another member does not touch [Xm]. *)
Lemma Xm_set_initStatus x v : Xm (v <| initStatus := x |>) = Xm v.
Proof. reflexivity. Qed.
Lemma Xm_set_diameter x v : Xm (v <| diameter := x |>) = Xm v.
Proof. reflexivity. Qed.
Lemma Xm_set_initSetting x v : Xm (v <| initSetting := x |>) = Xm v.
Proof. reflexivity. Qed.
Lemma Xm_set_status x v : Xm (v <| status := x |>) = Xm v.
Proof. reflexivity. Qed.
Lemma Xm_set_flow x v : Xm (v <| flow := x |>) = Xm v.
Proof. reflexivity. Qed.
Lemma Xm_set_hLoss x v : Xm (v <| hLoss := x |>) = Xm v.
Proof. reflexivity. Qed.
Lemma Xm_set_hGrad x v : Xm (v <| hGrad := x |>) = Xm v.
Proof. reflexivity. Qed.
Lemma Xm_set_setting x v : Xm (v <| setting := x |>) = Xm v.
Proof. reflexivity. Qed.
Lemma Xm_set_inertialTerm x v : Xm (v <| inertialTerm := x |>) = Xm v.
Proof. reflexivity. Qed.
Lemma Xm_set_pastFlow x v : Xm (v <| pastFlow := x |>) = Xm v.
Proof. reflexivity. Qed.
Lemma Xm_set_pastHloss x v : Xm (v <| pastHloss := x |>) = Xm v.
Proof. reflexivity. Qed.
Lemma Xm_set_pastSetting x v : Xm (v <| pastSetting := x |>) = Xm v.
Proof. reflexivity. Qed.
Lemma Xm_set_lossFactor x v : Xm (v <| lossFactor := x |>) = Xm v.
Proof. reflexivity. Qed.
Lemma Xm_set_dprvOutletPressure x v : Xm (v <| dprvOutletPressure := x |>) = Xm v.
Proof. reflexivity. Qed.
Lemma Xm_set_delta_Xm x v : Xm (v <| delta_Xm := x |>) = Xm v.
Proof. reflexivity. Qed.
Lemma Xm_set_Xm_Last x v : Xm (v <| Xm_Last := x |>) = Xm v.
Proof. reflexivity. Qed.
Lemma Xm_set_errorValve x v : Xm (v <| errorValve := x |>) = Xm v.
Proof. reflexivity. Qed.
Lemma Xm_set_errorSumValve x v : Xm (v <| errorSumValve := x |>) = Xm v.
Proof. reflexivity. Qed.
Lemma Xm_set_errorDifValve x v : Xm (v <| errorDifValve := x |>) = Xm v.
Proof. reflexivity. Qed.
Lemma Xm_set_errorPreValve x v : Xm (v <| errorPreValve := x |>) = Xm v.
Proof. reflexivity. Qed.
Lemma Xm_set_hasFixedStatus x v : Xm (v <| hasFixedStatus := x |>) = Xm v.
Proof. reflexivity. Qed.
Lemma Xm_set_elev x v : Xm (v <| elev := x |>) = Xm v.
Proof. reflexivity. Qed.

Create Rewrite HintDb Xm_set.
#[local] Hint Rewrite Xm_set_initStatus
  Xm_set_diameter
  Xm_set_initSetting
  Xm_set_status
  Xm_set_flow
  Xm_set_hLoss
  Xm_set_hGrad
  Xm_set_setting
  Xm_set_inertialTerm
  Xm_set_pastFlow
  Xm_set_pastHloss
  Xm_set_pastSetting
  Xm_set_lossFactor
  Xm_set_dprvOutletPressure
  Xm_set_delta_Xm
  Xm_set_Xm_Last
  Xm_set_errorValve
  Xm_set_errorSumValve
  Xm_set_errorDifValve
  Xm_set_errorPreValve
  Xm_set_hasFixedStatus
  Xm_set_elev : Xm_set.

(** The operations of a valve other than the controller leave [Xm] alone. *)
Lemma findOpenHeadLoss_Xm (q : double) (v : Valve) :
  Xm (findOpenHeadLoss q v) = Xm v.
Proof.
  unfold findOpenHeadLoss. destruct (_ <? _); reflexivity.
Qed.

Lemma findClosedHeadLoss_Xm (q : double) (v : Valve) :
  Xm (findClosedHeadLoss q v) = Xm v.
Proof. reflexivity. Qed.

#[local] Hint Rewrite findOpenHeadLoss_Xm findClosedHeadLoss_Xm : Xm_set.

Ltac Xm_of_set := autorewrite with Xm_set.

Lemma findHeadLoss_Xm (nw : Network) (Cv0 q : double) (v : Valve) :
  Xm (findHeadLoss nw Cv0 q v) = Xm v.
Proof.
  unfold findHeadLoss.
  assert (E0 : Xm v = Xm (v <| hLoss := 0.0 |> <| hGrad := 0.0 |>))
    by reflexivity.
  rewrite E0. clear E0.
  generalize (v <| hLoss := 0.0 |> <| hGrad := 0.0 |>). clear v. intros v0.
  destruct (LinkStatus_eqb (status v0) TEMP_CLOSED); [now Xm_of_set|].
  destruct (hasFixedStatus v0).
  { destruct (LinkStatus_eqb (status v0) LINK_CLOSED); [now Xm_of_set|].
    destruct (LinkStatus_eqb (status v0) LINK_OPEN); now Xm_of_set. }
  destruct (valveType v0).
  - destruct (LinkStatus_eqb (status v0) LINK_CLOSED); [now Xm_of_set|].
    destruct (LinkStatus_eqb (status v0) LINK_OPEN); now Xm_of_set.
  - destruct (LinkStatus_eqb (status v0) LINK_CLOSED); [now Xm_of_set|].
    destruct (LinkStatus_eqb (status v0) LINK_OPEN); now Xm_of_set.
  - unfold findFcvHeadLoss. Xm_of_set.
    destruct (_ >? _); [now Xm_of_set|].
    destruct (_ <? _); now Xm_of_set.
  - unfold findTcvHeadLoss. now Xm_of_set.
  - unfold findPbvHeadLoss. Xm_of_set.
    destruct (_ >=? _); now Xm_of_set.
  - unfold findGpvHeadLoss. Xm_of_set.
    destruct (findSegment nw _ _) as [r h0].
    destruct (_ <? _); now Xm_of_set.
  - destruct (setting v0 =? 0); [now Xm_of_set|]. cbn [negb].
    unfold findCcvHeadLoss. Xm_of_set.
    destruct (String.eqb _ _); [now Xm_of_set|].
    destruct (String.eqb _ _); now Xm_of_set.
  - destruct (_ || _); [now Xm_of_set|].
    destruct (LinkStatus_eqb (status v0) LINK_OPEN).
    + now Xm_of_set.
    + unfold findDprvHeadLoss. now Xm_of_set.
Qed.

Lemma updateStatus_Xm (nw : Network) (q h1 h2 : double) (v : Valve) :
  Xm (updateStatus nw q h1 h2 v) = Xm v.
Proof.
  unfold updateStatus. destruct (hasFixedStatus v); [reflexivity|].
  assert (G : forall ns w, Xm w = Xm v ->
            Xm (if negb (LinkStatus_eqb ns (status w)) then
                  (if LinkStatus_eqb ns LINK_CLOSED
                   then w <| flow := ZERO_FLOW |> else w) <| status := ns |>
                else w) = Xm v).
  { intros ns w Hw. destruct (negb _); [|exact Hw].
    destruct (LinkStatus_eqb ns LINK_CLOSED); now Xm_of_set. }
  destruct (valveType v); try (apply G; reflexivity).
  pose proof (updateDprvStatus_snd nw q h1 h2 v) as E.
  destruct (updateDprvStatus nw q h1 h2 v) as [ns v1]. simpl in E. subst v1.
  apply G. reflexivity.
Qed.

Lemma changeSetting_Xm (x : double) (mk : bool) (reason log : string) (v : Valve) :
  Xm (snd (fst (changeSetting x mk reason log v))) = Xm v.
Proof.
  unfold changeSetting.
  repeat match goal with
         | |- context [if ?b then _ else _] => destruct b
         end; cbn [fst snd]; now Xm_of_set.
Qed.

Lemma changeStatus_Xm (s : LinkStatus) (mk : bool) (reason log : string)
  (v : Valve) :
  Xm (snd (fst (changeStatus s mk reason log v))) = Xm v.
Proof.
  unfold changeStatus.
  repeat match goal with
         | |- context [if ?b then _ else _] => destruct b
         end; cbn [fst snd]; now Xm_of_set.
Qed.

Lemma setInitFlow_Xm (v : Valve) : Xm (setInitFlow v) = Xm v.
Proof.
  unfold setInitFlow.
  repeat match goal with
         | |- context [if ?b then _ else _] => destruct b
         end; now Xm_of_set.
Qed.

Lemma initialize_Xm (b : bool) (v : Valve) : Xm (initialize b v) = Xm v.
Proof.
  unfold initialize. destruct b; Xm_of_set;
    rewrite ?setInitFlow_Xm; now Xm_of_set.
Qed.

Lemma convertSetting_Xm (nw : Network) (s : double) (v : Valve) :
  Xm (snd (convertSetting nw s v)) = Xm v.
Proof.
  unfold convertSetting. cbn [snd].
  repeat match goal with
         | |- context [if ?b then _ else _] => destruct b
         end; now Xm_of_set.
Qed.

Lemma convertUnits_Xm (nw : Network) (v : Valve) : Xm (convertUnits nw v) = Xm v.
Proof.
  unfold convertUnits.
  match goal with
  | |- context [convertSetting nw ?s ?w] =>
      pose proof (convertSetting_Xm nw s w) as E;
      destruct (convertSetting nw s w) as [s' w']
  end.
  cbn [snd] in E. Xm_of_set. rewrite E. now Xm_of_set.
Qed.

Lemma lasting_links (nw : Network) :
  Forall2 sameXm (links nw) (links (lasting nw)).
Proof.
  unfold lasting. cbn [links with_links].
  induction (links nw) as [|l ls IH]; simpl; constructor; try exact IH.
  destruct l as [| |v]; simpl; trivial.
  destruct (valveType v); reflexivity.
Qed.
(** C3.  After every call of [pressureManagement], at any time and whatever
    the status of the valves, the opening [Xm] of each DPRV of the network is
    in [0, 1]; and no other operation moves it: [findHeadLoss],
    [updateStatus], [changeSetting], [changeStatus], [convertUnits],
    [initialize], [setInitFlow], [setInitStatus], [setInitSetting],
    [setLossFactor], [applyControlPattern] and [lasting] leave [Xm] as it
    is. *)
Theorem C3_Xm_in_unit_interval :
  (forall nw t out alfaopen alfaclose Kp Ki Kd ref0 v,
      In (VALVE v)
        (links (snd (pressureManagement nw t out alfaopen alfaclose
                       Kp Ki Kd ref0))) ->
      valveType v = DPRV -> 0 <= Xm v <= 1) /\
  (forall nw Cv0 q v, Xm (findHeadLoss nw Cv0 q v) = Xm v) /\
  (forall nw q h1 h2 v, Xm (updateStatus nw q h1 h2 v) = Xm v) /\
  (forall x mk reason log v,
      Xm (snd (fst (changeSetting x mk reason log v))) = Xm v) /\
  (forall s mk reason log v,
      Xm (snd (fst (changeStatus s mk reason log v))) = Xm v) /\
  (forall nw v, Xm (convertUnits nw v) = Xm v) /\
  (forall b v, Xm (initialize b v) = Xm v) /\
  (forall v, Xm (setInitFlow v) = Xm v) /\
  (forall s v, Xm (setInitStatus s v) = Xm v) /\
  (forall s v, Xm (setInitSetting s v) = Xm v) /\
  (forall v, Xm (setLossFactor v) = Xm v) /\
  (forall nw v, Xm (applyControlPattern nw v) = Xm v) /\
  (forall nw, Forall2 sameXm (links nw) (links (lasting nw))).
Proof.
  split.
  { intros nw t out ao ac Kp Ki Kd ref0 v Hin Ht.
    destruct (Forall2_In_r _ _ _
                (pressureManagement_links nw t out ao ac Kp Ki Kd ref0)
                _ Hin) as [l [_ Hl]].
    unfold pmLink in Hl. destruct l as [| |u]; try discriminate.
    destruct (valveType u) eqn:Eu;
      try (injection Hl as ->; congruence).
    destruct Hl as [r Hr]. injection Hr as ->.
    apply pressureManagementValve_range. }
  repeat split; intros.
  - apply findHeadLoss_Xm.
  - apply updateStatus_Xm.
  - apply changeSetting_Xm.
  - apply changeStatus_Xm.
  - apply convertUnits_Xm.
  - apply initialize_Xm.
  - apply setInitFlow_Xm.
  - apply lasting_links.
Qed.

(** C6, as amended.  The schedule of the TM mode is the list [tmIntervals]:
    consecutive intervals share their boundary, and at a shared boundary the
    schedule gives the pressure of the interval that ends there, since the
    chain tests the earlier interval first (the intervals are closed on the
    right, the first one on both sides); every time of the horizon
    [0, 604800] lies in an interval that assigns the reference pressure; and
    an active DPRV in TM mode is given that pressure as [ref], whatever value
    [ref] held before. *)
Theorem C6_tm_schedule :
  (forall i a b b' c m1 m2,
      nth_error tmIntervals i = Some (a, b, m1) ->
      nth_error tmIntervals (S i) = Some (b', c, m2) ->
      b' = b /\ (a < b)%Z /\ tmSchedule b = Some m1) /\
  (forall a b m t,
      In (a, b, m) tmIntervals -> (a < t <= b)%Z -> tmSchedule t = Some m) /\
  (forall t,
      (0 <= t <= 604800)%Z ->
      exists a b m,
        In (a, b, m) tmIntervals /\ (a <= t <= b)%Z /\ tmSchedule t = Some m) /\
  (forall nw t alfaopen alfaclose Kp Ki Kd ref v m,
      presManagType v = TM -> status v = VALVE_ACTIVE ->
      tmSchedule t = Some m ->
      fst (pressureManagementValve nw t alfaopen alfaclose Kp Ki Kd ref v)
      = tmPressure nw v m).
Proof.
  split; [|split; [|split]].
  - intros i a b b' c m1 m2. apply tm_boundary.
  - intros a b m t. apply tm_right_closed.
  - apply tm_no_gap.
  - intros nw t ao ac Kp Ki Kd ref v m Hm Hs Ht.
    rewrite pressureManagementValve_eq. cbv zeta.
    assert (Hs0 : status (pmInitialise t v) = VALVE_ACTIVE)
      by (rewrite pmInitialise_status; exact Hs).
    rewrite (pmReopen_active nw ref _ Hs0), Hs0.
    rewrite LinkStatus_eqb_refl. unfold fst at 1.
    rewrite pmError_fst. unfold setpoint, tmRef.
    rewrite pmInitialise_mode, Hm, Ht.
    unfold tmPressure, pmInitialise.
    destruct m; destruct (t =? 0)%Z; reflexivity.
Qed.

End ControllerProperties.

(** ** The project layer *)

Section ProjectProperties.

Variables HydEngine OutputFile : Type.
Context {C : Collaborators HydEngine OutputFile}.

(** A handler that returns leaves no exception behind. *)
Lemma try_catch_no_throw {A} (body : Exec HydEngine OutputFile A)
  (handler : ENerror -> Exec HydEngine OutputFile A) :
  (forall e s e', fst (handler e s) <> Throws e') ->
  forall s e', fst (try_catch body handler s) <> Throws e'.
Proof.
  intros Hh s e'. unfold try_catch.
  destruct (body s) as [[a | e |] s'] eqn:E; simpl.
  - discriminate.
  - apply Hh.
  - discriminate.
Qed.

(** C9.  [runSolver] returns 0 when the solver is initialised and the calls
    it makes succeed.  Called on a project whose solver is not initialised,
    it raises [SystemError(SOLVER_NOT_INITIALIZED)], catches it, appends its
    message to the message log and returns its code, which is positive as
    the codes of errors are (0 denotes success); the project is otherwise
    left as it was.  No exception leaves [runSolver]. *)
Theorem C9_runSolver_error_code (p : Project HydEngine OutputFile) (t : Z) :
  (0 < code (SystemError SOLVER_NOT_INITIALIZED))%Z ->
  (solverInitialized p = false ->
   exists p',
     runSolver (p, t)
     = (Returns (code (SystemError SOLVER_NOT_INITIALIZED)), (p', t)) /\
     (0 < code (SystemError SOLVER_NOT_INITIALIZED))%Z /\
     msgLog (network p')
     = (msgLog (network p) ++ msg (SystemError SOLVER_NOT_INITIALIZED))%string /\
     links (network p') = links (network p) /\
     hydEngine p' = hydEngine p /\ outputFile p' = outputFile p /\
     solverInitialized p' = false /\
     outputFileOpened p' = outputFileOpened p) /\
  (solverInitialized p = true ->
   forall s1, solve (p, t) = (Returns tt, s1) ->
     (outputFileOpened (fst s1) = false \/
      exists r,
        int_rem (snd s1) (option_REPORT_STEP (network (fst s1))) = Some r /\
        (r <> 0%Z \/ exists s2, writeNetworkResults s1 = (Returns tt, s2))) ->
     fst (runSolver (p, t)) = Returns 0%Z) /\
  (forall e, fst (runSolver (p, t)) <> Throws e).
Proof.
  intros Hpos. split; [|split].
  - intros Hi. eexists. unfold runSolver, try_catch, bind, getProject.
    cbn [fst snd]. rewrite Hi. cbn.
    split; [reflexivity|]. cbn. rewrite Hi. repeat split. exact Hpos.
  - intros Hi s1 Hsolve Hw.
    unfold runSolver, try_catch, bind, getProject, getT.
    cbn [fst snd]. rewrite Hi. cbn [negb ret]. rewrite Hsolve.
    destruct Hw as [Hw | [r [Hr Hw]]].
    + rewrite Hw. reflexivity.
    + destruct (outputFileOpened (fst s1)); [|reflexivity].
      rewrite Hr. destruct Hw as [Hw | [s2 Hw]].
      * destruct (Z.eqb_spec r 0); [contradiction|]. reflexivity.
      * destruct (r =? 0)%Z; [rewrite Hw|]; reflexivity.
  - intros e. unfold runSolver. apply try_catch_no_throw.
    intros e0 s e'. discriminate.
Qed.

End ProjectProperties.

(** * Concrete runs

    The properties above, applied to the demonstration network, and the
    runs on which the code departs from the specification as worded. *)

(** A concrete Q is not another one. *)
Ltac Q_differ := let H := fresh in intro H; vm_compute in H; discriminate H.

(** C1 on the demonstration network at the first call: link 1 is an active
    DPRV, and its opening is assigned [Xm_Last + delta_Xm] before the
    clamp. *)
Lemma C1_witness :
  nth_error (links demo_network) 1 = Some (VALVE demo_valve) /\
  valveType demo_valve = DPRV /\ status demo_valve = VALVE_ACTIVE /\
  exists w,
    nth_error
      (links (snd (pressureManagement demo_network 0 [] 1e-6 1e-6 0 0 0 0)))
      1 = Some (VALVE (pmClamp w)) /\
    Xm w == Xm_Last (pmInitialise 0 demo_valve) + delta_Xm w.
Proof.
  split; [reflexivity|]. split; [reflexivity|]. split; [reflexivity|].
  destruct (C1_physical_control_law demo_network 0 [] 1e-6 1e-6 0 0 0 0
              1 demo_valve eq_refl eq_refl eq_refl)
    as [ref [w [H1 [_ [_ [H3 _]]]]]].
  exists w. split; [exact H1 | exact H3].
Defined.

(** C2 on the demonstration valve, half open, at unit flow; temporarily
    closed, the same valve gets the closed formula. *)
Lemma C2_witness :
  let u := demo_valve <| status := TEMP_CLOSED |> in
  valveType demo_valve = DPRV /\ hasFixedStatus demo_valve = false /\
  status demo_valve = VALVE_ACTIVE /\ ~ Xm demo_valve == 0 /\
  0 <= Xm demo_valve <= 1 /\
  hGrad (findHeadLoss (K := epanet_constants) demo_network 0 1 demo_valve)
  == Qmax (2 * (1 / (Cv_spec 0.5 * Cv_spec 0.5)) * Qabs 1) 1e-6 /\
  valveType u = DPRV /\ status u = TEMP_CLOSED /\
  hGrad (findHeadLoss (K := epanet_constants) demo_network 0 1 u)
  = HIGH_RESISTANCE (Constants := epanet_constants).
Proof.
  cbv zeta.
  assert (Hx : ~ Xm demo_valve == 0) by Q_differ.
  assert (Hr : 0 <= Xm demo_valve <= 1) by (split; discriminate).
  split; [reflexivity|]. split; [reflexivity|]. split; [reflexivity|].
  split; [exact Hx|]. split; [exact Hr|]. split.
  - exact (proj1 (proj2 (proj2
             (proj1 (C2_dprv_active_head_loss (K := epanet_constants)
                       demo_network 0 1 demo_valve eq_refl)
                eq_refl eq_refl Hx Hr)))).
  - split; [reflexivity|]. split; [reflexivity|].
    exact (proj1 (proj2 (C2_dprv_active_head_loss (K := epanet_constants)
                           demo_network 0 1
                           (demo_valve <| status := TEMP_CLOSED |>) eq_refl)
                    eq_refl)).
Defined.

(** C2 as worded fails on a temporarily closed DPRV: its status is neither
    LINK_CLOSED nor LINK_OPEN, and the closed formula is applied. *)
Lemma C2_counterexample :
  let v := demo_valve <| status := TEMP_CLOSED |> in
  let v' := findHeadLoss (K := epanet_constants) demo_network 0 1 v in
  valveType v = DPRV /\ hasFixedStatus v = false /\
  status v <> LINK_CLOSED /\ status v <> LINK_OPEN /\
  ~ Xm v == 0 /\ 0 <= Xm v <= 1 /\
  hGrad v' == 1e8 /\
  ~ hGrad v' == Qmax (2 * (1 / (Cv_spec (Xm v) * Cv_spec (Xm v))) * Qabs 1)
                  (MIN_GRADIENT (Constants := epanet_constants)).
Proof.
  cbv zeta.
  split; [reflexivity|]. split; [reflexivity|].
  split; [discriminate|]. split; [discriminate|].
  split; [Q_differ|]. split; [split; discriminate|].
  split; [vm_compute; reflexivity | Q_differ].
Qed.

(** C3 on the demonstration network: the DPRV that the call leaves has its
    opening in the unit interval. *)
Lemma C3_witness :
  let v' := snd (pressureManagementValve demo_network 7 1 1 0 0 0 0 demo_valve) in
  In (VALVE v')
    (links (snd (pressureManagement demo_network 7 [] 1 1 0 0 0 0))) /\
  valveType v' = DPRV /\ 0 <= Xm v' <= 1.
Proof.
  cbv zeta.
  assert (Hin : In (VALVE (snd (pressureManagementValve demo_network 7 1 1 0 0 0
                                  0 demo_valve)))
                  (links (snd (pressureManagement demo_network 7 [] 1 1 0 0 0 0))))
    by (right; left; vm_compute; reflexivity).
  split; [exact Hin|]. split; [vm_compute; reflexivity|].
  exact (proj1 (C3_Xm_in_unit_interval (K := epanet_constants))
           demo_network 7%Z [] 1 1 0 0 0 0 _ Hin
           ltac:(vm_compute; reflexivity)).
Defined.

(** C4 on the demonstration valve in FO mode, with pressures in psi: the
    rule takes [30 / 0.3048] for the outlet pressure, the controller
    [30 / 0.4333], and at an upstream head of 90 the valve is opened. *)
Lemma C4_witness :
  let pOut := dprvOutletPressure
                (snd (updateDprvStatus (K := epanet_constants) demo_network_psi
                        0 90 50 demo_valve)) in
  presManagType demo_valve = FO /\
  ~ fixedOutletPressure demo_valve == 0 /\
  ~ ucf_PRESSURE demo_network_psi == 0 /\
  ~ ucf_PRESSURE demo_network_psi == 0.3048 /\
  pOut = 30 / 0.3048 /\
  fst (pmError demo_network_psi 7 0 demo_valve) = 30 / 0.4333 /\
  ~ pOut == fst (pmError demo_network_psi 7 0 demo_valve) /\
  fst (updateDprvStatus (K := epanet_constants) demo_network_psi 0 90 50
         demo_valve)
  = updatePrvStatus (K := epanet_constants) 0 90 50
      (demo_valve <| setting := pOut |>) /\
  fst (updateDprvStatus (K := epanet_constants) demo_network_psi 0 90 50
         demo_valve) = LINK_OPEN.
Proof.
  cbv zeta.
  assert (Hf : ~ fixedOutletPressure demo_valve == 0) by Q_differ.
  assert (Hu : ~ ucf_PRESSURE demo_network_psi == 0) by Q_differ.
  assert (Hn : ~ ucf_PRESSURE demo_network_psi == 0.3048) by Q_differ.
  destruct (C4_dprv_status_rule (K := epanet_constants) demo_network_psi 7 0
              0 90 50 demo_valve) as [H1 [_ H3]].
  destruct (H3 eq_refl) as [H4 [H5 H6]].
  split; [reflexivity|]. split; [exact Hf|]. split; [exact Hu|].
  split; [exact Hn|]. split; [exact H4|]. split; [exact H5|].
  split; [exact (H6 Hf Hu Hn)|]. split; [exact H1|].
  reflexivity.
Defined.

(** C4 as worded fails in FO mode.  On the network with pressures in psi, at
    an upstream head of 90, a PRV stays active both with the head setting
    [fixedOutletPressure + elev_to = 40] of the specification and with the
    head setting [30 / 0.4333 + 10] that the conversion of the controller
    gives, while the DPRV, whose head setting is [30 / 0.3048 + 10], is
    opened. *)
Lemma C4_counterexample :
  let converted := demo_prv <| setting := 30 / ucf_PRESSURE demo_network_psi |> in
  elev demo_valve = Node.elev (node demo_network_psi (toNode demo_valve)) /\
  status demo_prv = status demo_valve /\
  setting demo_prv + elev demo_prv
  == dprv_hset_spec demo_network_psi demo_valve /\
  fst (updateDprvStatus (K := epanet_constants) demo_network_psi 0 90 50
         demo_valve) = LINK_OPEN /\
  updatePrvStatus (K := epanet_constants) 0 90 50 demo_prv = VALVE_ACTIVE /\
  updatePrvStatus (K := epanet_constants) 0 90 50 converted = VALVE_ACTIVE /\
  fst (updateDprvStatus (K := epanet_constants) demo_network_psi 0 90 50
         demo_valve)
  <> updatePrvStatus (K := epanet_constants) 0 90 50 demo_prv.
Proof.
  cbv zeta. repeat split; try reflexivity. discriminate.
Qed.

(** C5 on the demonstration PRV: active, it closes on a reverse flow. *)
Lemma C5_witness :
  valveType demo_prv = PRV /\ hasFixedStatus demo_prv = false /\
  elev demo_prv = Node.elev (node demo_network (toNode demo_prv)) /\
  (- (1) < - ZERO_FLOW (Constants := epanet_constants)) /\
  status (updateStatus (K := epanet_constants) demo_network (- (1)) 100 50 demo_prv)
  = LINK_CLOSED.
Proof.
  assert (Hq : - (1) < - ZERO_FLOW (Constants := epanet_constants))
    by reflexivity.
  split; [reflexivity|]. split; [reflexivity|]. split; [reflexivity|].
  split; [exact Hq|].
  exact (proj1 (C5_prv_status_transitions (K := epanet_constants) demo_network
                  (- (1)) 100 50 demo_prv eq_refl eq_refl eq_refl) Hq).
Defined.

(** C6 at an interior time of the first night interval. *)
Lemma C6_witness :
  let v := demo_valve <| presManagType := TM |> in
  In (3600, 18000, Night)%Z tmIntervals /\ (3600 < 7200 <= 18000)%Z /\
  presManagType v = TM /\ status v = VALVE_ACTIVE /\
  tmSchedule 7200 = Some Night /\
  fst (pressureManagementValve demo_network 7200 1e-6 1e-6 0 0 0 0 v)
  = tmPressure demo_network v Night.
Proof.
  cbv zeta.
  assert (Hin : In (3600, 18000, Night)%Z tmIntervals)
    by (right; left; reflexivity).
  assert (Ht : (3600 < 7200 <= 18000)%Z) by lia.
  pose proof (proj1 (proj2 C6_tm_schedule) _ _ _ _ Hin Ht) as Hs.
  split; [exact Hin|]. split; [exact Ht|].
  split; [reflexivity|]. split; [reflexivity|]. split; [exact Hs|].
  exact (proj2 (proj2 (proj2 C6_tm_schedule)) demo_network 7200%Z 1e-6 1e-6
           0 0 0 0 (demo_valve <| presManagType := TM |>) Night
           eq_refl eq_refl Hs).
Defined.

(** C6 as worded fails at the boundary 3600 of the first two intervals: the
    interval that begins there is a night interval, and the reference
    pressure chosen is the day pressure of the interval that ends there. *)
Lemma C6_counterexample :
  let v := demo_valve <| presManagType := TM |> in
  let ref := fst (pressureManagementValve demo_network 3600 1e-6 1e-6 0 0 0 0 v) in
  nth_error tmIntervals 0 = Some (0, 3600, Day)%Z /\
  nth_error tmIntervals 1 = Some (3600, 18000, Night)%Z /\
  presManagType v = TM /\ status v = VALVE_ACTIVE /\
  ref == 40 /\ tmPressure demo_network v Night == 25 /\
  ~ ref == tmPressure demo_network v Night.
Proof.
  cbv zeta. repeat split; Q_differ.
Qed.

(** C7 on the demonstration network: a CCV with setting 0.5 gets the
    geometric value, which is not zero. *)
Lemma C7_witness :
  let v := demo_ccv <| setting := 0.5 |> in
  let v' := findHeadLoss (K := epanet_constants) demo_network 0 1 v in
  hasFixedStatus v = false /\ status v <> TEMP_CLOSED /\ ~ setting v == 0 /\
  inertialTerm v'
  = 10.765 / (32.174 * PI (Constants := epanet_constants) * diameter v * diameter v)
  /\ ~ inertialTerm v' == 0.
Proof.
  cbv zeta.
  assert (Hs : status (demo_ccv <| setting := 0.5 |>) <> TEMP_CLOSED)
    by discriminate.
  assert (Hz : ~ setting (demo_ccv <| setting := 0.5 |>) == 0) by Q_differ.
  assert (Hp : ~ PI (Constants := epanet_constants) == 0) by Q_differ.
  assert (Hd : ~ diameter (demo_ccv <| setting := 0.5 |>) == 0) by Q_differ.
  pose proof (proj2 (proj2
                (C7_inertial_term (K := epanet_constants) demo_network 0 1
                   (demo_ccv <| setting := 0.5 |>))) eq_refl Hs) as H.
  cbv zeta in H. cbn [valveType demo_ccv set set_setting set_status
                      set_valveType demo_valve] in H.
  destruct H as [_ H]. destruct (H Hz) as [H1 H2].
  split; [reflexivity|]. split; [exact Hs|]. split; [exact Hz|].
  split; [exact H1 | exact (H2 Hp Hd)].
Defined.

(** C7 as worded fails on an active DPRV: the inertial term reported is 0. *)
Lemma C7_counterexample :
  let v' := findHeadLoss (K := epanet_constants) demo_network 0 1 demo_valve in
  valveType demo_valve = DPRV /\ hasFixedStatus demo_valve = false /\
  status demo_valve = VALVE_ACTIVE /\ ~ Xm demo_valve == 0 /\
  ~ inertialTerm demo_valve == 0 /\
  inertialTerm v' == 0.
Proof.
  cbv zeta. repeat split; Q_differ.
Qed.

(** C8 on the demonstration PRV: closed on a reverse flow, it gets the flow
    [ZERO_FLOW]. *)
Lemma C8_witness :
  let v' := updateStatus (K := epanet_constants) demo_network (- (1)) 100 50
              demo_prv in
  status demo_prv <> LINK_CLOSED /\ status v' = LINK_CLOSED /\
  flow v' = ZERO_FLOW (Constants := epanet_constants).
Proof.
  cbv zeta.
  assert (Hs : status demo_prv <> LINK_CLOSED) by discriminate.
  assert (Hc : status (updateStatus (K := epanet_constants) demo_network
                         (- (1)) 100 50 demo_prv) = LINK_CLOSED)
    by reflexivity.
  split; [exact Hs|]. split; [exact Hc|].
  exact (proj1 (C8_closing_sets_zero_flow (K := epanet_constants) demo_network
                  (- (1)) 100 50 demo_prv Hs Hc)).
Defined.

(** C8 as worded fails with the constants of EPANET: the flow of the valve
    that [updateStatus] closes is [ZERO_FLOW = 1e-6], not 0. *)
Lemma C8_counterexample :
  let v' := updateStatus (K := epanet_constants) demo_network (- (1)) 100 50
              demo_prv in
  valveType demo_prv = PRV /\ status demo_prv <> LINK_CLOSED /\
  status v' = LINK_CLOSED /\ flow v' == 1e-6 /\ ~ flow v' == 0.
Proof.
  cbv zeta. repeat split; try discriminate; Q_differ.
Qed.

(** C9 on the demonstration project: not initialised, [runSolver] returns
    the code 1 of the sample error table and logs the message; initialised,
    it returns 0. *)
Lemma C9_witness :
  (0 < code (SystemError (Collaborators := demo_collaborators)
               SOLVER_NOT_INITIALIZED))%Z /\
  solverInitialized (demo_project false) = false /\
  (exists p',
      runSolver (C := demo_collaborators) (demo_project false, 0%Z)
      = (Returns 1%Z, (p', 0%Z)) /\
      msgLog (network p') = "solver not initialized"%string) /\
  fst (runSolver (C := demo_collaborators) (demo_project true, 0%Z))
  = Returns 0%Z.
Proof.
  assert (Hpos : (0 < code (SystemError (Collaborators := demo_collaborators)
                              SOLVER_NOT_INITIALIZED))%Z) by reflexivity.
  pose proof (C9_runSolver_error_code unit unit (C := demo_collaborators)
                (demo_project false) 0%Z Hpos) as [Hno _].
  pose proof (C9_runSolver_error_code unit unit (C := demo_collaborators)
                (demo_project true) 0%Z Hpos) as [_ [Hyes _]].
  split; [exact Hpos|]. split; [reflexivity|]. split.
  - destruct (Hno eq_refl) as [p' [H1 [_ [H2 _]]]].
    exists p'. split; [exact H1 | exact H2].
  - apply (Hyes eq_refl (demo_project true, 3600%Z) eq_refl).
    right. exists 0%Z. split; [reflexivity|].
    right. exists (demo_project true, 3600%Z). reflexivity.
Defined.

(** C10 on the demonstration valves, closed: a DPRV only takes the new
    setting; a CCV given the setting 0.5 with [makeChange] is opened. *)
Lemma C10_witness :
  let v := demo_valve <| status := LINK_CLOSED |> in
  status v = LINK_CLOSED /\ ~ 0.5 == setting v /\
  status demo_ccv = LINK_CLOSED /\ ~ 0.5 == setting demo_ccv /\
  changeSetting (K := epanet_constants) 0.5 true "rule" "" v
  = (false, v <| setting := 0.5 |>, ""%string) /\
  fst (fst (changeSetting (K := epanet_constants) 0.5 true "rule" "" demo_ccv))
  = true /\
  status (snd (fst (changeSetting (K := epanet_constants) 0.5 true "rule" ""
                      demo_ccv))) = LINK_OPEN.
Proof.
  cbv zeta.
  assert (H1 : ~ 0.5 == setting (demo_valve <| status := LINK_CLOSED |>))
    by Q_differ.
  assert (H2 : ~ 0.5 == setting demo_ccv) by Q_differ.
  assert (H3 : ~ 0.5 == 0) by Q_differ.
  pose proof (C10_changeSetting_closed (K := epanet_constants) 0.5 true
                "rule" "" (demo_valve <| status := LINK_CLOSED |>)
                eq_refl H1) as [Ha _].
  pose proof (C10_changeSetting_closed (K := epanet_constants) 0.5 true
                "rule" "" demo_ccv eq_refl H2) as [_ Hb].
  split; [reflexivity|]. split; [exact H1|].
  split; [reflexivity|]. split; [exact H2|].
  split.
  - apply Ha. discriminate.
  - destruct (Hb eq_refl) as [_ [Hc _]].
    destruct (Hc H3 eq_refl) as [Hr Hs].
    split; [rewrite Hr; reflexivity | exact Hs].
Defined.

(** * Further properties of the code *)

(** ** Status and setting of a valve *)

Section ValveFurther.

Context {K : Constants}.

Lemma deq_refl (x : double) : (x =? x) = true.
Proof. apply deq_true. reflexivity. Qed.

Lemma div_mul (s u : Q) : ~ u == 0 -> s / u * u == s.
Proof. intros H. field. exact H. Qed.

(** [convertSetting] stores the elevation of the upstream node in a PSV. *)
Lemma convertSetting_elev_from (nw : Network) (s : double) (v : Valve) :
  valveType v = PSV ->
  elev (snd (convertSetting nw s v)) = Node.elev (node nw (fromNode v)).
Proof.
  unfold convertSetting. intros E; repeat (rewrite E; cbn); reflexivity.
Qed.

(** X1.  A PSV without fixed status, with head setting
    [hset = setting + elev_from]: from ACTIVE it closes when
    [q < -ZERO_FLOW], else opens when [h2 > hset]; from OPEN it closes when
    [q < -ZERO_FLOW], else becomes active when [h1 < hset]; from CLOSED it
    becomes active when [h2 < hset] and [h1 > hset], else opens when
    [h2 > hset] and [h1 > h2]; otherwise the status stays. *)
Theorem X1_psv_status_transitions (nw : Network) (q h1 h2 : double) (v : Valve) :
  valveType v = PSV -> hasFixedStatus v = false ->
  elev v = Node.elev (node nw (fromNode v)) ->
  let hset := setting v + Node.elev (node nw (fromNode v)) in
  let s' := status (updateStatus nw q h1 h2 v) in
  match status v with
  | VALVE_ACTIVE =>
      (q < - ZERO_FLOW -> s' = LINK_CLOSED) /\
      (~ q < - ZERO_FLOW -> h2 > hset -> s' = LINK_OPEN) /\
      (~ q < - ZERO_FLOW -> ~ h2 > hset -> s' = VALVE_ACTIVE)
  | LINK_OPEN =>
      (q < - ZERO_FLOW -> s' = LINK_CLOSED) /\
      (~ q < - ZERO_FLOW -> h1 < hset -> s' = VALVE_ACTIVE) /\
      (~ q < - ZERO_FLOW -> ~ h1 < hset -> s' = LINK_OPEN)
  | LINK_CLOSED =>
      (h2 < hset /\ h1 > hset -> s' = VALVE_ACTIVE) /\
      (~ (h2 < hset /\ h1 > hset) -> h2 > hset /\ h1 > h2 -> s' = LINK_OPEN) /\
      (~ (h2 < hset /\ h1 > hset) -> ~ (h2 > hset /\ h1 > h2) ->
       s' = LINK_CLOSED)
  | TEMP_CLOSED => s' = TEMP_CLOSED
  end.
Proof.
  intros Ht Hf He hset s'. subst s'.
  unfold updateStatus. rewrite Hf, Ht. unfold updatePsvStatus.
  rewrite He. fold hset.
  destruct (status v) eqn:Es; split_tests; simpl; rewrite ?Es; simpl;
    order_facts; repeat split; intros; try reflexivity; try tauto; try lra.
Qed.

(** X2.  A call [changeStatus(newStatus, true, ...)] on a valve that is not
    fixed, or is in another status, returns true, logs the reason, puts the
    valve in the new status with fixed status, and gives it the flow
    [ZERO_FLOW] if it closes it.  After it [updateStatus] leaves the valve as
    it is, and the same call again returns false and changes nothing. *)
Theorem X2_changeStatus_fixes_status (nw : Network) (newStatus : LinkStatus)
  (reason log : string) (q h1 h2 : double) (v : Valve) :
  hasFixedStatus v = false \/ status v <> newStatus ->
  let r := changeStatus newStatus true reason log v in
  let v' := snd (fst r) in
  fst (fst r) = true /\ snd r = logLine log reason /\
  status v' = newStatus /\ hasFixedStatus v' = true /\
  flow v' = (if LinkStatus_eqb newStatus LINK_CLOSED then ZERO_FLOW else flow v) /\
  updateStatus nw q h1 h2 v' = v' /\
  changeStatus newStatus true reason (snd r) v' = (false, v', snd r).
Proof.
  intros H r v'. subst v' r. unfold changeStatus.
  assert (E : negb (hasFixedStatus v)
              || negb (LinkStatus_eqb (status v) newStatus) = true).
  { destruct H as [H | H].
    - rewrite H. reflexivity.
    - destruct (LinkStatus_eqb (status v) newStatus) eqn:A.
      + apply LinkStatus_eqb_eq in A. contradiction.
      + apply orb_true_r. }
  rewrite E. cbn [fst snd status set set_status set_hasFixedStatus].
  destruct newStatus; cbn; repeat split; reflexivity.
Qed.

(** X3.  Without [makeChange], [changeStatus] changes neither the valve nor
    the log and tells whether a change is due.  [changeSetting] without
    [makeChange] never writes the log, the status or the flow, and leaves a
    valve that is not closed as it is; but on a closed valve that is not a
    CCV it still assigns the new setting, and returns false. *)
Theorem X3_dry_run (x : double) (newStatus : LinkStatus) (reason log : string)
  (v : Valve) :
  let r := changeSetting x false reason log v in
  let v' := snd (fst r) in
  changeStatus newStatus false reason log v
  = (negb (hasFixedStatus v) || negb (LinkStatus_eqb (status v) newStatus),
     v, log) /\
  snd r = log /\ status v' = status v /\ flow v' = flow v /\
  (status v <> LINK_CLOSED -> v' = v) /\
  (status v = LINK_CLOSED -> valveType v <> CCV -> ~ x == setting v ->
   fst (fst r) = false /\ setting v' = x).
Proof.
  intros r v'. subst v' r. split.
  { unfold changeStatus. destruct (_ || _); reflexivity. }
  unfold changeSetting.
  destruct (ValveType_eqb (valveType v) CCV) eqn:Ec;
  destruct (setting v =? x) eqn:Ex; cbn [negb];
  destruct (status v) eqn:Es; cbn [LinkStatus_eqb andb fst snd];
  try destruct (x =? 0.0) eqn:E0; cbn [fst snd];
  repeat split; intros; try reflexivity; try congruence;
  try (exfalso; order_facts;
       match goal with
       | H : ~ _ == _ |- _ => apply H; symmetry; assumption
       end);
  try (destruct (valveType v); simpl in Ec; congruence);
  try (cbn [status set set_setting]; assumption).
Qed.

(** X4.  [changeSetting] with [makeChange] is idempotent: the same call on
    the valve and the log it leaves returns false and changes nothing. *)
Theorem X4_changeSetting_idempotent (x : double) (reason reason' log : string)
  (v : Valve) :
  let r := changeSetting x true reason log v in
  changeSetting x true reason' (snd r) (snd (fst r))
  = (false, snd (fst r), snd r).
Proof.
  intros r. subst r. unfold changeSetting at 2 3 4 5.
  destruct (ValveType_eqb (valveType v) CCV) eqn:Ec;
  destruct (setting v =? x) eqn:Ex; cbn [negb fst snd];
  destruct (LinkStatus_eqb (status v) LINK_CLOSED); cbn [andb fst snd];
  try destruct (x =? 0.0) eqn:E0; cbn [fst snd];
  unfold changeSetting;
  cbn [valveType setting set set_setting set_status set_flow];
  rewrite Ec, ?Ex, ?deq_refl; reflexivity.
Qed.

(** What [setInitFlow] writes: the flow and the three past values. *)
Lemma setInitFlow_eq (v : Valve) :
  setInitFlow v =
  v <| flow := flow (setInitFlow v) |> <| pastFlow := 0 |>
    <| pastHloss := 0 |> <| pastSetting := 0 |>.
Proof.
  unfold setInitFlow.
  repeat match goal with
         | |- context [if ?b then _ else _] => destruct b
         end; reflexivity.
Qed.

Lemma initialize_proj (b : bool) (u : Valve) :
  status (initialize b u) = initStatus u /\
  setting (initialize b u) = initSetting u /\
  valveType (initialize b u) = valveType u /\
  hasFixedStatus (initialize b u)
  = negb (LinkStatus_eqb (initStatus u) VALVE_ACTIVE).
Proof.
  unfold initialize. destruct b.
  - rewrite setInitFlow_eq. repeat split; reflexivity.
  - repeat split; reflexivity.
Qed.

(** X5.  [initialize] starts a valve in its initial status and setting, with
    fixed status exactly when the initial status is not VALVE_ACTIVE.  So a
    valve given a setting by [setInitSetting] starts active and free, and
    one given a status by [setInitStatus] starts fixed in it, except for the
    status VALVE_ACTIVE, which leaves it free. *)
Theorem X5_initialize_status (b : bool) (v : Valve) :
  let v' := initialize b v in
  status v' = initStatus v /\ setting v' = initSetting v /\
  hasFixedStatus v' = negb (LinkStatus_eqb (initStatus v) VALVE_ACTIVE) /\
  (forall s, let w := initialize b (setInitSetting s v) in
     status w = VALVE_ACTIVE /\ setting w = s /\ hasFixedStatus w = false) /\
  (forall st, let w := initialize b (setInitStatus st v) in
     status w = st /\ setting w = initSetting v /\
     hasFixedStatus w = negb (LinkStatus_eqb st VALVE_ACTIVE)).
Proof.
  intros v'. subst v'.
  destruct (initialize_proj b v) as [G1 [G2 [_ G3]]].
  split; [exact G1|]. split; [exact G2|]. split; [exact G3|]. split.
  - intros s w. subst w.
    destruct (initialize_proj b (setInitSetting s v)) as [H1 [H2 [_ H3]]].
    rewrite H1, H2, H3. repeat split; reflexivity.
  - intros st w. subst w.
    destruct (initialize_proj b (setInitStatus st v)) as [H1 [H2 [_ H3]]].
    rewrite H1, H2, H3. repeat split; reflexivity.
Qed.

(** X6.  The flow that [setInitFlow] gives a valve is the flow at a velocity
    of 1: [getVelocity] is 1 afterwards, unless the valve is an FCV (its
    flow is its setting) or a CCV or DPRV with setting 0 (its flow is
    [ZERO_FLOW]). *)
Theorem X6_setInitFlow_unit_velocity (v : Valve) :
  ~ PI == 0 -> ~ diameter v == 0 ->
  valveType v <> FCV ->
  (valveType v = CCV \/ valveType v = DPRV -> ~ setting v == 0) ->
  getVelocity (setInitFlow v) == 1.
Proof.
  intros Hp Hd Hf Hs.
  assert (E : flow (setInitFlow v) = PI * diameter v * diameter v / 4.0).
  { unfold setInitFlow. cbn [valveType setting set set_flow].
    destruct (valveType v) eqn:Et; try congruence; cbn [ValveType_eqb];
      try reflexivity.
    - assert (Z : (setting v =? 0) = false)
        by (apply deq_false; apply Hs; left; reflexivity).
      rewrite Z. reflexivity.
    - assert (Z : (setting v =? 0) = false)
        by (apply deq_false; apply Hs; right; reflexivity).
      rewrite Z. reflexivity. }
  unfold getVelocity. rewrite (setInitFlow_eq v) at 2 3.
  cbn [diameter set set_flow set_pastFlow set_pastHloss set_pastSetting].
  rewrite E. field. split; assumption.
Qed.

Lemma convertSetting_eq (nw : Network) (s : double) (v : Valve) :
  convertSetting nw s v =
  (match valveType v with
   | PRV | PSV | PBV => s / ucf_PRESSURE nw
   | FCV => s / ucf_FLOW nw
   | _ => s
   end,
   match valveType v with
   | PRV | DPRV => v <| elev := Node.elev (node nw (toNode v)) |>
   | PSV => v <| elev := Node.elev (node nw (fromNode v)) |>
   | _ => v
   end).
Proof.
  unfold convertSetting. destruct (valveType v) eqn:E;
    repeat (progress (cbn [ValveType_eqb valveType set set_elev]; rewrite ?E));
    reflexivity.
Qed.

Lemma convertUnits_proj (nw : Network) (v : Valve) :
  valveType (convertUnits nw v) = valveType v /\
  initSetting (convertUnits nw v) = fst (convertSetting nw (initSetting v) v).
Proof.
  unfold convertUnits. rewrite !convertSetting_eq.
  cbn [valveType initSetting fst set set_diameter set_lossFactor].
  destruct (valveType v) eqn:Et; split; try reflexivity; exact Et.
Qed.

(** X7.  The setting survives the conversion of units.  After
    [convertUnits] and [initialize], [getSetting] returns the initial setting
    divided and then multiplied by the same conversion factor (the pressure
    factor for a PRV, PSV or PBV, the flow factor for an FCV) and the
    initial setting itself for every other valve; this holds operation by
    operation, whatever the arithmetic.  In exact arithmetic, with factors
    that are not zero, that is the setting the valve was given in user
    units; in binary64 it is that setting up to the rounding of the one
    division and the one multiplication. *)
Theorem X7_setting_round_trip (nw : Network) (b : bool) (v : Valve) :
  getSetting nw (initialize b (convertUnits nw v))
  = match valveType v with
    | PRV | PSV | PBV => initSetting v / ucf_PRESSURE nw * ucf_PRESSURE nw
    | FCV => initSetting v / ucf_FLOW nw * ucf_FLOW nw
    | _ => initSetting v
    end /\
  (~ ucf_PRESSURE nw == 0 -> ~ ucf_FLOW nw == 0 ->
   getSetting nw (initialize b (convertUnits nw v)) == initSetting v).
Proof.
  destruct (initialize_proj b (convertUnits nw v)) as [_ [Hs [Ht _]]].
  destruct (convertUnits_proj nw v) as [Ht' Hi].
  unfold getSetting. rewrite Hs, Ht, Ht', Hi, convertSetting_eq. cbn [fst].
  split.
  - destruct (valveType v); reflexivity.
  - intros Hp Hf.
    destruct (valveType v); first [apply div_mul; assumption | reflexivity].
Qed.

End ValveFurther.

(** ** Head loss of a valve *)

Section HeadLossFurther.

Context {K : Constants}.

(** X8.  The open-valve formula never gives a gradient below
    [MIN_GRADIENT]; its head loss has the sign of the flow when the loss
    factor and [MIN_GRADIENT] are not negative; and reversing the flow keeps
    the gradient and reverses the head loss. *)
Theorem X8_open_head_loss (q : double) (v : Valve) :
  let v' := findOpenHeadLoss q v in
  MIN_GRADIENT <= hGrad v' /\
  (0 <= lossFactor v -> 0 <= MIN_GRADIENT -> 0 <= hLoss v' * q) /\
  hGrad (findOpenHeadLoss (- q) v) == hGrad v' /\
  hLoss (findOpenHeadLoss (- q) v) == - hLoss v'.
Proof.
  intros v'. subst v'. split; [|split; [|split]].
  - rewrite findOpenHeadLoss_hGrad. apply Q.le_max_r.
  - rewrite findOpenHeadLoss_hLoss.
    generalize MIN_GRADIENT. intro m.
    generalize (lossFactor v). intro L. change double with Q in m, L, q.
    intros HL HM.
    assert (Hq : 0 <= q * q).
    { destruct (Qlt_le_dec q 0).
      - setoid_replace (q * q) with ((- q) * (- q)) using relation Qeq by ring.
        apply Qmult_le_0_compat; lra.
      - apply Qmult_le_0_compat; lra. }
    assert (Ha : 0 <= Qabs q) by apply Qabs_nonneg.
    destruct (_ <? _).
    + setoid_replace (m * q * q) with (m * (q * q)) using relation Qeq by ring.
      apply Qmult_le_0_compat; assumption.
    + setoid_replace (L * Qabs q * q * q)
        with ((L * Qabs q) * (q * q)) using relation Qeq by ring.
      apply Qmult_le_0_compat; [apply Qmult_le_0_compat|]; assumption.
  - rewrite !findOpenHeadLoss_hGrad, Qabs_opp. reflexivity.
  - rewrite !findOpenHeadLoss_hLoss.
    assert (Et : (2 * lossFactor v * Qabs (- q) <? MIN_GRADIENT)
                 = (2 * lossFactor v * Qabs q <? MIN_GRADIENT))
      by (rewrite Qabs_opp; reflexivity).
    rewrite Et. clear Et.
    destruct (2 * lossFactor v * Qabs q <? MIN_GRADIENT);
      rewrite ?Qabs_opp; ring.
Qed.

Lemma dmax_Qmax (a b : double) : dmax a b == Qmax a b.
Proof.
  unfold dmax. destruct (a <? b) eqn:E; order_facts.
  - symmetry. apply Q.max_r. lra.
  - symmetry. apply Q.max_l. exact E.
Qed.

(** X9.  A throttle control valve takes the larger of the loss factor of its
    setting, [0.025173 * setting / d^4], and its open-valve loss factor, so
    its gradient is never below that of the open valve; the open-valve loss
    factor is restored afterwards. *)
Theorem X9_tcv_head_loss (q : double) (v : Valve) :
  let v' := findTcvHeadLoss q v in
  let d2 := diameter v * diameter v in
  lossFactor v' = lossFactor v /\
  hGrad v' == Qmax (2 * Qmax (0.025173 * setting v / d2 / d2) (lossFactor v)
                    * Qabs q) MIN_GRADIENT /\
  hGrad (findOpenHeadLoss q v) <= hGrad v'.
Proof.
  intros v' d2. subst v'. unfold findTcvHeadLoss.
  split; [reflexivity|].
  cbn [hGrad set set_lossFactor].
  assert (E : hGrad (findOpenHeadLoss q
              (v <| lossFactor := 0.025173 * setting v
                                  / (diameter v * diameter v)
                                  / (diameter v * diameter v) |>
                 <| lossFactor :=
                      dmax (lossFactor
                              (v <| lossFactor :=
                                      0.025173 * setting v
                                      / (diameter v * diameter v)
                                      / (diameter v * diameter v) |>))
                        (lossFactor v) |>))
             == Qmax (2 * Qmax (0.025173 * setting v / d2 / d2) (lossFactor v)
                      * Qabs q) MIN_GRADIENT).
  { rewrite findOpenHeadLoss_hGrad.
    cbn [lossFactor setting diameter set set_lossFactor].
    rewrite dmax_Qmax. reflexivity. }
  cbn [setting diameter lossFactor set set_lossFactor] in *.
  split; [exact E|].
  rewrite E, findOpenHeadLoss_hGrad.
  apply Q.max_le_compat_r.
  assert (Ha : 0 <= Qabs q) by apply Qabs_nonneg.
  assert (Hm : lossFactor v
               <= Qmax (0.025173 * setting v / d2 / d2) (lossFactor v))
    by apply Q.le_max_r.
  setoid_replace (2 * lossFactor v * Qabs q)
    with (lossFactor v * (2 * Qabs q)) using relation Qeq by ring.
  setoid_replace (2 * Qmax (0.025173 * setting v / d2 / d2) (lossFactor v)
                  * Qabs q)
    with (Qmax (0.025173 * setting v / d2 / d2) (lossFactor v) * (2 * Qabs q))
    using relation Qeq by ring.
  apply Qmult_le_compat_r; [exact Hm | lra].
Qed.

(** What [findOpenHeadLoss] writes: the gradient and the head loss. *)
Lemma findOpenHeadLoss_eq (q : double) (v : Valve) :
  findOpenHeadLoss q v =
  v <| hGrad := hGrad (findOpenHeadLoss q v) |>
    <| hLoss := hLoss (findOpenHeadLoss q v) |>.
Proof.
  unfold findOpenHeadLoss. cbn [hGrad set set_hGrad].
  destruct (_ <? _); reflexivity.
Qed.

Lemma findOpenHeadLoss_status (q : double) (v : Valve) :
  status (findOpenHeadLoss q v) = status v.
Proof. rewrite findOpenHeadLoss_eq. reflexivity. Qed.

Lemma findOpenHeadLoss_lossFactor (q : double) (v : Valve) :
  lossFactor (findOpenHeadLoss q v) = lossFactor v.
Proof. rewrite findOpenHeadLoss_eq. reflexivity. Qed.

(** X10.  [findHeadLoss] changes the status of no valve but a CCV that is
    neither fixed nor temporarily closed; that one it closes when its setting
    is 0 and opens otherwise. *)
Theorem X10_findHeadLoss_status (nw : Network) (Cv0 q : double) (v : Valve) :
  let v' := findHeadLoss nw Cv0 q v in
  (valveType v <> CCV -> status v' = status v) /\
  (hasFixedStatus v = true \/ status v = TEMP_CLOSED -> status v' = status v) /\
  (valveType v = CCV -> hasFixedStatus v = false -> status v <> TEMP_CLOSED ->
   status v' = if setting v =? 0 then LINK_CLOSED else LINK_OPEN).
Proof.
  intros v'. subst v'. unfold findHeadLoss.
  cbn [status hasFixedStatus valveType Xm setting set set_hLoss set_hGrad].
  assert (S0 : status (v <| hLoss := 0.0 |> <| hGrad := 0.0 |>) = status v)
    by reflexivity.
  revert S0.
  generalize (v <| hLoss := 0.0 |> <| hGrad := 0.0 |>). intros v0 S0.
  assert (Fixed : status
     (if LinkStatus_eqb (status v) LINK_CLOSED
      then (findClosedHeadLoss q v0) <| inertialTerm := MIN_GRADIENT |>
      else
        if LinkStatus_eqb (status v) LINK_OPEN
        then (findOpenHeadLoss q v0) <| inertialTerm := MIN_GRADIENT |>
        else v0) = status v).
  { destruct (LinkStatus_eqb (status v) LINK_CLOSED); [exact S0|].
    destruct (LinkStatus_eqb (status v) LINK_OPEN); [|exact S0].
    cbn [status set set_inertialTerm]. rewrite findOpenHeadLoss_status.
    exact S0. }
  split; [|split].
  - intros Ht.
    destruct (LinkStatus_eqb (status v) TEMP_CLOSED); [exact S0|].
    destruct (hasFixedStatus v); [exact Fixed|].
    destruct (valveType v); try congruence.
    + destruct (LinkStatus_eqb (status v) LINK_CLOSED); [exact S0|].
      destruct (LinkStatus_eqb (status v) LINK_OPEN); [|exact S0].
      cbn [status set set_inertialTerm]. rewrite findOpenHeadLoss_status.
      exact S0.
    + destruct (LinkStatus_eqb (status v) LINK_CLOSED); [exact S0|].
      destruct (LinkStatus_eqb (status v) LINK_OPEN); [|exact S0].
      cbn [status set set_inertialTerm]. rewrite findOpenHeadLoss_status.
      exact S0.
    + unfold findFcvHeadLoss. cbn [status set set_inertialTerm].
      destruct (_ >? _); [exact S0|]. destruct (_ <? _); [exact S0|].
      rewrite findOpenHeadLoss_status. exact S0.
    + unfold findTcvHeadLoss. cbn [status set set_inertialTerm set_lossFactor].
      rewrite findOpenHeadLoss_status. exact S0.
    + unfold findPbvHeadLoss. cbn [status set set_inertialTerm].
      destruct (_ >=? _); [|exact S0].
      rewrite findOpenHeadLoss_status. exact S0.
    + unfold findGpvHeadLoss. cbn [status set set_inertialTerm].
      destruct (findSegment nw _ _) as [r h0]. destruct (_ <? _); exact S0.
    + destruct (_ || _); [exact S0|].
      destruct (LinkStatus_eqb (status v) LINK_OPEN).
      * cbn [status set set_inertialTerm]. rewrite findOpenHeadLoss_status.
        exact S0.
      * unfold findDprvHeadLoss.
        cbn [status set set_inertialTerm set_lossFactor].
        rewrite findOpenHeadLoss_status. exact S0.
  - intros [Hf | Hs].
    + destruct (LinkStatus_eqb (status v) TEMP_CLOSED); [exact S0|].
      rewrite Hf. exact Fixed.
    + rewrite Hs in *. cbn [LinkStatus_eqb]. exact S0.
  - intros Ht Hf Hs. rewrite Ht, Hf.
    assert (E : LinkStatus_eqb (status v) TEMP_CLOSED = false)
      by (destruct (status v); simpl; congruence).
    rewrite E. destruct (setting v =? 0); [reflexivity|]. cbn [negb].
    cbn [status set set_inertialTerm].
    unfold findCcvHeadLoss. rewrite findOpenHeadLoss_status.
    destruct (String.eqb _ _); [reflexivity|].
    destruct (String.eqb _ _); reflexivity.
Qed.

(** The loss factor after the open-valve formula, under an assignment. *)
Ltac lossFactor_open S0 :=
  cbn [lossFactor set set_inertialTerm set_lossFactor set_status];
  rewrite ?findOpenHeadLoss_lossFactor; exact S0.

(** X11.  [findHeadLoss] gives back the loss factor it found, whatever loss
    factor it computes with on the way (TCV, DPRV), except on a CCV: a CCV
    that is free, not temporarily closed and of non-zero setting keeps the
    loss factor of its opening, which in the Toe representation is
    [1 / (16.96^2 * setting^2)]. *)
Theorem X11_findHeadLoss_lossFactor (nw : Network) (Cv0 q : double) (v : Valve) :
  let v' := findHeadLoss nw Cv0 q v in
  (valveType v <> CCV -> lossFactor v' = lossFactor v) /\
  (hasFixedStatus v = true \/ status v = TEMP_CLOSED ->
   lossFactor v' = lossFactor v) /\
  (valveType v = CCV -> setting v == 0 -> lossFactor v' = lossFactor v) /\
  (valveType v = CCV -> hasFixedStatus v = false -> status v <> TEMP_CLOSED ->
   ~ setting v == 0 -> option_VALVE_REP_TYPE nw = "Toe"%string ->
   lossFactor v' = 1 / (16.96 * 16.96 * (setting v * setting v))).
Proof.
  intros v'. subst v'. unfold findHeadLoss.
  cbn [status hasFixedStatus valveType Xm setting set set_hLoss set_hGrad].
  assert (S0 : lossFactor (v <| hLoss := 0.0 |> <| hGrad := 0.0 |>)
               = lossFactor v) by reflexivity.
  assert (S1 : setting (v <| hLoss := 0.0 |> <| hGrad := 0.0 |>) = setting v)
    by reflexivity.
  revert S0 S1.
  generalize (v <| hLoss := 0.0 |> <| hGrad := 0.0 |>). intros v0 S0 S1.
  assert (Fixed : lossFactor
     (if LinkStatus_eqb (status v) LINK_CLOSED
      then (findClosedHeadLoss q v0) <| inertialTerm := MIN_GRADIENT |>
      else
        if LinkStatus_eqb (status v) LINK_OPEN
        then (findOpenHeadLoss q v0) <| inertialTerm := MIN_GRADIENT |>
        else v0) = lossFactor v).
  { destruct (LinkStatus_eqb (status v) LINK_CLOSED); [exact S0|].
    destruct (LinkStatus_eqb (status v) LINK_OPEN); [|exact S0].
    lossFactor_open S0. }
  split; [|split; [|split]].
  - intros Ht.
    destruct (LinkStatus_eqb (status v) TEMP_CLOSED); [exact S0|].
    destruct (hasFixedStatus v); [exact Fixed|].
    destruct (valveType v); try congruence.
    + destruct (LinkStatus_eqb (status v) LINK_CLOSED); [exact S0|].
      destruct (LinkStatus_eqb (status v) LINK_OPEN); [|exact S0].
      lossFactor_open S0.
    + destruct (LinkStatus_eqb (status v) LINK_CLOSED); [exact S0|].
      destruct (LinkStatus_eqb (status v) LINK_OPEN); [|exact S0].
      lossFactor_open S0.
    + unfold findFcvHeadLoss. cbn [lossFactor set set_inertialTerm].
      destruct (_ >? _); [exact S0|]. destruct (_ <? _); [exact S0|].
      lossFactor_open S0.
    + unfold findTcvHeadLoss. lossFactor_open S0.
    + unfold findPbvHeadLoss. cbn [lossFactor set set_inertialTerm].
      destruct (_ >=? _); [|exact S0]. lossFactor_open S0.
    + unfold findGpvHeadLoss. cbn [lossFactor set set_inertialTerm].
      destruct (findSegment nw _ _) as [r h0]. destruct (_ <? _); exact S0.
    + destruct (_ || _); [exact S0|].
      destruct (LinkStatus_eqb (status v) LINK_OPEN).
      * lossFactor_open S0.
      * unfold findDprvHeadLoss. lossFactor_open S0.
  - intros [Hf | Hs].
    + destruct (LinkStatus_eqb (status v) TEMP_CLOSED); [exact S0|].
      rewrite Hf. exact Fixed.
    + rewrite Hs in *. cbn [LinkStatus_eqb]. exact S0.
  - intros Ht Hz.
    destruct (LinkStatus_eqb (status v) TEMP_CLOSED); [exact S0|].
    destruct (hasFixedStatus v); [exact Fixed|].
    apply deq_true in Hz. rewrite Ht, Hz. exact S0.
  - intros Ht Hf Hs Hz Hr. rewrite Ht, Hf.
    assert (E : LinkStatus_eqb (status v) TEMP_CLOSED = false)
      by (destruct (status v); simpl; congruence).
    rewrite E. apply deq_false in Hz. rewrite Hz. cbn [negb].
    cbn [lossFactor set set_inertialTerm].
    unfold findCcvHeadLoss. rewrite findOpenHeadLoss_lossFactor, Hr.
    cbn [String.eqb Ascii.eqb Bool.eqb lossFactor setting set set_lossFactor
         set_status].
    rewrite S1. reflexivity.
Qed.

(** X12.  The head loss of a flow control valve is continuous at its
    setting: for a setting that is not negative and at which the open-valve
    gradient is not clipped, the head loss at the setting is
    [lossFactor * setting^2], and above the setting it grows from there at
    the rate [HIGH_RESISTANCE], which is also the gradient. *)
Theorem X12_fcv_continuous_at_setting (q : double) (v : Valve) :
  0 <= setting v -> MIN_GRADIENT <= 2 * lossFactor v * setting v ->
  setting v < q ->
  hLoss (findFcvHeadLoss (setting v) v) == lossFactor v * setting v * setting v /\
  hLoss (findFcvHeadLoss q v) - hLoss (findFcvHeadLoss (setting v) v)
  == HIGH_RESISTANCE * (q - setting v) /\
  hGrad (findFcvHeadLoss q v) = HIGH_RESISTANCE.
Proof.
  intros Hs Hm Hq.
  assert (E1 : hLoss (findFcvHeadLoss (setting v) v)
               == lossFactor v * setting v * setting v).
  { unfold findFcvHeadLoss.
    assert (A : (setting v - setting v >? 0.0) = false)
      by (apply dlt_false; lra).
    assert (B : (setting v <? 0.0) = false) by (apply dlt_false; lra).
    rewrite A, B, findOpenHeadLoss_hLoss.
    assert (C : (2 * lossFactor v * Qabs (setting v) <? MIN_GRADIENT) = false)
      by (apply dlt_false; rewrite (Qabs_pos _ Hs); exact Hm).
    rewrite C, (Qabs_pos _ Hs). reflexivity. }
  assert (A : (q - setting v >? 0.0) = true) by (apply dlt_true; lra).
  split; [exact E1|]. split.
  - rewrite E1. unfold findFcvHeadLoss. rewrite A.
    cbn [hLoss set set_hLoss set_hGrad]. ring.
  - unfold findFcvHeadLoss. rewrite A. reflexivity.
Qed.

Lemma cvCubic_increasing (x y : Q) :
  x <= y -> y <= 1 -> cvCubic x <= cvCubic y.
Proof.
  intros Hxy Hy. unfold cvCubic.
  assert (F : 0.09 * y ^ 3 - 1.21 * y ^ 2 + 2.33 * y - 0.21
              - (0.09 * x ^ 3 - 1.21 * x ^ 2 + 2.33 * x - 0.21)
              == (y - x) * (0.18 + 0.94 * ((1 - x) + (1 - y))
                            + 0.09 * ((1 - x) * (1 - x) + (1 - x) * (1 - y)
                                      + (1 - y) * (1 - y)))) by ring.
  assert (G : 0 <= (y - x) * (0.18 + 0.94 * ((1 - x) + (1 - y))
                            + 0.09 * ((1 - x) * (1 - x) + (1 - x) * (1 - y)
                                      + (1 - y) * (1 - y)))).
  { apply Qmult_le_0_compat; [lra|].
    assert (0 <= (1 - x) * (1 - x)) by (apply Qmult_le_0_compat; lra).
    assert (0 <= (1 - x) * (1 - y)) by (apply Qmult_le_0_compat; lra).
    assert (0 <= (1 - y) * (1 - y)) by (apply Qmult_le_0_compat; lra).
    lra. }
  rewrite <- F in G. lra.
Qed.

Lemma Cv_spec_monotone (x y : Q) :
  0 <= x -> x <= y -> y <= 1 -> Cv_spec x <= Cv_spec y.
Proof.
  intros H0 Hxy H1. unfold Cv_spec.
  destruct (x <? 0.12) eqn:A; destruct (y <? 0.12) eqn:B; order_facts.
  - apply Qmult_le_compat_r; [lra | discriminate].
  - fold (cvCubic y).
    assert (M : cvCubic 0.12 <= cvCubic y) by (apply cvCubic_increasing; lra).
    assert (N : 0.07550186203 * x / 0.12 <= 0.07550186203).
    { apply Qle_shift_div_r; [reflexivity | lra]. }
    assert (P : 0.07550186203 <= cvCubic 0.12 * 1.442760731)
      by (vm_compute; discriminate).
    assert (Q1 : cvCubic 0.12 * 1.442760731 <= cvCubic y * 1.442760731)
      by (apply Qmult_le_compat_r; [exact M | discriminate]).
    lra.
  - lra.
  - fold (cvCubic x). fold (cvCubic y).
    apply Qmult_le_compat_r; [|discriminate].
    apply cvCubic_increasing; lra.
Qed.

(** X13.  On (0, 1] the flow coefficient that [findDprvHeadLoss] computes
    grows with the opening, across the change of formula at 0.12 too, so the
    loss factor [1 / Cv^2] of a DPRV falls as the valve opens. *)
Theorem X13_dprv_coefficient_monotone (Cv0 x y : double) :
  0 < x -> x <= y -> y <= 1 ->
  dprvCv Cv0 x <= dprvCv Cv0 y /\
  1 / (dprvCv Cv0 y * dprvCv Cv0 y) <= 1 / (dprvCv Cv0 x * dprvCv Cv0 x).
Proof.
  intros H0 Hxy H1.
  rewrite (dprvCv_spec Cv0 x) by (split; lra).
  rewrite (dprvCv_spec Cv0 y) by (split; lra).
  assert (Px : 0 < Cv_spec x) by (apply Cv_spec_pos; split; lra).
  assert (Py : 0 < Cv_spec y) by (apply Cv_spec_pos; split; lra).
  assert (M : Cv_spec x <= Cv_spec y) by (apply Cv_spec_monotone; lra).
  split; [exact M|].
  generalize dependent (Cv_spec y). generalize dependent (Cv_spec x).
  intros a Pa b Pb M.
  assert (Saa : 0 < a * a) by (apply Qmult_lt_0_compat; assumption).
  assert (Sbb : 0 < b * b) by (apply Qmult_lt_0_compat; assumption).
  assert (Sab : a * a <= b * b).
  { apply Qle_trans with (a * b).
    - apply Qmult_le_l; assumption.
    - apply Qmult_le_r; assumption. }
  apply Qle_shift_div_l; [exact Saa|].
  setoid_replace (1 / (b * b) * (a * a)) with ((a * a) / (b * b))
    using relation Qeq by (field; lra).
  apply Qle_shift_div_r; [exact Sbb|]. lra.
Qed.

End HeadLossFurther.

(** ** The controller *)

Section ControllerFurther.

Context {K : Constants}.

Lemma pressureManagementLoop_trace nw t ao ac Kp Ki Kd ls :
  forall ref out,
    let r := pressureManagementLoop nw t ao ac Kp Ki Kd ref out ls in
    fst r = out ++ dprvTrace t (snd r) /\ List.length (snd r) = List.length ls.
Proof.
  induction ls as [|l ls IH]; intros ref out; cbv zeta.
  - simpl. rewrite app_nil_r. split; reflexivity.
  - cbn [pressureManagementLoop]. destruct l as [| |v].
    + specialize (IH ref out). cbv zeta in IH.
      destruct (pressureManagementLoop nw t ao ac Kp Ki Kd ref out ls) as [o r].
      cbn [fst snd] in *. destruct IH as [IH1 IH2]. split; [exact IH1|].
      simpl. rewrite IH2. reflexivity.
    + specialize (IH ref out). cbv zeta in IH.
      destruct (pressureManagementLoop nw t ao ac Kp Ki Kd ref out ls) as [o r].
      cbn [fst snd] in *. destruct IH as [IH1 IH2]. split; [exact IH1|].
      simpl. rewrite IH2. reflexivity.
    + destruct (valveType v) eqn:Et;
        try (specialize (IH ref out); cbv zeta in IH;
             destruct (pressureManagementLoop nw t ao ac Kp Ki Kd ref out ls)
               as [o r];
             cbn [fst snd] in *; destruct IH as [IH1 IH2];
             split; [cbn [dprvTrace flat_map]; rewrite Et; exact IH1
                    | simpl; rewrite IH2; reflexivity]).
      pose proof (pressureManagementValve_type nw t ao ac Kp Ki Kd ref v) as Ty.
      destruct (pressureManagementValve nw t ao ac Kp Ki Kd ref v)
        as [ref' v'] eqn:Ev.
      cbn [snd] in Ty.
      specialize (IH ref' (out ++ [(t, Xm v')])). cbv zeta in IH.
      destruct (pressureManagementLoop nw t ao ac Kp Ki Kd ref'
                  (out ++ [(t, Xm v')]) ls) as [o r].
      cbn [fst snd] in *. destruct IH as [IH1 IH2]. split.
      * cbn [dprvTrace flat_map]. rewrite Ty, Et. fold (dprvTrace t r).
        rewrite IH1, <- app_assoc. reflexivity.
      * simpl. rewrite IH2. reflexivity.
Qed.

(** X14.  One call of [pressureManagement] appends to the trace file exactly
    one line per DPRV, in the order of the links, holding the time and the
    opening the valve is left with; it keeps the number of links, and every
    link that is not a DPRV stays as it is at its index. *)
Theorem X14_trace_records_final_openings nw t out ao ac Kp Ki Kd ref0 :
  let r := pressureManagement nw t out ao ac Kp Ki Kd ref0 in
  fst r = out ++ dprvTrace t (links (snd r)) /\
  List.length (links (snd r)) = List.length (links nw) /\
  (forall i l, nth_error (links nw) i = Some l ->
     (forall v, l = VALVE v -> valveType v <> DPRV) ->
     nth_error (links (snd r)) i = Some l).
Proof.
  cbv zeta.
  pose proof (pressureManagementLoop_trace nw t ao ac Kp Ki Kd (links nw)
                ref0 out) as H.
  pose proof (pressureManagement_links nw t out ao ac Kp Ki Kd ref0) as F.
  unfold pressureManagement in *. cbv zeta in H.
  destruct (pressureManagementLoop nw t ao ac Kp Ki Kd ref0 out (links nw))
    as [o ls].
  cbn [fst snd links with_links] in *. destruct H as [H1 H2].
  split; [exact H1|]. split; [exact H2|].
  intros i l Hi Hl.
  destruct (Forall2_nth_error_l _ _ _ F i l Hi) as [y [Hy Hr]].
  rewrite Hy. f_equal. unfold pmLink in Hr.
  destruct l as [| |v]; try exact Hr.
  destruct (valveType v) eqn:Et; try exact Hr.
  exfalso. apply (Hl v eq_refl). exact Et.
Qed.

Lemma pmReopen_snd nw ref v :
  snd (pmReopen nw ref v)
  = if reopens nw v then v <| status := VALVE_ACTIVE |> else v.
Proof.
  unfold pmReopen, reopens. destruct (presManagType v); try reflexivity.
  destruct (LinkStatus_eqb (status v) LINK_CLOSED); [|reflexivity].
  cbn [andb]. destruct (_ && _); reflexivity.
Qed.

Lemma pmClamp_status v : status (pmClamp v) = status v.
Proof.
  unfold pmClamp. destruct (Xm v <? 0); destruct (_ >? 1); reflexivity.
Qed.

Lemma pmClamp_hasFixedStatus v : hasFixedStatus (pmClamp v) = hasFixedStatus v.
Proof.
  unfold pmClamp. destruct (Xm v <? 0); destruct (_ >? 1); reflexivity.
Qed.

Lemma pmClamp_errorValve v : errorValve (pmClamp v) = errorValve v.
Proof.
  unfold pmClamp. destruct (Xm v <? 0); destruct (_ >? 1); reflexivity.
Qed.

Lemma reopens_initialise nw t v : reopens nw (pmInitialise t v) = reopens nw v.
Proof. unfold pmInitialise. destruct (t =? 0)%Z; reflexivity. Qed.

Lemma pmInitialise_hasFixedStatus t v :
  hasFixedStatus (pmInitialise t v) = hasFixedStatus v.
Proof. unfold pmInitialise. destruct (t =? 0)%Z; reflexivity. Qed.

(** X15.  The only change of status that [pressureManagement] makes is to
    set a valve VALVE_ACTIVE, and it does so only for a valve of mode FO that
    is LINK_CLOSED while the upstream pressure is above and the downstream
    pressure below the fixed outlet pressure; it never closes or opens a
    valve, and never touches the fixed-status flag. *)
Theorem X15_controller_only_reactivates nw t ao ac Kp Ki Kd ref v :
  let v' := snd (pressureManagementValve nw t ao ac Kp Ki Kd ref v) in
  status v' = (if reopens nw v then VALVE_ACTIVE else status v) /\
  hasFixedStatus v' = hasFixedStatus v /\
  (reopens nw v = true ->
   presManagType v = FO /\ status v = LINK_CLOSED /\
   fixedOutletPressure v / ucf_PRESSURE nw < pressureAt nw (fromNode v) /\
   pressureAt nw (toNode v) < fixedOutletPressure v / ucf_PRESSURE nw).
Proof.
  cbv zeta. rewrite pressureManagementValve_eq. cbv zeta.
  rewrite pmReopen_snd, reopens_initialise.
  split; [|split].
  - destruct (reopens nw v).
    + cbn [status set set_status LinkStatus_eqb snd].
      rewrite pmClamp_status, pmError_snd. reflexivity.
    + destruct (LinkStatus_eqb (status (pmInitialise t v)) VALVE_ACTIVE) eqn:E;
        cbn [snd]; rewrite pmClamp_status.
      * rewrite pmError_snd.
        cbn [pmControl status set set_Xm set_delta_Xm set_errorValve].
        apply pmInitialise_status.
      * apply pmInitialise_status.
  - destruct (reopens nw v).
    + cbn [status set set_status LinkStatus_eqb snd].
      rewrite pmClamp_hasFixedStatus, pmError_snd.
      cbn [pmControl hasFixedStatus set set_Xm set_delta_Xm set_errorValve
           set_status].
      apply pmInitialise_hasFixedStatus.
    + destruct (LinkStatus_eqb (status (pmInitialise t v)) VALVE_ACTIVE) eqn:E;
        cbn [snd]; rewrite pmClamp_hasFixedStatus.
      * rewrite pmError_snd.
        cbn [pmControl hasFixedStatus set set_Xm set_delta_Xm set_errorValve].
        apply pmInitialise_hasFixedStatus.
      * apply pmInitialise_hasFixedStatus.
  - unfold reopens. destruct (presManagType v); try discriminate.
    intros H. apply andb_true_iff in H. destruct H as [H1 H2].
    apply andb_true_iff in H2. destruct H2 as [H2 H3].
    apply LinkStatus_eqb_eq in H1. order_facts. tauto.
Qed.

(** The body of the loop on a valve that is not active and is not made so. *)
Lemma pressureManagementValve_inactive nw t ao ac Kp Ki Kd ref v :
  status v <> VALVE_ACTIVE -> reopens nw v = false ->
  snd (pressureManagementValve nw t ao ac Kp Ki Kd ref v)
  = pmClamp (pmInitialise t v).
Proof.
  intros Hs Hr. rewrite pressureManagementValve_eq. cbv zeta.
  rewrite pmReopen_snd, reopens_initialise, Hr, pmInitialise_status.
  destruct (status v); try congruence; reflexivity.
Qed.

(** The body of the loop on an active valve. *)
Lemma pressureManagementValve_active nw t ao ac Kp Ki Kd ref v :
  status v = VALVE_ACTIVE ->
  exists r,
    snd (pressureManagementValve nw t ao ac Kp Ki Kd ref v)
    = pmClamp (pmControl ao ac (option_HYD_STEP nw)
                 ((pmInitialise t v)
                    <| errorValve := setpoint nw t r (pmInitialise t v)
                                     - pTarget nw (pmInitialise t v) |>)) /\
    (presManagType v = TM -> r = ref).
Proof.
  intros Hs.
  assert (Hs0 : status (pmInitialise t v) = VALVE_ACTIVE)
    by (rewrite pmInitialise_status; exact Hs).
  exists (fst (pmReopen nw ref (pmInitialise t v))). split.
  - rewrite pressureManagementValve_eq. cbv zeta.
    rewrite (pmReopen_active nw ref _ Hs0), Hs0.
    rewrite LinkStatus_eqb_refl. unfold snd at 1. rewrite pmError_snd.
    reflexivity.
  - intros Hm. apply pmReopen_ref. rewrite pmInitialise_mode, Hm. discriminate.
Qed.

(** X16.  A DPRV that is not active and is not reactivated is not
    controlled: the call leaves its error, its increment, its last opening
    and its status as they are (after the reset of the first call), and only
    brings its opening back into [0, 1]. *)
Theorem X16_inactive_valve_not_controlled nw t ao ac Kp Ki Kd ref v :
  status v <> VALVE_ACTIVE -> reopens nw v = false ->
  let v0 := pmInitialise t v in
  let v' := snd (pressureManagementValve nw t ao ac Kp Ki Kd ref v) in
  Xm v' == clamp01 (Xm v0) /\ delta_Xm v' = delta_Xm v0 /\
  errorValve v' = errorValve v0 /\ Xm_Last v' = Xm_Last v0 /\
  status v' = status v.
Proof.
  intros Hs Hr. cbv zeta.
  rewrite (pressureManagementValve_inactive nw t ao ac Kp Ki Kd ref v Hs Hr).
  split; [apply pmClamp_Xm|]. split; [apply pmClamp_delta_Xm|].
  split; [apply pmClamp_errorValve|]. split; [apply pmClamp_Xm_Last|].
  unfold pmClamp, pmInitialise.
  destruct (t =? 0)%Z; destruct (_ <? 0); destruct (_ >? 1); reflexivity.
Qed.

Lemma Acs_den_nonzero (x : Q) : ~ 1.30 * x ^ 2 + 0.56 == 0.
Proof.
  assert (0 <= x * x).
  { destruct (Qlt_le_dec x 0).
    - setoid_replace (x * x) with ((- x) * (- x)) using relation Qeq by ring.
      apply Qmult_le_0_compat; lra.
    - apply Qmult_le_0_compat; lra. }
  setoid_replace (x ^ 2) with (x * x) using relation Qeq by ring. lra.
Qed.

Lemma Acs_pos (x : Q) : 0 < (1.30 * x ^ 2 + 0.56) * 0.0047 / 0.057.
Proof.
  apply Qlt_shift_div_l; [reflexivity|].
  assert (0 <= x * x).
  { destruct (Qlt_le_dec x 0).
    - setoid_replace (x * x) with ((- x) * (- x)) using relation Qeq by ring.
      apply Qmult_le_0_compat; lra.
    - apply Qmult_le_0_compat; lra. }
  setoid_replace (x ^ 2) with (x * x) using relation Qeq by ring. lra.
Qed.

#[global] Instance clamp01_proper : Proper (Qeq ==> Qeq) clamp01.
Proof.
  intros a b E. unfold clamp01.
  assert (E0 : (a <? 0) = (b <? 0)) by (rewrite E; reflexivity).
  assert (E1 : (a >? 1) = (b >? 1)) by (rewrite E; reflexivity).
  rewrite E0, E1.
  destruct (b <? 0); [reflexivity|]. destruct (b >? 1); [reflexivity|]. exact E.
Qed.

Lemma clamp01_id (x : Q) : 0 <= x <= 1 -> clamp01 x == x.
Proof.
  intros [H0 H1]. unfold clamp01.
  assert (A : (x <? 0) = false) by (apply dlt_false; exact H0).
  assert (B : (x >? 1) = false) by (apply dlt_false; exact H1).
  rewrite A, B. reflexivity.
Qed.

(** The body of the loop on an active valve: the error, the increment and
    the opening it leaves. *)
Lemma pressureManagementValve_active_law nw t ao ac Kp Ki Kd ref v :
  status v = VALVE_ACTIVE ->
  exists r,
    (presManagType v = TM -> r = ref) /\
    let v0 := pmInitialise t v in
    let e := setpoint nw t r v0 - pTarget nw v0 in
    let A_cs := (1.30 * Xm v0 ^ 2 + 0.56) * 0.0047 / 0.057 in
    let v' := snd (pressureManagementValve nw t ao ac Kp Ki Kd ref v) in
    errorValve v' = e /\
    delta_Xm v' == (if e >=? 0 then ao * e else ac * e) / A_cs
                   * inject_Z (option_HYD_STEP nw) /\
    Xm v' == clamp01 (Xm_Last v0 + delta_Xm v') /\
    Xm_Last v' = Xm_Last v0.
Proof.
  intros Hs.
  destruct (pressureManagementValve_active nw t ao ac Kp Ki Kd ref v Hs)
    as [r [Er Hr]].
  exists r. split; [exact Hr|]. cbv zeta. rewrite Er.
  destruct (pmControl_law ao ac (option_HYD_STEP nw) (pmInitialise t v)
              (setpoint nw t r (pmInitialise t v)
               - pTarget nw (pmInitialise t v)))
    as [L1 [L2 [L3 L4]]].
  rewrite pmClamp_errorValve, pmClamp_delta_Xm, pmClamp_Xm, pmClamp_Xm_Last.
  split; [exact L1|]. split; [exact L2|]. split; [|exact L4].
  apply clamp01_proper. exact L3.
Qed.

(** X17.  The controller moves an active DPRV in the direction of the
    error: with a positive hydraulic step, a setpoint above the downstream
    pressure and a positive opening rate give a positive increment, a
    setpoint below it and a positive closing rate a negative one, and a zero
    error gives no increment. *)
Theorem X17_control_direction nw t ao ac Kp Ki Kd ref v :
  status v = VALVE_ACTIVE -> (0 < option_HYD_STEP nw)%Z ->
  exists r,
    (presManagType v = TM -> r = ref) /\
    let v0 := pmInitialise t v in
    let e := setpoint nw t r v0 - pTarget nw v0 in
    let v' := snd (pressureManagementValve nw t ao ac Kp Ki Kd ref v) in
    errorValve v' = e /\
    (0 < e -> 0 < ao -> 0 < delta_Xm v') /\
    (e < 0 -> 0 < ac -> delta_Xm v' < 0) /\
    (e == 0 -> delta_Xm v' == 0).
Proof.
  intros Hs Hdt.
  destruct (pressureManagementValve_active_law nw t ao ac Kp Ki Kd ref v Hs)
    as [r [Hr H]].
  exists r. split; [exact Hr|]. cbv zeta in *.
  destruct H as [L1 [L2 _]].
  set (e := setpoint nw t r (pmInitialise t v)
            - pTarget nw (pmInitialise t v)) in *.
  pose proof (Acs_pos (Xm (pmInitialise t v))) as HA.
  set (A := (1.30 * Xm (pmInitialise t v) ^ 2 + 0.56) * 0.0047 / 0.057) in *.
  assert (Hd : 0 < inject_Z (option_HYD_STEP nw)).
  { unfold Qlt. simpl. lia. }
  split; [exact L1|]. split; [|split].
  - intros He Ha. rewrite L2.
    assert (B : (e >=? 0) = true) by (apply dle_true; lra). rewrite B.
    apply Qmult_lt_0_compat; [|exact Hd].
    apply Qlt_shift_div_l; [exact HA|].
    setoid_replace (0 * A) with 0 using relation Qeq by ring.
    apply Qmult_lt_0_compat; assumption.
  - intros He Ha. rewrite L2.
    assert (B : (e >=? 0) = false) by (apply dle_false; exact He). rewrite B.
    assert (N : 0 < (- (ac * e)) / A * inject_Z (option_HYD_STEP nw)).
    { apply Qmult_lt_0_compat; [|exact Hd].
      apply Qlt_shift_div_l; [exact HA|].
      setoid_replace (0 * A) with 0 using relation Qeq by ring.
      setoid_replace (- (ac * e)) with (ac * (- e)) using relation Qeq by ring.
      apply Qmult_lt_0_compat; lra. }
    assert (M : - (ac * e) / A * inject_Z (option_HYD_STEP nw)
                == - (ac * e / A * inject_Z (option_HYD_STEP nw)))
      by (field; lra).
    rewrite M in N. lra.
  - intros He. rewrite L2.
    assert (B : (e >=? 0) = true) by (apply dle_true; lra).
    rewrite B, He. field. lra.
Qed.

(** X18.  The setpoint is a fixed point of the loop of [EN_runEpanet]:
    after [lasting] has stored an opening within [0, 1], a later call
    (t <> 0) on an active valve whose downstream pressure is at the setpoint
    makes no increment and leaves the opening where it was. *)
Theorem X18_steady_state nw t ao ac Kp Ki Kd ref v :
  t <> 0%Z -> status v = VALVE_ACTIVE -> 0 <= Xm v <= 1 ->
  (forall r, (presManagType v = TM -> r = ref) ->
             setpoint nw t r v == pTarget nw v) ->
  let v' := snd (pressureManagementValve nw t ao ac Kp Ki Kd ref
                   (lastingValve v)) in
  delta_Xm v' == 0 /\ Xm v' == Xm v.
Proof.
  intros Ht Hs Hx He. cbv zeta.
  assert (Hs1 : status (lastingValve v) = VALVE_ACTIVE) by exact Hs.
  destruct (pressureManagementValve_active_law nw t ao ac Kp Ki Kd ref
              (lastingValve v) Hs1) as [r [Hr H]].
  cbv zeta in H. destruct H as [L1 [L2 [L3 L4]]].
  assert (I : pmInitialise t (lastingValve v) = lastingValve v).
  { unfold pmInitialise. destruct (Z.eqb_spec t 0);
      [contradiction | reflexivity]. }
  rewrite I in *.
  assert (E0 : setpoint nw t r (lastingValve v) - pTarget nw (lastingValve v)
               == 0).
  { change (setpoint nw t r v - pTarget nw v == 0). rewrite (He r Hr). ring. }
  assert (D : delta_Xm (snd (pressureManagementValve nw t ao ac Kp Ki Kd ref
                               (lastingValve v))) == 0).
  { rewrite L2.
    assert (B : (setpoint nw t r (lastingValve v)
                 - pTarget nw (lastingValve v) >=? 0) = true)
      by (apply dle_true; rewrite E0; lra).
    rewrite B, E0. field.
    apply Acs_den_nonzero. }
  split; [exact D|].
  rewrite L3, D.
  change (Xm_Last (lastingValve v)) with (Xm v).
  rewrite <- (clamp01_id (Xm v) Hx) at 2. apply clamp01_proper. ring.
Qed.

(** The body of the loop in two cases: the valve that enters the control law
    and the one that does not. *)
Lemma pressureManagementValve_cases nw t ao ac Kp Ki Kd ref v :
  let v0 := pmInitialise t v in
  let w := if reopens nw v0 then v0 <| status := VALVE_ACTIVE |> else v0 in
  let v' := snd (pressureManagementValve nw t ao ac Kp Ki Kd ref v) in
  (status w = VALVE_ACTIVE /\
   exists e, v' = pmClamp (pmControl ao ac (option_HYD_STEP nw)
                             (w <| errorValve := e |>))) \/
  (status w <> VALVE_ACTIVE /\ v' = pmClamp w).
Proof.
  cbv zeta. rewrite pressureManagementValve_eq. cbv zeta.
  rewrite pmReopen_snd.
  generalize (fst (pmReopen nw ref (pmInitialise t v))). intros r.
  generalize (if reopens nw (pmInitialise t v)
              then (pmInitialise t v) <| status := VALVE_ACTIVE |>
              else pmInitialise t v). intros w.
  destruct (LinkStatus_eqb (status w) VALVE_ACTIVE) eqn:E.
  - left. apply LinkStatus_eqb_eq in E. split; [exact E|].
    eexists. cbn [snd]. rewrite pmError_snd. reflexivity.
  - right. split; [|reflexivity].
    intro H. rewrite H in E. discriminate.
Qed.

(** X19.  The call at t = 0 forgets the controller state a valve came with:
    whatever it held, afterwards the last opening is 0.2, the error sum and
    difference are 0 and the previous error is 0.5; a valve that is not
    active is left at opening 0.2 with no increment and no error, and an
    active one at 0.2 plus its increment, brought into [0, 1]. *)
Theorem X19_first_call_resets nw ao ac Kp Ki Kd ref v :
  let v' := snd (pressureManagementValve nw 0 ao ac Kp Ki Kd ref v) in
  Xm_Last v' = 0.2 /\ errorSumValve v' = 0 /\ errorDifValve v' = 0 /\
  errorPreValve v' = 0.5 /\
  (status v' <> VALVE_ACTIVE ->
   Xm v' = 0.2 /\ delta_Xm v' = 0 /\ errorValve v' = 0) /\
  (status v' = VALVE_ACTIVE -> Xm v' == clamp01 (0.2 + delta_Xm v')).
Proof.
  cbv zeta.
  destruct (pressureManagementValve_cases nw 0 ao ac Kp Ki Kd ref v)
    as [[Hs [e ->]] | [Hs ->]]; cbv zeta in Hs.
  - assert (F : forall w e,
        Xm_Last w = 0.2 -> errorSumValve w = 0 -> errorDifValve w = 0 ->
        errorPreValve w = 0.5 -> status w = VALVE_ACTIVE ->
        let v' := pmClamp (pmControl ao ac (option_HYD_STEP nw)
                             (w <| errorValve := e |>)) in
        Xm_Last v' = 0.2 /\ errorSumValve v' = 0 /\ errorDifValve v' = 0 /\
        errorPreValve v' = 0.5 /\
        (status v' <> VALVE_ACTIVE ->
         Xm v' = 0.2 /\ delta_Xm v' = 0 /\ errorValve v' = 0) /\
        (status v' = VALVE_ACTIVE -> Xm v' == clamp01 (0.2 + delta_Xm v'))).
    { intros w e0 H1 H2 H3 H4 H5. cbv zeta.
      destruct (pmControl_law ao ac (option_HYD_STEP nw) w e0)
        as [L1 [L2 [L3 L4]]].
      rewrite pmClamp_Xm_Last, pmClamp_delta_Xm, L4, H1.
      assert (P : forall u, errorSumValve (pmClamp u) = errorSumValve u /\
                            errorDifValve (pmClamp u) = errorDifValve u /\
                            errorPreValve (pmClamp u) = errorPreValve u /\
                            status (pmClamp u) = status u).
      { intros u. unfold pmClamp. destruct (Xm u <? 0); destruct (_ >? 1);
          repeat split; reflexivity. }
      destruct (P (pmControl ao ac (option_HYD_STEP nw)
                     (w <| errorValve := e0 |>)))
        as [P1 [P2 [P3 P4]]].
      rewrite P1, P2, P3, P4.
      change (errorSumValve (pmControl ao ac (option_HYD_STEP nw)
                               (w <| errorValve := e0 |>)))
        with (errorSumValve w).
      change (errorDifValve (pmControl ao ac (option_HYD_STEP nw)
                               (w <| errorValve := e0 |>)))
        with (errorDifValve w).
      change (errorPreValve (pmControl ao ac (option_HYD_STEP nw)
                               (w <| errorValve := e0 |>)))
        with (errorPreValve w).
      change (status (pmControl ao ac (option_HYD_STEP nw)
                        (w <| errorValve := e0 |>)))
        with (status w).
      repeat split; try assumption; try congruence.
      intros _. rewrite pmClamp_Xm. apply clamp01_proper.
      rewrite L3, H1. reflexivity. }
    apply F; try exact Hs;
      destruct (reopens nw (pmInitialise 0 v)); reflexivity.
  - assert (F : forall w,
        Xm w = 0.2 -> Xm_Last w = 0.2 -> delta_Xm w = 0 -> errorValve w = 0 ->
        errorSumValve w = 0 -> errorDifValve w = 0 -> errorPreValve w = 0.5 ->
        status w <> VALVE_ACTIVE ->
        let v' := pmClamp w in
        Xm_Last v' = 0.2 /\ errorSumValve v' = 0 /\ errorDifValve v' = 0 /\
        errorPreValve v' = 0.5 /\
        (status v' <> VALVE_ACTIVE ->
         Xm v' = 0.2 /\ delta_Xm v' = 0 /\ errorValve v' = 0) /\
        (status v' = VALVE_ACTIVE -> Xm v' == clamp01 (0.2 + delta_Xm v'))).
    { intros w H0 H1 H2 H3 H4 H5 H6 H7. cbv zeta. unfold pmClamp. rewrite H0.
      assert (A : (0.2 <? 0) = false) by reflexivity.
      assert (B : (0.2 >? 1) = false) by reflexivity.
      rewrite A. rewrite H0, B.
      cbn [Xm Xm_Last delta_Xm errorValve errorSumValve errorDifValve
           errorPreValve status set set_Xm].
      repeat split; try assumption; try congruence. }
    apply F; try exact Hs;
      destruct (reopens nw (pmInitialise 0 v)); reflexivity.
Qed.

Lemma lastingValve_idem (v : Valve) :
  lastingValve (lastingValve v) = lastingValve v.
Proof. reflexivity. Qed.

Lemma lastingLink_idem (l : Link) : lastingLink (lastingLink l) = lastingLink l.
Proof.
  destruct l as [| |v]; try reflexivity. unfold lastingLink.
  destruct (valveType v) eqn:Et; rewrite ?Et; try reflexivity.
  change (valveType (lastingValve v)) with (valveType v). rewrite Et.
  rewrite lastingValve_idem. reflexivity.
Qed.

(** X20.  [lasting] acts link by link and only on DPRVs; after it every
    DPRV of the network has its last opening equal to its opening and its
    previous error equal to its error; and calling it twice is calling it
    once. *)
Theorem X20_lasting_stores_state (nw : Network) :
  links (lasting nw) = map lastingLink (links nw) /\
  lasting (lasting nw) = lasting nw /\
  (forall v, In (VALVE v) (links (lasting nw)) -> valveType v = DPRV ->
     Xm_Last v = Xm v /\ errorPreValve v = errorValve v).
Proof.
  assert (E : lasting nw = with_links (map lastingLink (links nw)) nw)
    by reflexivity.
  split; [rewrite E; reflexivity|]. split.
  - rewrite E. unfold lasting. cbn [links with_links].
    fold lastingLink. rewrite map_map.
    rewrite (map_ext _ _ lastingLink_idem). reflexivity.
  - rewrite E. cbn [links with_links]. intros v Hin Ht.
    apply in_map_iff in Hin. destruct Hin as [l [Hl _]].
    destruct l as [| |u]; try discriminate. unfold lastingLink in Hl.
    destruct (valveType u) eqn:Eu; injection Hl as <-; try congruence.
    split; reflexivity.
Qed.

End ControllerFurther.

(** ** The project layer *)

Section ProjectFurther.

Variables HydEngine OutputFile : Type.
Context {C : Collaborators HydEngine OutputFile}.

(** The store after [writeMsg]. *)
Lemma writeMsg_store (m : string) (s : Store HydEngine OutputFile) :
  exists p',
    writeMsg m s = (Returns tt, (p', snd s)) /\
    msgLog (network p') = (msgLog (network (fst s)) ++ m)%string /\
    links (network p') = links (network (fst s)) /\
    hydEngine p' = hydEngine (fst s) /\ outputFile p' = outputFile (fst s) /\
    solverInitialized p' = solverInitialized (fst s) /\
    outputFileOpened p' = outputFileOpened (fst s).
Proof. eexists. unfold writeMsg. repeat split. Qed.

(** X21.  When the hydraulic engine throws, [runSolver] returns the code of
    the error, the time is the one the engine left, nothing but the message
    log of the project the engine left is changed (the links in particular
    stay), the log gets the message of the error appended, and no results
    are written. *)
Theorem X21_runSolver_solve_failure (p : Project HydEngine OutputFile) (t : Z)
  (e : ENerror) (s1 : Store HydEngine OutputFile) :
  solverInitialized p = true -> solve (p, t) = (Throws e, s1) ->
  exists p',
    runSolver (p, t) = (Returns (code e), (p', snd s1)) /\
    msgLog (network p') = (msgLog (network (fst s1)) ++ msg e)%string /\
    links (network p') = links (network (fst s1)) /\
    hydEngine p' = hydEngine (fst s1) /\ outputFile p' = outputFile (fst s1).
Proof.
  intros Hi Hs.
  destruct (writeMsg_store (msg e) s1) as [p' [W [H1 [H2 [H3 [H4 _]]]]]].
  exists p'. split; [|repeat split; assumption].
  unfold runSolver, try_catch, bind, getProject.
  cbn [fst snd]. rewrite Hi. cbn [negb ret]. rewrite Hs. rewrite W. reflexivity.
Qed.

(** X22.  When the engine succeeds, the output file is open and the time it
    left is a multiple of the report step, a failure of
    [writeNetworkResults] is reported in the same way: [runSolver] returns
    the code of the error and appends its message to the log. *)
Theorem X22_runSolver_write_failure (p : Project HydEngine OutputFile) (t : Z)
  (e : ENerror) (s1 s2 : Store HydEngine OutputFile) :
  solverInitialized p = true -> solve (p, t) = (Returns tt, s1) ->
  outputFileOpened (fst s1) = true ->
  int_rem (snd s1) (option_REPORT_STEP (network (fst s1))) = Some 0%Z ->
  writeNetworkResults s1 = (Throws e, s2) ->
  exists p',
    runSolver (p, t) = (Returns (code e), (p', snd s2)) /\
    msgLog (network p') = (msgLog (network (fst s2)) ++ msg e)%string.
Proof.
  intros Hi Hs Ho Hr Hw.
  destruct (writeMsg_store (msg e) s2) as [p' [W [H1 _]]].
  exists p'. split; [|assumption].
  unfold runSolver, try_catch, bind, getProject, getT.
  cbn [fst snd]. rewrite Hi. cbn [negb ret]. rewrite Hs, Ho, Hr.
  cbn [Z.eqb]. rewrite Hw, W. reflexivity.
Qed.

(** X23.  [saveOutput] does nothing and returns 0 while no output file is
    open; with an open file it returns 0 when the results are written, and
    the code of the error, with the message appended to the log, when
    writing throws; no exception leaves it. *)
Theorem X23_saveOutput (s : Store HydEngine OutputFile) :
  (outputFileOpened (fst s) = false -> saveOutput s = (Returns 0%Z, s)) /\
  (outputFileOpened (fst s) = true ->
   (forall s', writeNetworkResults s = (Returns tt, s') ->
               saveOutput s = (Returns 0%Z, s')) /\
   (forall e s', writeNetworkResults s = (Throws e, s') ->
      exists p', saveOutput s = (Returns (code e), (p', snd s')) /\
                 msgLog (network p')
                 = (msgLog (network (fst s')) ++ msg e)%string)) /\
  (forall e, fst (saveOutput s) <> Throws e).
Proof.
  split; [|split].
  - intros H. unfold saveOutput. rewrite H. reflexivity.
  - intros H. split.
    + intros s' Hw. unfold saveOutput, try_catch, bind. rewrite H, Hw.
      reflexivity.
    + intros e s' Hw. destruct (writeMsg_store (msg e) s') as [p' [W [H1 _]]].
      exists p'. split; [|exact H1].
      unfold saveOutput, try_catch, bind. rewrite H, Hw. cbn [negb]. rewrite W.
      reflexivity.
  - intros e. unfold saveOutput. destruct (negb _); [discriminate|].
    apply try_catch_no_throw. intros e0 s0 e'. discriminate.
Qed.

End ProjectFurther.

Lemma string_app_nil_r (a : string) : (a ++ "")%string = a.
Proof. induction a; simpl; congruence. Qed.

(** X24.  [writeMsgLog] hands the whole log to the stream and empties it:
    the stream gets the log appended, the log is empty afterwards, the
    links stay, and a second call writes nothing more. *)
Theorem X24_writeMsgLog_flushes_once (out : string) (nw : Network) :
  let r := writeMsgLog out nw in
  fst r = (out ++ msgLog nw)%string /\ msgLog (snd r) = EmptyString /\
  links (snd r) = links nw /\
  writeMsgLog (fst r) (snd r) = (fst r, snd r).
Proof.
  cbv zeta. unfold writeMsgLog. cbn [fst snd msgLog with_msgLog links].
  repeat split.
  rewrite string_app_nil_r. reflexivity.
Qed.

(** ** Concrete runs of the further properties *)

(** X1 on the demonstration PSV: active, with a downstream head above its
    head setting of 30, it opens. *)
Lemma X1_witness :
  valveType demo_psv = PSV /\ hasFixedStatus demo_psv = false /\
  elev demo_psv = Node.elev (node demo_network (fromNode demo_psv)) /\
  ~ 0 < - ZERO_FLOW (Constants := epanet_constants) /\
  50 > setting demo_psv + Node.elev (node demo_network (fromNode demo_psv)) /\
  status (updateStatus (K := epanet_constants) demo_network 0 100 50 demo_psv)
  = LINK_OPEN.
Proof.
  assert (Hq : ~ 0 < - ZERO_FLOW (Constants := epanet_constants))
    by (intro H; vm_compute in H; discriminate H).
  assert (Hh : 50 > setting demo_psv
                    + Node.elev (node demo_network (fromNode demo_psv)))
    by reflexivity.
  split; [reflexivity|]. split; [reflexivity|]. split; [reflexivity|].
  split; [exact Hq|]. split; [exact Hh|].
  exact (proj1 (proj2 (X1_psv_status_transitions (K := epanet_constants)
                         demo_network 0 100 50 demo_psv
                         eq_refl eq_refl eq_refl)) Hq Hh).
Defined.

(** X2 on the demonstration valve: a rule closes it for good. *)
Lemma X2_witness :
  let r := changeStatus (K := epanet_constants) LINK_CLOSED true "rule" ""
             demo_valve in
  hasFixedStatus demo_valve = false /\
  fst (fst r) = true /\ status (snd (fst r)) = LINK_CLOSED /\
  hasFixedStatus (snd (fst r)) = true /\
  flow (snd (fst r)) = ZERO_FLOW (Constants := epanet_constants) /\
  updateStatus (K := epanet_constants) demo_network 1 100 50 (snd (fst r))
  = snd (fst r).
Proof.
  cbv zeta.
  destruct (X2_changeStatus_fixes_status (K := epanet_constants) demo_network
              LINK_CLOSED "rule" "" 1 100 50 demo_valve (or_introl eq_refl))
    as [H1 [_ [H3 [H4 [H5 [H6 _]]]]]].
  split; [reflexivity|]. split; [exact H1|]. split; [exact H3|].
  split; [exact H4|]. split; [exact H5 | exact H6].
Defined.

(** X3 on the demonstration valve, closed: a dry run of [changeSetting]
    still assigns the setting 0.5. *)
Lemma X3_witness :
  let v := demo_valve <| status := LINK_CLOSED |> in
  let r := changeSetting (K := epanet_constants) 0.5 false "rule" "" v in
  status v = LINK_CLOSED /\ valveType v <> CCV /\ ~ 0.5 == setting v /\
  fst (fst r) = false /\ setting (snd (fst r)) = 0.5.
Proof.
  cbv zeta.
  assert (Ht : valveType (demo_valve <| status := LINK_CLOSED |>) <> CCV)
    by discriminate.
  assert (Hx : ~ 0.5 == setting (demo_valve <| status := LINK_CLOSED |>))
    by (intro H; vm_compute in H; discriminate H).
  split; [reflexivity|]. split; [exact Ht|]. split; [exact Hx|].
  exact (proj2 (proj2 (proj2 (proj2 (proj2
           (X3_dry_run (K := epanet_constants) 0.5 LINK_OPEN "rule" ""
              (demo_valve <| status := LINK_CLOSED |>))))))
           eq_refl Ht Hx).
Defined.

(** X6 on the demonstration PRV. *)
Lemma X6_witness :
  ~ PI (Constants := epanet_constants) == 0 /\ ~ diameter demo_prv == 0 /\
  valveType demo_prv <> FCV /\
  getVelocity (K := epanet_constants)
    (setInitFlow (K := epanet_constants) demo_prv) == 1.
Proof.
  assert (Hp : ~ PI (Constants := epanet_constants) == 0)
    by (intro H; vm_compute in H; discriminate H).
  assert (Hd : ~ diameter demo_prv == 0)
    by (intro H; vm_compute in H; discriminate H).
  assert (Hf : valveType demo_prv <> FCV) by discriminate.
  split; [exact Hp|]. split; [exact Hd|]. split; [exact Hf|].
  apply (X6_setInitFlow_unit_velocity (K := epanet_constants) demo_prv
           Hp Hd Hf).
  intros [H | H]; discriminate H.
Defined.

(** X7 on the demonstration PRV with an initial setting of 30 psi, on the
    network with pressures in psi: the setting is held as [30 / 0.4333] feet
    and read back as 30 (as it is in binary64 too at these values). *)
Lemma X7_witness :
  let v := initialize (K := epanet_constants) true
             (convertUnits demo_network_psi (demo_prv <| initSetting := 30 |>)) in
  ~ ucf_PRESSURE demo_network_psi == 0 /\ ~ ucf_FLOW demo_network_psi == 0 /\
  ~ ucf_PRESSURE demo_network_psi == 1 /\
  setting v == 30 / 0.4333 /\
  getSetting demo_network_psi v == 30.
Proof.
  cbv zeta.
  assert (Hp : ~ ucf_PRESSURE demo_network_psi == 0) by Q_differ.
  assert (Hf : ~ ucf_FLOW demo_network_psi == 0) by Q_differ.
  assert (H1 : ~ ucf_PRESSURE demo_network_psi == 1) by Q_differ.
  split; [exact Hp|]. split; [exact Hf|]. split; [exact H1|].
  split; [vm_compute; reflexivity|].
  exact (proj2 (X7_setting_round_trip (K := epanet_constants)
                  demo_network_psi true (demo_prv <| initSetting := 30 |>))
           Hp Hf).
Defined.

(** X8 on the demonstration valve at a reverse flow of 2: the head loss is
    negative with it. *)
Lemma X8_witness :
  0 <= lossFactor demo_valve /\
  0 <= MIN_GRADIENT (Constants := epanet_constants) /\
  0 <= hLoss (findOpenHeadLoss (K := epanet_constants) (- (2)) demo_valve)
       * - (2).
Proof.
  assert (Hl : 0 <= lossFactor demo_valve) by discriminate.
  assert (Hm : 0 <= MIN_GRADIENT (Constants := epanet_constants))
    by discriminate.
  split; [exact Hl|]. split; [exact Hm|].
  exact (proj1 (proj2 (X8_open_head_loss (K := epanet_constants) (- (2))
                         demo_valve)) Hl Hm).
Defined.

(** X10 on the demonstration CCV, closed, once it has the setting 0.5:
    [findHeadLoss] opens it. *)
Lemma X10_witness :
  let v := demo_ccv <| setting := 0.5 |> in
  valveType v = CCV /\ hasFixedStatus v = false /\ status v = LINK_CLOSED /\
  status (findHeadLoss (K := epanet_constants) demo_network 0 1 v) = LINK_OPEN.
Proof.
  cbv zeta.
  assert (Hs : status (demo_ccv <| setting := 0.5 |>) <> TEMP_CLOSED)
    by discriminate.
  split; [reflexivity|]. split; [reflexivity|]. split; [reflexivity|].
  exact (proj2 (proj2 (X10_findHeadLoss_status (K := epanet_constants)
                         demo_network 0 1 (demo_ccv <| setting := 0.5 |>)))
           eq_refl eq_refl Hs).
Defined.

(** X11 on the same CCV: it keeps the loss factor of the opening 0.5. *)
Lemma X11_witness :
  let v := demo_ccv <| setting := 0.5 |> in
  valveType v = CCV /\ hasFixedStatus v = false /\ status v <> TEMP_CLOSED /\
  ~ setting v == 0 /\ option_VALVE_REP_TYPE demo_network = "Toe"%string /\
  lossFactor (findHeadLoss (K := epanet_constants) demo_network 0 1 v)
  = 1 / (16.96 * 16.96 * (0.5 * 0.5)).
Proof.
  cbv zeta.
  assert (Hs : status (demo_ccv <| setting := 0.5 |>) <> TEMP_CLOSED)
    by discriminate.
  assert (Hz : ~ setting (demo_ccv <| setting := 0.5 |>) == 0)
    by (intro H; vm_compute in H; discriminate H).
  split; [reflexivity|]. split; [reflexivity|]. split; [exact Hs|].
  split; [exact Hz|]. split; [reflexivity|].
  exact (proj2 (proj2 (proj2
           (X11_findHeadLoss_lossFactor (K := epanet_constants) demo_network
              0 1 (demo_ccv <| setting := 0.5 |>))))
           eq_refl eq_refl Hs Hz eq_refl).
Defined.

(** X12 on the demonstration FCV, of setting 2, at the flow 3. *)
Lemma X12_witness :
  0 <= setting demo_fcv /\
  MIN_GRADIENT (Constants := epanet_constants)
  <= 2 * lossFactor demo_fcv * setting demo_fcv /\
  setting demo_fcv < 3 /\
  hLoss (findFcvHeadLoss (K := epanet_constants) 3 demo_fcv)
  - hLoss (findFcvHeadLoss (K := epanet_constants) (setting demo_fcv) demo_fcv)
  == 1e8 * (3 - 2).
Proof.
  assert (H0 : 0 <= setting demo_fcv) by discriminate.
  assert (H1 : MIN_GRADIENT (Constants := epanet_constants)
               <= 2 * lossFactor demo_fcv * setting demo_fcv)
    by (vm_compute; discriminate).
  assert (H2 : setting demo_fcv < 3) by reflexivity.
  split; [exact H0|]. split; [exact H1|]. split; [exact H2|].
  exact (proj1 (proj2 (X12_fcv_continuous_at_setting (K := epanet_constants)
                         3 demo_fcv H0 H1 H2))).
Defined.

(** X13 between the openings 0.1 and 0.5, on either side of 0.12. *)
Lemma X13_witness :
  0 < 0.1 /\ 0.1 <= 0.5 /\ 0.5 <= 1 /\ dprvCv 0 0.1 <= dprvCv 0 0.5.
Proof.
  assert (H0 : 0 < 0.1) by reflexivity.
  assert (H1 : 0.1 <= 0.5) by discriminate.
  assert (H2 : 0.5 <= 1) by discriminate.
  split; [exact H0|]. split; [exact H1|]. split; [exact H2|].
  exact (proj1 (X13_dprv_coefficient_monotone 0 0.1 0.5 H0 H1 H2)).
Defined.

(** X14 on the demonstration network: the PRV at index 3 is left as it
    is. *)
Lemma X14_witness :
  let l := VALVE (demo_valve <| valveType := PRV |>) in
  nth_error (links demo_network) 3 = Some l /\
  nth_error
    (links (snd (pressureManagement demo_network 7 []
                   1e-6 1e-6 0 0 0 0))) 3 = Some l.
Proof.
  cbv zeta. split; [reflexivity|].
  apply (proj2 (proj2 (X14_trace_records_final_openings demo_network 7 []
                         1e-6 1e-6 0 0 0 0)) 3%nat
           (VALVE (demo_valve <| valveType := PRV |>)) eq_refl).
  intros v H. injection H as <-. discriminate.
Defined.

(** X15 on the demonstration valve, closed, with a fixed outlet pressure of
    45 between the downstream pressure 40 and the upstream pressure 100: the
    call makes it active. *)
Lemma X15_witness :
  let v := demo_valve <| status := LINK_CLOSED |>
                      <| fixedOutletPressure := 45 |> in
  reopens demo_network v = true /\
  status (snd (pressureManagementValve demo_network 7
                 1e-6 1e-6 0 0 0 0 v)) = VALVE_ACTIVE /\
  pressureAt demo_network (toNode v)
  < fixedOutletPressure v / ucf_PRESSURE demo_network.
Proof.
  cbv zeta.
  assert (Hr : reopens demo_network
                 (demo_valve <| status := LINK_CLOSED |>
                             <| fixedOutletPressure := 45 |>) = true)
    by (vm_compute; reflexivity).
  pose proof (X15_controller_only_reactivates
                demo_network 7 1e-6 1e-6 0 0 0 0
                (demo_valve <| status := LINK_CLOSED |>
                            <| fixedOutletPressure := 45 |>)) as H.
  cbv zeta in H. destruct H as [H1 [_ H3]].
  split; [exact Hr|]. split.
  - rewrite H1, Hr. reflexivity.
  - exact (proj2 (proj2 (proj2 (H3 Hr)))).
Defined.

(** X16 on the demonstration valve, open, with an opening of 1.5: the call
    only brings the opening back to 1. *)
Lemma X16_witness :
  let v := demo_valve <| status := LINK_OPEN |> <| Xm := 1.5 |> in
  let v' := snd (pressureManagementValve demo_network 7
                   1e-6 1e-6 0 0 0 0 v) in
  status v <> VALVE_ACTIVE /\ reopens demo_network v = false /\
  Xm v' == 1 /\ errorValve v' = errorValve v.
Proof.
  cbv zeta.
  assert (Hs : status (demo_valve <| status := LINK_OPEN |> <| Xm := 1.5 |>)
               <> VALVE_ACTIVE) by discriminate.
  assert (Hr : reopens demo_network
                 (demo_valve <| status := LINK_OPEN |> <| Xm := 1.5 |>)
               = false) by reflexivity.
  pose proof (X16_inactive_valve_not_controlled
                demo_network 7 1e-6 1e-6 0 0 0 0
                (demo_valve <| status := LINK_OPEN |> <| Xm := 1.5 |>)
                Hs Hr) as H.
  cbv zeta in H. destruct H as [H1 [_ [H3 _]]].
  split; [exact Hs|]. split; [exact Hr|]. split.
  - rewrite H1. vm_compute. reflexivity.
  - exact H3.
Defined.

(** X17 on the demonstration valve: its downstream pressure 40 is above the
    fixed outlet pressure 30, and the valve closes further. *)
Lemma X17_witness :
  status demo_valve = VALVE_ACTIVE /\ (0 < option_HYD_STEP demo_network)%Z /\
  delta_Xm (snd (pressureManagementValve demo_network 7
                   1e-6 1e-6 0 0 0 0 demo_valve)) < 0.
Proof.
  assert (Hd : (0 < option_HYD_STEP demo_network)%Z) by reflexivity.
  split; [reflexivity|]. split; [exact Hd|].
  destruct (X17_control_direction demo_network 7
              1e-6 1e-6 0 0 0 0 demo_valve eq_refl Hd)
    as [r [_ H]].
  cbv zeta in H. destruct H as [_ [_ [Hneg _]]].
  apply Hneg; reflexivity.
Defined.

(** X18 on the demonstration valve with a fixed outlet pressure of 40, the
    downstream pressure: the opening stays at 0.5. *)
Lemma X18_witness :
  let v := demo_valve <| fixedOutletPressure := 40 |> in
  status v = VALVE_ACTIVE /\ 0 <= Xm v <= 1 /\
  setpoint demo_network 7 0 v == pTarget demo_network v /\
  Xm (snd (pressureManagementValve demo_network 7
             1e-6 1e-6 0 0 0 0 (lastingValve v))) == 0.5.
Proof.
  cbv zeta.
  assert (Ht : 7%Z <> 0%Z) by discriminate.
  assert (Hx : 0 <= Xm (demo_valve <| fixedOutletPressure := 40 |>) <= 1)
    by (split; discriminate).
  assert (He : forall r,
             (presManagType (demo_valve <| fixedOutletPressure := 40 |>) = TM
              -> r = 0) ->
             setpoint demo_network 7 r
               (demo_valve <| fixedOutletPressure := 40 |>)
             == pTarget demo_network
                  (demo_valve <| fixedOutletPressure := 40 |>))
    by (intros r _; reflexivity).
  split; [reflexivity|]. split; [exact Hx|].
  split; [apply He; discriminate|].
  exact (proj2 (X18_steady_state demo_network 7
                  1e-6 1e-6 0 0 0 0
                  (demo_valve <| fixedOutletPressure := 40 |>)
                  Ht eq_refl Hx He)).
Defined.

(** X19 on the demonstration valve, which came half open: after the first
    call its opening is counted from 0.2. *)
Lemma X19_witness :
  let v' := snd (pressureManagementValve demo_network 0
                   1e-6 1e-6 0 0 0 0 demo_valve) in
  Xm demo_valve == 0.5 /\ status v' = VALVE_ACTIVE /\
  Xm v' == clamp01 (0.2 + delta_Xm v').
Proof.
  cbv zeta.
  assert (Hs : status (snd (pressureManagementValve
                              demo_network 0 1e-6 1e-6 0 0 0 0 demo_valve))
               = VALVE_ACTIVE) by (vm_compute; reflexivity).
  split; [reflexivity|]. split; [exact Hs|].
  exact (proj2 (proj2 (proj2 (proj2 (proj2
           (X19_first_call_resets demo_network
              1e-6 1e-6 0 0 0 0 demo_valve))))) Hs).
Defined.

(** X20 on a network whose DPRV was moved to the opening 0.7. *)
Lemma X20_witness :
  let nw := with_links [VALVE (demo_valve <| Xm := 0.7 |>)] demo_network in
  let v := lastingValve (demo_valve <| Xm := 0.7 |>) in
  In (VALVE v) (links (lasting nw)) /\ valveType v = DPRV /\
  Xm_Last (demo_valve <| Xm := 0.7 |>) == 0.5 /\ Xm_Last v = Xm v.
Proof.
  cbv zeta.
  assert (Hin : In (VALVE (lastingValve (demo_valve <| Xm := 0.7 |>)))
                  (links (lasting
                            (with_links [VALVE (demo_valve <| Xm := 0.7 |>)]
                               demo_network))))
    by (left; reflexivity).
  split; [exact Hin|]. split; [reflexivity|]. split; [reflexivity|].
  exact (proj1 (proj2 (proj2
           (X20_lasting_stores_state
              (with_links [VALVE (demo_valve <| Xm := 0.7 |>)] demo_network)))
           _ Hin eq_refl)).
Defined.

(** X21 with an engine that fails with error 7 after moving the clock to
    60. *)
Lemma X21_witness :
  solverInitialized (demo_project true) = true /\
  exists p',
    runSolver (C := failing_collaborators) (demo_project true, 0%Z)
    = (Returns 7%Z, (p', 60%Z)) /\
    msgLog (network p') = "no convergence"%string.
Proof.
  split; [reflexivity|].
  destruct (X21_runSolver_solve_failure unit unit (C := failing_collaborators)
              (demo_project true) 0%Z
              {| code := 7; msg := "no convergence" |}
              (demo_project true, 60%Z) eq_refl eq_refl)
    as [p' [H1 [H2 _]]].
  exists p'. split; [exact H1 | exact H2].
Defined.

(** X22 with a writer that fails with error 9 at the report time 3600. *)
Lemma X22_witness :
  int_rem 3600 (option_REPORT_STEP demo_network) = Some 0%Z /\
  exists p',
    runSolver (C := write_failing_collaborators) (demo_project true, 0%Z)
    = (Returns 9%Z, (p', 3600%Z)) /\
    msgLog (network p') = "cannot write"%string.
Proof.
  split; [reflexivity|].
  destruct (X22_runSolver_write_failure unit unit
              (C := write_failing_collaborators)
              (demo_project true) 0%Z
              {| code := 9; msg := "cannot write" |}
              (demo_project true, 3600%Z) (demo_project true, 3600%Z)
              eq_refl eq_refl eq_refl eq_refl eq_refl)
    as [p' [H1 H2]].
  exists p'. split; [exact H1 | exact H2].
Defined.

(** X23 with the same writer: [saveOutput] returns 9 and logs the
    message. *)
Lemma X23_witness :
  outputFileOpened (demo_project true) = true /\
  exists p',
    saveOutput (C := write_failing_collaborators) (demo_project true, 7%Z)
    = (Returns 9%Z, (p', 7%Z)) /\
    msgLog (network p') = "cannot write"%string.
Proof.
  split; [reflexivity|].
  destruct (proj2 (proj1 (proj2
              (X23_saveOutput unit unit (C := write_failing_collaborators)
                 (demo_project true, 7%Z))) eq_refl)
              {| code := 9; msg := "cannot write" |}
              (demo_project true, 7%Z) eq_refl)
    as [p' [H1 H2]].
  exists p'. split; [exact H1 | exact H2].
Defined.
